(** * Dmf_RequestTarget.c: request lifecycle of the RequestTarget Module

    A shallow embedding of the request bookkeeping of
    [Dmf/Modules.Library/Dmf_RequestTarget.c]: the unique-id counter, the two
    request collections, the completion path, the create-and-send and reuse
    Methods, cancel and close.

    The framework (WDF, DMF) is not part of the Module: every answer the
    framework or the I/O target gives to a call is an argument of the embedded
    function (a record of answers), and every framework object the Module
    touches lives in an explicit store. *)

From stdpp Require Import gmap list.
From Stdlib Require Import ZArith Lia.

Local Open Scope Z_scope.

(** ** Scalars *)

(** [NTSTATUS] is a signed 32-bit value; [NT_SUCCESS] is the sign test. *)
Definition NTSTATUS := Z.
Definition NT_SUCCESS (ntStatus : NTSTATUS) : bool := bool_decide (0 ≤ ntStatus).

Definition STATUS_SUCCESS : NTSTATUS := 0.
(** 0xC0000001, 0xC000000D and 0xC00002F0 read as signed 32-bit values. *)
Definition STATUS_UNSUCCESSFUL : NTSTATUS := -1073741823.
Definition STATUS_INVALID_PARAMETER : NTSTATUS := -1073741811.
Definition STATUS_OBJECTID_NOT_FOUND : NTSTATUS := -1073741072.

(** [LONGLONG]: a signed 64-bit value kept in [Z], with its wrap-around. *)
Definition LONGLONG := Z.
Definition LONGLONG_wrap (x : Z) : LONGLONG := (x + 2 ^ 63) mod 2 ^ 64 - 2 ^ 63.
Definition InterlockedIncrement64 (Addend : LONGLONG) : LONGLONG :=
  LONGLONG_wrap (Addend + 1).

Definition size_t := N.

(** Handles and pointers are never NULL in these types; a variable that may be
    NULL is an [option]. *)
Definition WDFREQUEST := positive.
Definition WDFMEMORY := positive.
Definition WDFIOTARGET := positive.
Definition PVOID := positive.
(** A client completion callback (a function pointer), named by its address. *)
Definition EVT_DMF_RequestTarget_SendCompletion := positive.

(** The cookies handed to the client carry the 64-bit id. *)
Definition RequestTarget_DmfRequestCancel := LONGLONG.
Definition RequestTarget_DmfRequestReuse := LONGLONG.

(** The request types the Module switches on; anything else takes the
    [default] branch of those switches. *)
Inductive ContinuousRequestTarget_RequestType :=
  | ContinuousRequestTarget_RequestType_Invalid
  | ContinuousRequestTarget_RequestType_InternalIoctl
  | ContinuousRequestTarget_RequestType_Ioctl
  | ContinuousRequestTarget_RequestType_Read
  | ContinuousRequestTarget_RequestType_Write.

(** [.._Dispatch] is the same enumerator as [.._Default]. *)
Inductive ContinuousRequestTarget_CompletionOptions :=
  | ContinuousRequestTarget_CompletionOptions_Default
  | ContinuousRequestTarget_CompletionOptions_Passive
  | ContinuousRequestTarget_CompletionOptions_Maximum.
Definition ContinuousRequestTarget_CompletionOptions_Dispatch :=
  ContinuousRequestTarget_CompletionOptions_Default.

Global Instance RequestType_eq_dec : EqDecision ContinuousRequestTarget_RequestType.
Proof. solve_decision. Defined.
Global Instance CompletionOptions_eq_dec :
  EqDecision ContinuousRequestTarget_CompletionOptions.
Proof. solve_decision. Defined.

(** ** Module private structures *)

Record UNIQUE_REQUEST := {
  UniqueRequestIdCancel : LONGLONG;
  UniqueRequestIdReuse : LONGLONG;
  RequestInUse : bool
}.

(** A request context is zeroed when the framework creates the request. *)
Definition UNIQUE_REQUEST_zero : UNIQUE_REQUEST :=
  {| UniqueRequestIdCancel := 0; UniqueRequestIdReuse := 0; RequestInUse := false |}.

Record RequestTarget_SingleAsynchronousRequestContext := {
  SingleAsynchronousRequestType : ContinuousRequestTarget_RequestType;
  EvtRequestTargetSingleAsynchronousRequest : option EVT_DMF_RequestTarget_SendCompletion;
  SingleAsynchronousCallbackClientContext : option PVOID
}.

(** The members of [WDF_REQUEST_COMPLETION_PARAMS] the Module reads. *)
Record WDF_REQUEST_COMPLETION_PARAMS := {
  Read_Buffer : option WDFMEMORY;
  Read_Length : size_t;
  Write_Buffer : option WDFMEMORY;
  Write_Length : size_t;
  Ioctl_Input_Buffer : option WDFMEMORY;
  Ioctl_Output_Buffer : option WDFMEMORY;
  Ioctl_Output_Length : size_t
}.

Record RequestTarget_QueuedWorkitemContext := {
  wi_Request : WDFREQUEST;
  wi_CompletionParams : WDF_REQUEST_COMPLETION_PARAMS;
  wi_SingleAsynchronousRequestContext : PVOID;
  wi_ReuseRequest : bool
}.

(** The four completion routines a request can carry. *)
Inductive CompletionRoutine :=
  | RequestTarget_CompletionRoutine
  | RequestTarget_CompletionRoutineReuse
  | RequestTarget_CompletionRoutinePassive
  | RequestTarget_CompletionRoutinePassiveReuse.

(** ** Framework objects *)

(** A framework request: its [UNIQUE_REQUEST] context, the references taken on
    it besides the one of its creation, whether [WdfObjectDelete] was called on
    it, and the completion routine set on it with its context pointer. An
    object stays in the store after its deletion, flagged [Deleted]. *)
Record RequestObject := {
  Context : UNIQUE_REQUEST;
  ReferenceCount : nat;
  Deleted : bool;
  Completion : option (CompletionRoutine * PVOID)
}.

(** A memory object made by [WdfMemoryCreatePreallocated] around a caller
    buffer, parented to a request. *)
Record MemoryObject := {
  Buffer : option PVOID;
  BufferSize : size_t;
  ParentObject : WDFREQUEST
}.

(** The two collections of the Module context, named as handles. *)
Inductive WDFCOLLECTION :=
  | Collection_PendingAsynchronousRequests
  | Collection_PendingReuseRequests.

(** [DMF_CONTEXT_RequestTarget]: a collection field holds the items of the
    collection in insertion order, or [None] when the handle is NULL. The two
    child Modules (buffer pool, queued workitem) are in [State]. *)
Record DMF_CONTEXT_RequestTarget := {
  IoTarget : option WDFIOTARGET;
  PendingAsynchronousRequests : option (list WDFREQUEST);
  PendingReuseRequests : option (list WDFREQUEST)
}.

(** The calls to the counter, the target and the client that the Module makes,
    most recent first in [Trace]. *)
Inductive Call :=
  | Call_InterlockedIncrement64 (result : LONGLONG)
  | Call_WdfRequestReuse (Request : WDFREQUEST)
  | Call_FormatRequest (Request : WDFREQUEST) (RequestType : ContinuousRequestTarget_RequestType)
  | Call_WdfRequestSend (Request : WDFREQUEST) (synchronous : bool)
  | Call_WdfRequestCancelSentRequest (Request : WDFREQUEST)
  | Call_EvtSendCompletion (Evt : EVT_DMF_RequestTarget_SendCompletion)
      (OutputBufferSize : size_t) (CompletionStatus : NTSTATUS).

Record State := {
  g_ContinuousRequestTargetUniqueId : LONGLONG;
  Requests : gmap WDFREQUEST RequestObject;
  Memories : gmap WDFMEMORY MemoryObject;
  (** buffers of [DmfModuleBufferPoolContext] handed out and not yet put back *)
  BufferPoolLent : gmap PVOID RequestTarget_SingleAsynchronousRequestContext;
  (** [DmfModuleQueuedWorkitemSingle]: enqueued and not yet run, oldest first *)
  QueuedWorkitems : list RequestTarget_QueuedWorkitemContext;
  (** references held on the Module ([DMF_ModuleReference]) *)
  ModuleReferences : Z;
  moduleContext : DMF_CONTEXT_RequestTarget;
  Trace : list Call
}.

(** *** Field updates *)

Definition set_UniqueId (v : LONGLONG) (s : State) : State :=
  {| g_ContinuousRequestTargetUniqueId := v; Requests := Requests s;
     Memories := Memories s; BufferPoolLent := BufferPoolLent s;
     QueuedWorkitems := QueuedWorkitems s; ModuleReferences := ModuleReferences s;
     moduleContext := moduleContext s; Trace := Trace s |}.

Definition set_Requests (f : gmap WDFREQUEST RequestObject → gmap WDFREQUEST RequestObject)
    (s : State) : State :=
  {| g_ContinuousRequestTargetUniqueId := g_ContinuousRequestTargetUniqueId s;
     Requests := f (Requests s);
     Memories := Memories s; BufferPoolLent := BufferPoolLent s;
     QueuedWorkitems := QueuedWorkitems s; ModuleReferences := ModuleReferences s;
     moduleContext := moduleContext s; Trace := Trace s |}.

Definition set_Memories (f : gmap WDFMEMORY MemoryObject → gmap WDFMEMORY MemoryObject)
    (s : State) : State :=
  {| g_ContinuousRequestTargetUniqueId := g_ContinuousRequestTargetUniqueId s;
     Requests := Requests s;
     Memories := f (Memories s); BufferPoolLent := BufferPoolLent s;
     QueuedWorkitems := QueuedWorkitems s; ModuleReferences := ModuleReferences s;
     moduleContext := moduleContext s; Trace := Trace s |}.

Definition set_BufferPoolLent
    (f : gmap PVOID RequestTarget_SingleAsynchronousRequestContext →
         gmap PVOID RequestTarget_SingleAsynchronousRequestContext)
    (s : State) : State :=
  {| g_ContinuousRequestTargetUniqueId := g_ContinuousRequestTargetUniqueId s;
     Requests := Requests s;
     Memories := Memories s; BufferPoolLent := f (BufferPoolLent s);
     QueuedWorkitems := QueuedWorkitems s; ModuleReferences := ModuleReferences s;
     moduleContext := moduleContext s; Trace := Trace s |}.

Definition set_QueuedWorkitems
    (f : list RequestTarget_QueuedWorkitemContext → list RequestTarget_QueuedWorkitemContext)
    (s : State) : State :=
  {| g_ContinuousRequestTargetUniqueId := g_ContinuousRequestTargetUniqueId s;
     Requests := Requests s;
     Memories := Memories s; BufferPoolLent := BufferPoolLent s;
     QueuedWorkitems := f (QueuedWorkitems s); ModuleReferences := ModuleReferences s;
     moduleContext := moduleContext s; Trace := Trace s |}.

Definition set_ModuleReferences (f : Z → Z) (s : State) : State :=
  {| g_ContinuousRequestTargetUniqueId := g_ContinuousRequestTargetUniqueId s;
     Requests := Requests s;
     Memories := Memories s; BufferPoolLent := BufferPoolLent s;
     QueuedWorkitems := QueuedWorkitems s; ModuleReferences := f (ModuleReferences s);
     moduleContext := moduleContext s; Trace := Trace s |}.

Definition set_moduleContext (f : DMF_CONTEXT_RequestTarget → DMF_CONTEXT_RequestTarget)
    (s : State) : State :=
  {| g_ContinuousRequestTargetUniqueId := g_ContinuousRequestTargetUniqueId s;
     Requests := Requests s;
     Memories := Memories s; BufferPoolLent := BufferPoolLent s;
     QueuedWorkitems := QueuedWorkitems s; ModuleReferences := ModuleReferences s;
     moduleContext := f (moduleContext s); Trace := Trace s |}.

Definition log (c : Call) (s : State) : State :=
  {| g_ContinuousRequestTargetUniqueId := g_ContinuousRequestTargetUniqueId s;
     Requests := Requests s;
     Memories := Memories s; BufferPoolLent := BufferPoolLent s;
     QueuedWorkitems := QueuedWorkitems s; ModuleReferences := ModuleReferences s;
     moduleContext := moduleContext s; Trace := c :: Trace s |}.

(** ** Framework primitives on the stores *)

Definition with_UniqueRequestIdCancel (v : LONGLONG) (u : UNIQUE_REQUEST) : UNIQUE_REQUEST :=
  {| UniqueRequestIdCancel := v; UniqueRequestIdReuse := UniqueRequestIdReuse u;
     RequestInUse := RequestInUse u |}.
Definition with_UniqueRequestIdReuse (v : LONGLONG) (u : UNIQUE_REQUEST) : UNIQUE_REQUEST :=
  {| UniqueRequestIdCancel := UniqueRequestIdCancel u; UniqueRequestIdReuse := v;
     RequestInUse := RequestInUse u |}.
Definition with_RequestInUse (b : bool) (u : UNIQUE_REQUEST) : UNIQUE_REQUEST :=
  {| UniqueRequestIdCancel := UniqueRequestIdCancel u;
     UniqueRequestIdReuse := UniqueRequestIdReuse u; RequestInUse := b |}.

Definition update_Context (f : UNIQUE_REQUEST → UNIQUE_REQUEST) (o : RequestObject) : RequestObject :=
  {| Context := f (Context o); ReferenceCount := ReferenceCount o;
     Deleted := Deleted o; Completion := Completion o |}.
Definition update_ReferenceCount (f : nat → nat) (o : RequestObject) : RequestObject :=
  {| Context := Context o; ReferenceCount := f (ReferenceCount o);
     Deleted := Deleted o; Completion := Completion o |}.
Definition mark_Deleted (o : RequestObject) : RequestObject :=
  {| Context := Context o; ReferenceCount := ReferenceCount o;
     Deleted := true; Completion := Completion o |}.
Definition with_Completion (c : CompletionRoutine * PVOID) (o : RequestObject) : RequestObject :=
  {| Context := Context o; ReferenceCount := ReferenceCount o;
     Deleted := Deleted o; Completion := Some c |}.

(** The store holds the request objects the Module has been given; a handle
    with no object in it reads as a fresh one, and a write to it makes it one. *)
Definition RequestObject_fresh : RequestObject :=
  {| Context := UNIQUE_REQUEST_zero; ReferenceCount := 0%nat;
     Deleted := false; Completion := None |}.

Definition Request_read (s : State) (Request : WDFREQUEST) : RequestObject :=
  default RequestObject_fresh (Requests s !! Request).

Definition Request_update (f : RequestObject → RequestObject) (Request : WDFREQUEST)
    (s : State) : State :=
  set_Requests
    (partial_alter (λ o, Some (f (default RequestObject_fresh o))) Request) s.

Definition UniqueRequestContextGet (s : State) (Request : WDFREQUEST) : UNIQUE_REQUEST :=
  Context (Request_read s Request).

(** A write through the pointer [UniqueRequestContextGet] returns. *)
Definition UniqueRequestContextSet (Request : WDFREQUEST)
    (f : UNIQUE_REQUEST → UNIQUE_REQUEST) (s : State) : State :=
  Request_update (update_Context f) Request s.

(** A successful [WdfRequestCreate] returning the handle [Request]. *)
Definition WdfRequestCreate (Request : WDFREQUEST) (s : State) : State :=
  set_Requests (insert Request RequestObject_fresh) s.

Definition WdfObjectReference (Request : WDFREQUEST) (s : State) : State :=
  Request_update (update_ReferenceCount S) Request s.
Definition WdfObjectDereference (Request : WDFREQUEST) (s : State) : State :=
  Request_update (update_ReferenceCount Nat.pred) Request s.

(** [WdfObjectDelete] of a request: the request is flagged and the memory
    objects parented to it go with it. *)
Definition WdfObjectDelete_Request (Request : WDFREQUEST) (s : State) : State :=
  set_Memories (filter (λ kv, ParentObject kv.2 ≠ Request))
    (Request_update mark_Deleted Request s).

Definition WdfRequestSetCompletionRoutine (Request : WDFREQUEST)
    (CompletionRoutine : CompletionRoutine) (CompletionContext : PVOID) (s : State) : State :=
  Request_update (with_Completion (CompletionRoutine, CompletionContext)) Request s.

(** A successful [WdfMemoryCreatePreallocated] returning the handle [Memory]. *)
Definition WdfMemoryCreatePreallocated (Memory : WDFMEMORY) (buffer : option PVOID)
    (BufferSize : size_t) (ParentObject : WDFREQUEST) (s : State) : State :=
  set_Memories (insert Memory
    {| Buffer := buffer; BufferSize := BufferSize; ParentObject := ParentObject |}) s.

Definition WdfObjectDelete_Memory (Memory : WDFMEMORY) (s : State) : State :=
  set_Memories (delete Memory) s.

(** [WdfMemoryGetBuffer]: the buffer behind a memory object and its size. *)
Definition WdfMemoryGetBuffer (s : State) (Memory : WDFMEMORY) : option PVOID * size_t :=
  match Memories s !! Memory with
  | Some m => (Buffer m, BufferSize m)
  | None => (None, 0%N)
  end.

(** A successful [DMF_BufferPool_Get] returning [ClientBuffer], filled by the
    caller with [context]. *)
Definition DMF_BufferPool_Get (ClientBuffer : PVOID)
    (context : RequestTarget_SingleAsynchronousRequestContext) (s : State) : State :=
  set_BufferPoolLent (insert ClientBuffer context) s.
Definition DMF_BufferPool_Put (ClientBuffer : PVOID) (s : State) : State :=
  set_BufferPoolLent (delete ClientBuffer) s.

Definition DMF_ModuleReference (s : State) : State := set_ModuleReferences (λ n, n + 1) s.
Definition DMF_ModuleDereference (s : State) : State := set_ModuleReferences (λ n, n - 1) s.

(** *** Collections *)

Definition Collection_get (Collection : WDFCOLLECTION) (c : DMF_CONTEXT_RequestTarget)
    : option (list WDFREQUEST) :=
  match Collection with
  | Collection_PendingAsynchronousRequests => PendingAsynchronousRequests c
  | Collection_PendingReuseRequests => PendingReuseRequests c
  end.

Definition Collection_set (Collection : WDFCOLLECTION) (v : option (list WDFREQUEST))
    (c : DMF_CONTEXT_RequestTarget) : DMF_CONTEXT_RequestTarget :=
  match Collection with
  | Collection_PendingAsynchronousRequests =>
      {| IoTarget := IoTarget c; PendingAsynchronousRequests := v;
         PendingReuseRequests := PendingReuseRequests c |}
  | Collection_PendingReuseRequests =>
      {| IoTarget := IoTarget c; PendingAsynchronousRequests := PendingAsynchronousRequests c;
         PendingReuseRequests := v |}
  end.

Definition Collection_items (Collection : WDFCOLLECTION) (s : State) : list WDFREQUEST :=
  default [] (Collection_get Collection (moduleContext s)).

Definition Collection_update (Collection : WDFCOLLECTION)
    (f : list WDFREQUEST → list WDFREQUEST) (s : State) : State :=
  set_moduleContext
    (λ c, Collection_set Collection (f <$> Collection_get Collection c) c) s.

Definition WdfCollectionGetCount (Collection : WDFCOLLECTION) (s : State) : nat :=
  length (Collection_items Collection s).
(** A successful [WdfCollectionAdd]: the item goes to the end. *)
Definition WdfCollectionAdd (Collection : WDFCOLLECTION) (Request : WDFREQUEST)
    (s : State) : State :=
  Collection_update Collection (λ l, l ++ [Request]) s.
Definition WdfCollectionRemoveItem (Collection : WDFCOLLECTION) (Index : nat)
    (s : State) : State :=
  Collection_update Collection (delete Index) s.

(** ** DMF Module support code *)

Record Buffers := {
  InputBuffer : option PVOID;
  InputBufferSize : size_t;
  OutputBuffer : option PVOID;
  OutputBufferSize : size_t
}.

Definition RequestTarget_CompletionParamsInputBufferAndOutputBufferGet (s : State)
    (CompletionParams : WDF_REQUEST_COMPLETION_PARAMS)
    (RequestType : ContinuousRequestTarget_RequestType) : Buffers :=
  match RequestType with
  | ContinuousRequestTarget_RequestType_Read =>
      {| InputBuffer := None; InputBufferSize := 0%N;
         OutputBuffer :=
           match Read_Buffer CompletionParams with
           | Some outputMemory => (WdfMemoryGetBuffer s outputMemory).1
           | None => None
           end;
         OutputBufferSize := Read_Length CompletionParams |}
  | ContinuousRequestTarget_RequestType_Write =>
      {| InputBuffer :=
           match Write_Buffer CompletionParams with
           | Some inputMemory => (WdfMemoryGetBuffer s inputMemory).1
           | None => None
           end;
         InputBufferSize := Write_Length CompletionParams;
         OutputBuffer := None; OutputBufferSize := 0%N |}
  | ContinuousRequestTarget_RequestType_Ioctl
  | ContinuousRequestTarget_RequestType_InternalIoctl =>
      let input :=
        match Ioctl_Input_Buffer CompletionParams with
        | Some inputMemory => WdfMemoryGetBuffer s inputMemory
        | None => (None, 0%N)
        end in
      let output :=
        match Ioctl_Output_Buffer CompletionParams with
        | Some outputMemory =>
            ((WdfMemoryGetBuffer s outputMemory).1, Ioctl_Output_Length CompletionParams)
        | None => (None, 0%N)
        end in
      {| InputBuffer := input.1; InputBufferSize := input.2;
         OutputBuffer := output.1; OutputBufferSize := output.2 |}
  | ContinuousRequestTarget_RequestType_Invalid =>
      {| InputBuffer := None; InputBufferSize := 0%N;
         OutputBuffer := None; OutputBufferSize := 0%N |}
  end.

(** [answer] is what [WdfCollectionAdd] returns. *)
Definition RequestTarget_PendingCollectionListAdd (answer : NTSTATUS)
    (Request : WDFREQUEST) (Collection : WDFCOLLECTION) (s : State) : NTSTATUS * State :=
  if NT_SUCCESS answer then (answer, WdfCollectionAdd Collection Request s)
  else (answer, s).

(** The scan of [..SearchAndRemove]: [items] is what [WdfCollectionGetItem]
    yields from [currentItemIndex] on, the empty list being its NULL. *)
Fixpoint SearchAndRemove_scan (Request : WDFREQUEST) (items : list WDFREQUEST)
    (currentItemIndex : nat) : option nat :=
  match items with
  | [] => None
  | currentRequestFromList :: rest =>
      if decide (currentRequestFromList = Request) then Some currentItemIndex
      else SearchAndRemove_scan Request rest (S currentItemIndex)
  end.

Definition RequestTarget_PendingCollectionListSearchAndRemove
    (Request : option WDFREQUEST) (Collection : WDFCOLLECTION) (s : State) : bool * State :=
  match Request with
  | None => (false, s)
  | Some Request =>
      match SearchAndRemove_scan Request (Collection_items Collection s) 0 with
      | Some currentItemIndex => (true, WdfCollectionRemoveItem Collection currentItemIndex s)
      | None => (false, s)
      end
  end.

Fixpoint SearchAndReference_scan (s : State) (UniqueRequestIdCancel_ : LONGLONG)
    (items : list WDFREQUEST) : option WDFREQUEST :=
  match items with
  | [] => None
  | currentRequestFromList :: rest =>
      if decide (UniqueRequestIdCancel (UniqueRequestContextGet s currentRequestFromList)
                 = UniqueRequestIdCancel_)
      then Some currentRequestFromList
      else SearchAndReference_scan s UniqueRequestIdCancel_ rest
  end.

(** Returns [*RequestToCancel]; the BOOLEAN result is whether it is not NULL. *)
Definition RequestTarget_PendingCollectionListSearchAndReference
    (UniqueRequestIdCancel_ : RequestTarget_DmfRequestCancel) (s : State)
    : option WDFREQUEST * State :=
  match SearchAndReference_scan s UniqueRequestIdCancel_
          (Collection_items Collection_PendingAsynchronousRequests s) with
  | Some currentRequestFromList =>
      (Some currentRequestFromList, WdfObjectReference currentRequestFromList s)
  | None => (None, s)
  end.

(** The scan of [..ReuseListSearch] stops at the first item that carries the
    cookie and reports whether that item is in use. *)
Fixpoint ReuseListSearch_scan (s : State) (UniqueRequestIdReuse_ : LONGLONG)
    (items : list WDFREQUEST) : option (WDFREQUEST * bool) :=
  match items with
  | [] => None
  | currentRequestFromList :: rest =>
      let uniqueRequestId := UniqueRequestContextGet s currentRequestFromList in
      if decide (UniqueRequestIdReuse uniqueRequestId = UniqueRequestIdReuse_)
      then Some (currentRequestFromList, RequestInUse uniqueRequestId)
      else ReuseListSearch_scan s UniqueRequestIdReuse_ rest
  end.

(** Returns [*RequestToReuse]; the BOOLEAN result is whether it is not NULL. *)
Definition RequestTarget_PendingCollectionReuseListSearch
    (UniqueRequestIdReuse_ : RequestTarget_DmfRequestReuse) (s : State)
    : option WDFREQUEST * State :=
  match ReuseListSearch_scan s UniqueRequestIdReuse_
          (Collection_items Collection_PendingReuseRequests s) with
  | Some (currentRequestFromList, true) => (None, s)
  | Some (currentRequestFromList, false) =>
      (Some currentRequestFromList,
       UniqueRequestContextSet currentRequestFromList (with_RequestInUse true) s)
  | None => (None, s)
  end.

(** *** Sending *)

(** The arguments of the two send routines. [BytesWritten] and
    [DmfRequestIdCancel] say whether the out pointer of that name is not NULL. *)
Record SendArguments := {
  IsSynchronousRequest : bool;
  RequestBuffer : option PVOID;
  RequestLength : size_t;
  ResponseBuffer : option PVOID;
  ResponseLength : size_t;
  RequestType : ContinuousRequestTarget_RequestType;
  RequestIoctl : N;
  RequestTimeoutMilliseconds : N;
  CompletionOption : ContinuousRequestTarget_CompletionOptions;
  BytesWritten : bool;
  EvtRequestTargetSingleAsynchronousRequest_ : option EVT_DMF_RequestTarget_SendCompletion;
  SingleAsynchronousRequestClientContext : option PVOID;
  DmfRequestIdCancel : bool
}.

(** What the framework and the target answer to the calls of one send, in the
    order of the calls. A call that is not reached leaves its answer unread.
    [DMF_USER_MODE] is the build flag of that name. *)
Record SendAnswers := {
  DMF_USER_MODE : bool;
  WdfRequestCreate_answer : NTSTATUS * WDFREQUEST;
  WdfRequestReuse_answer : NTSTATUS;
  WdfMemoryCreatePreallocated_Request_answer : NTSTATUS * WDFMEMORY;
  WdfMemoryCreatePreallocated_Response_answer : NTSTATUS * WDFMEMORY;
  WdfIoTargetFormatRequest_answer : NTSTATUS;
  DMF_BufferPool_Get_answer : NTSTATUS * PVOID;
  WdfCollectionAdd_answer : NTSTATUS;
  WdfRequestAllocateTimer_answer : NTSTATUS;
  WdfRequestSend_answer : bool;
  WdfRequestGetStatus_answer : NTSTATUS;
  WdfRequestGetInformation_answer : size_t
}.

(** What a send routine returns: its NTSTATUS, what it wrote through the two
    out pointers ([None]: nothing written), and the value its local
    [requestSendResult] had on return. *)
Record SendReturn := {
  ret_ntStatus : NTSTATUS;
  ret_BytesWritten : option size_t;
  ret_DmfRequestIdCancel : option RequestTarget_DmfRequestCancel;
  ret_requestSendResult : bool
}.

Definition RequestTarget_FormatRequestForRequestType (e : SendAnswers)
    (Request : WDFREQUEST) (RequestType : ContinuousRequestTarget_RequestType)
    (s : State) : NTSTATUS * State :=
  match RequestType with
  | ContinuousRequestTarget_RequestType_Write
  | ContinuousRequestTarget_RequestType_Read
  | ContinuousRequestTarget_RequestType_Ioctl =>
      (WdfIoTargetFormatRequest_answer e, log (Call_FormatRequest Request RequestType) s)
  | ContinuousRequestTarget_RequestType_InternalIoctl =>
      if DMF_USER_MODE e then (STATUS_INVALID_PARAMETER, s)
      else (WdfIoTargetFormatRequest_answer e, log (Call_FormatRequest Request RequestType) s)
  | ContinuousRequestTarget_RequestType_Invalid => (STATUS_INVALID_PARAMETER, s)
  end.

(** The [Exit:] label of [RequestTarget_RequestSendReuse], entered with the
    locals of the routine. *)
Definition RequestSendReuse_Exit (a : SendArguments) (request : option WDFREQUEST)
    (memoryForRequest memoryForResponse : option WDFMEMORY) (abortReuse : bool)
    (requestSendResult : bool) (ntStatus : NTSTATUS) (outputBufferSize : size_t)
    (DmfRequestIdCancel_written : option RequestTarget_DmfRequestCancel)
    (s : State) : SendReturn * State :=
  let s :=
    if abortReuse then
      let s := match request with
               | Some request => UniqueRequestContextSet request (with_RequestInUse false) s
               | None => s
               end in
      let s := match memoryForRequest with
               | Some memoryForRequest => WdfObjectDelete_Memory memoryForRequest s
               | None => s
               end in
      match memoryForResponse with
      | Some memoryForResponse => WdfObjectDelete_Memory memoryForResponse s
      | None => s
      end
    else s in
  ({| ret_ntStatus := ntStatus;
      ret_BytesWritten := if BytesWritten a then Some outputBufferSize else None;
      ret_DmfRequestIdCancel := DmfRequestIdCancel_written;
      ret_requestSendResult := requestSendResult |}, s).

(** From [WdfRequestAllocateTimer] to the end of the routine. *)
Definition RequestSendReuse_send (a : SendArguments) (e : SendAnswers)
    (request : WDFREQUEST) (memoryForRequest memoryForResponse : option WDFMEMORY)
    (dmfRequestIdCancel : RequestTarget_DmfRequestCancel) (s : State) : SendReturn * State :=
  let Exit := RequestSendReuse_Exit a (Some request) memoryForRequest memoryForResponse in
  let ntStatus := WdfRequestAllocateTimer_answer e in
  if negb (NT_SUCCESS ntStatus) then Exit true false ntStatus 0%N None s
  else
    let requestSendResult := WdfRequestSend_answer e in
    let s := log (Call_WdfRequestSend request (IsSynchronousRequest a)) s in
    let abortReuse := negb requestSendResult in
    if negb requestSendResult || IsSynchronousRequest a then
      let s :=
        if DmfRequestIdCancel a then
          (RequestTarget_PendingCollectionListSearchAndRemove (Some request)
             Collection_PendingAsynchronousRequests s).2
        else s in
      let ntStatus := WdfRequestGetStatus_answer e in
      if negb (NT_SUCCESS ntStatus) then Exit abortReuse requestSendResult ntStatus 0%N None s
      else Exit abortReuse requestSendResult ntStatus (WdfRequestGetInformation_answer e) None s
    else
      Exit abortReuse requestSendResult ntStatus 0%N
        (if DmfRequestIdCancel a then Some dmfRequestIdCancel else None) s.

(** The completion routine [RequestTarget_RequestSendReuse] picks for an
    asynchronous send; [None] is its [STATUS_INVALID_PARAMETER] branch. *)
Definition RequestSendReuse_completionRoutineSingle
    (CompletionOption : ContinuousRequestTarget_CompletionOptions)
    : option CompletionRoutine :=
  match CompletionOption with
  | ContinuousRequestTarget_CompletionOptions_Default =>
      Some RequestTarget_CompletionRoutineReuse
  | ContinuousRequestTarget_CompletionOptions_Passive =>
      Some RequestTarget_CompletionRoutinePassiveReuse
  | ContinuousRequestTarget_CompletionOptions_Maximum => None
  end.

(** From the synchronous/asynchronous split to [WdfRequestAllocateTimer]. *)
Definition RequestSendReuse_arm (a : SendArguments) (e : SendAnswers)
    (request : WDFREQUEST) (memoryForRequest memoryForResponse : option WDFMEMORY)
    (ntStatus : NTSTATUS) (s : State) : SendReturn * State :=
  let Exit := RequestSendReuse_Exit a (Some request) memoryForRequest memoryForResponse in
  if IsSynchronousRequest a then
    RequestSendReuse_send a e request memoryForRequest memoryForResponse 0 s
  else
    match RequestSendReuse_completionRoutineSingle (CompletionOption a) with
    | None => Exit true false STATUS_INVALID_PARAMETER 0%N None s
    | Some completionRoutineSingle =>
        let ntStatus := (DMF_BufferPool_Get_answer e).1 in
        if negb (NT_SUCCESS ntStatus) then Exit true false ntStatus 0%N None s
        else
          let singleAsynchronousRequestContext := (DMF_BufferPool_Get_answer e).2 in
          let s := DMF_BufferPool_Get singleAsynchronousRequestContext
                     {| SingleAsynchronousRequestType := RequestType a;
                        EvtRequestTargetSingleAsynchronousRequest :=
                          EvtRequestTargetSingleAsynchronousRequest_ a;
                        SingleAsynchronousCallbackClientContext :=
                          SingleAsynchronousRequestClientContext a |} s in
          let s := WdfRequestSetCompletionRoutine request completionRoutineSingle
                     singleAsynchronousRequestContext s in
          if DmfRequestIdCancel a then
            let nextRequestId :=
              InterlockedIncrement64 (g_ContinuousRequestTargetUniqueId s) in
            let s := log (Call_InterlockedIncrement64 nextRequestId)
                       (set_UniqueId nextRequestId s) in
            let s := UniqueRequestContextSet request
                       (with_UniqueRequestIdCancel nextRequestId) s in
            let dmfRequestIdCancel :=
              UniqueRequestIdCancel (UniqueRequestContextGet s request) in
            let '(ntStatus, s) :=
              RequestTarget_PendingCollectionListAdd (WdfCollectionAdd_answer e) request
                Collection_PendingAsynchronousRequests s in
            if negb (NT_SUCCESS ntStatus) then Exit true false ntStatus 0%N None s
            else RequestSendReuse_send a e request memoryForRequest memoryForResponse
                   dmfRequestIdCancel s
          else RequestSendReuse_send a e request memoryForRequest memoryForResponse 0 s
    end.

(** From the creation of the memory objects to the formatting. *)
Definition RequestSendReuse_attach (a : SendArguments) (e : SendAnswers)
    (request : WDFREQUEST) (ntStatus : NTSTATUS) (s : State) : SendReturn * State :=
  let '(ntStatus, memoryForRequest, s) :=
    if bool_decide (0 < RequestLength a)%N then
      let answer := WdfMemoryCreatePreallocated_Request_answer e in
      if NT_SUCCESS answer.1
      then (answer.1, Some answer.2,
            WdfMemoryCreatePreallocated answer.2 (RequestBuffer a) (RequestLength a)
              request s)
      else (answer.1, None, s)
    else (ntStatus, None, s) in
  if negb (NT_SUCCESS ntStatus)
  then RequestSendReuse_Exit a (Some request) memoryForRequest None true false
         ntStatus 0%N None s
  else
    let '(ntStatus, memoryForResponse, s) :=
      if bool_decide (0 < ResponseLength a)%N then
        let answer := WdfMemoryCreatePreallocated_Response_answer e in
        if NT_SUCCESS answer.1
        then (answer.1, Some answer.2,
              WdfMemoryCreatePreallocated answer.2 (ResponseBuffer a)
                (ResponseLength a) request s)
        else (answer.1, None, s)
      else (ntStatus, None, s) in
    if negb (NT_SUCCESS ntStatus)
    then RequestSendReuse_Exit a (Some request) memoryForRequest memoryForResponse
           true false ntStatus 0%N None s
    else
      let '(ntStatus, s) :=
        RequestTarget_FormatRequestForRequestType e request (RequestType a) s in
      if negb (NT_SUCCESS ntStatus)
      then RequestSendReuse_Exit a (Some request) memoryForRequest memoryForResponse
             true false ntStatus 0%N None s
      else RequestSendReuse_arm a e request memoryForRequest memoryForResponse
             ntStatus s.

Definition RequestTarget_RequestSendReuse (a : SendArguments)
    (DmfRequestIdReuse : RequestTarget_DmfRequestReuse) (e : SendAnswers)
    (s : State) : SendReturn * State :=
  let '(request, s) := RequestTarget_PendingCollectionReuseListSearch DmfRequestIdReuse s in
  match request with
  | None => RequestSendReuse_Exit a None None None true false STATUS_OBJECTID_NOT_FOUND 0%N None s
  | Some request =>
      let ntStatus := WdfRequestReuse_answer e in
      let s := log (Call_WdfRequestReuse request) s in
      if negb (NT_SUCCESS ntStatus)
      then RequestSendReuse_Exit a (Some request) None None true false ntStatus 0%N None s
      else RequestSendReuse_attach a e request ntStatus s
  end.

(** The [Exit:] label of [RequestTarget_RequestCreateAndSend]. *)
Definition RequestCreateAndSend_Exit (a : SendArguments) (request : WDFREQUEST)
    (requestSendResult : bool) (ntStatus : NTSTATUS) (outputBufferSize : size_t)
    (DmfRequestIdCancel_written : option RequestTarget_DmfRequestCancel)
    (s : State) : SendReturn * State :=
  let s :=
    if IsSynchronousRequest a then WdfObjectDelete_Request request s
    else if negb (IsSynchronousRequest a) && negb (NT_SUCCESS ntStatus)
         then WdfObjectDelete_Request request s
         else s in
  ({| ret_ntStatus := ntStatus;
      ret_BytesWritten := if BytesWritten a then Some outputBufferSize else None;
      ret_DmfRequestIdCancel := DmfRequestIdCancel_written;
      ret_requestSendResult := requestSendResult |}, s).

(** From [WdfRequestAllocateTimer] to the end of the routine. *)
Definition RequestCreateAndSend_send (a : SendArguments) (e : SendAnswers)
    (request : WDFREQUEST) (dmfRequestIdCancel : RequestTarget_DmfRequestCancel)
    (s : State) : SendReturn * State :=
  let Exit := RequestCreateAndSend_Exit a request in
  let ntStatus := WdfRequestAllocateTimer_answer e in
  if negb (NT_SUCCESS ntStatus) then Exit false ntStatus 0%N None s
  else
    let requestSendResult := WdfRequestSend_answer e in
    let s := log (Call_WdfRequestSend request (IsSynchronousRequest a)) s in
    if negb requestSendResult || IsSynchronousRequest a then
      let s :=
        if DmfRequestIdCancel a then
          (RequestTarget_PendingCollectionListSearchAndRemove (Some request)
             Collection_PendingAsynchronousRequests s).2
        else s in
      let ntStatus := WdfRequestGetStatus_answer e in
      if negb (NT_SUCCESS ntStatus) then Exit requestSendResult ntStatus 0%N None s
      else Exit requestSendResult ntStatus (WdfRequestGetInformation_answer e) None s
    else
      Exit requestSendResult ntStatus 0%N
        (if DmfRequestIdCancel a then Some dmfRequestIdCancel else None) s.

(** The completion routine [RequestTarget_RequestCreateAndSend] picks for an
    asynchronous send. *)
Definition RequestCreateAndSend_completionRoutineSingle
    (CompletionOption : ContinuousRequestTarget_CompletionOptions) : CompletionRoutine :=
  match CompletionOption with
  | ContinuousRequestTarget_CompletionOptions_Default => RequestTarget_CompletionRoutine
  | ContinuousRequestTarget_CompletionOptions_Passive => RequestTarget_CompletionRoutinePassive
  | ContinuousRequestTarget_CompletionOptions_Maximum => RequestTarget_CompletionRoutine
  end.

(** From the synchronous/asynchronous split to [WdfRequestAllocateTimer]. *)
Definition RequestCreateAndSend_arm (a : SendArguments) (e : SendAnswers)
    (request : WDFREQUEST) (s : State) : SendReturn * State :=
  let Exit := RequestCreateAndSend_Exit a request in
  if IsSynchronousRequest a then RequestCreateAndSend_send a e request 0 s
  else
    let ntStatus := (DMF_BufferPool_Get_answer e).1 in
    if negb (NT_SUCCESS ntStatus) then Exit false ntStatus 0%N None s
    else
      let singleAsynchronousRequestContext := (DMF_BufferPool_Get_answer e).2 in
      let completionRoutineSingle :=
        RequestCreateAndSend_completionRoutineSingle (CompletionOption a) in
      let s := DMF_BufferPool_Get singleAsynchronousRequestContext
                 {| SingleAsynchronousRequestType := RequestType a;
                    EvtRequestTargetSingleAsynchronousRequest :=
                      EvtRequestTargetSingleAsynchronousRequest_ a;
                    SingleAsynchronousCallbackClientContext :=
                      SingleAsynchronousRequestClientContext a |} s in
      let s := WdfRequestSetCompletionRoutine request completionRoutineSingle
                 singleAsynchronousRequestContext s in
      if DmfRequestIdCancel a then
        let nextRequestId := InterlockedIncrement64 (g_ContinuousRequestTargetUniqueId s) in
        let s := log (Call_InterlockedIncrement64 nextRequestId)
                   (set_UniqueId nextRequestId s) in
        let s := UniqueRequestContextSet request
                   (with_UniqueRequestIdCancel nextRequestId) s in
        let dmfRequestIdCancel := UniqueRequestIdCancel (UniqueRequestContextGet s request) in
        let '(ntStatus, s) :=
          RequestTarget_PendingCollectionListAdd (WdfCollectionAdd_answer e) request
            Collection_PendingAsynchronousRequests s in
        if negb (NT_SUCCESS ntStatus) then Exit false ntStatus 0%N None s
        else RequestCreateAndSend_send a e request dmfRequestIdCancel s
      else RequestCreateAndSend_send a e request 0 s.

Definition RequestTarget_RequestCreateAndSend (a : SendArguments) (e : SendAnswers)
    (s : State) : SendReturn * State :=
  let ntStatus := (WdfRequestCreate_answer e).1 in
  if negb (NT_SUCCESS ntStatus)
  then ({| ret_ntStatus := ntStatus; ret_BytesWritten := None;
           ret_DmfRequestIdCancel := None; ret_requestSendResult := false |}, s)
  else
    let request := (WdfRequestCreate_answer e).2 in
    let s := WdfRequestCreate request s in
    let '(ntStatus, memoryForRequest, s) :=
      if bool_decide (0 < RequestLength a)%N then
        let answer := WdfMemoryCreatePreallocated_Request_answer e in
        if NT_SUCCESS answer.1
        then (answer.1, Some answer.2,
              WdfMemoryCreatePreallocated answer.2 (RequestBuffer a) (RequestLength a)
                request s)
        else (answer.1, None, s)
      else (ntStatus, None, s) in
    if negb (NT_SUCCESS ntStatus)
    then RequestCreateAndSend_Exit a request false ntStatus 0%N None s
    else
      let '(ntStatus, memoryForResponse, s) :=
        if bool_decide (0 < ResponseLength a)%N then
          let answer := WdfMemoryCreatePreallocated_Response_answer e in
          if NT_SUCCESS answer.1
          then (answer.1, Some answer.2,
                WdfMemoryCreatePreallocated answer.2 (ResponseBuffer a) (ResponseLength a)
                  request s)
          else (answer.1, None, s)
        else (ntStatus, None, s) in
      if negb (NT_SUCCESS ntStatus)
      then RequestCreateAndSend_Exit a request false ntStatus 0%N None s
      else
        let '(ntStatus, s) :=
          RequestTarget_FormatRequestForRequestType e request (RequestType a) s in
        if negb (NT_SUCCESS ntStatus)
        then RequestCreateAndSend_Exit a request false ntStatus 0%N None s
        else RequestCreateAndSend_arm a e request s.

(** *** Completion *)

(** What the framework answers in the completion path. *)
Record CompletionAnswers := {
  Completion_WdfRequestGetStatus : NTSTATUS;
  Completion_WdfRequestGetCompletionParams : WDF_REQUEST_COMPLETION_PARAMS
}.

(** The arguments the client callback is called with. *)
Record CallbackArguments := {
  cb_Evt : EVT_DMF_RequestTarget_SendCompletion;
  cb_ClientContext : option PVOID;
  cb_Buffers : Buffers;
  cb_CompletionStatus : NTSTATUS
}.

(** A buffer the pool no longer lends reads as an empty context. *)
Definition SingleAsynchronousRequestContext_read (s : State) (p : PVOID)
    : RequestTarget_SingleAsynchronousRequestContext :=
  default {| SingleAsynchronousRequestType := ContinuousRequestTarget_RequestType_Invalid;
             EvtRequestTargetSingleAsynchronousRequest := None;
             SingleAsynchronousCallbackClientContext := None |}
          (BufferPoolLent s !! p).

(** [client] is what the client callback does to the state when it is called:
    client code runs there and may call back into the Module. The
    [CompletionParams] argument is overwritten by
    [WdfRequestGetCompletionParams] before it is read. *)
Definition RequestTarget_ProcessAsynchronousRequestRoot
    (client : CallbackArguments → State → State) (e : CompletionAnswers)
    (Request : WDFREQUEST) (CompletionParams : WDF_REQUEST_COMPLETION_PARAMS)
    (SingleAsynchronousRequestContext : PVOID) (ReuseRequest : bool)
    (s : State) : State :=
  let s := (RequestTarget_PendingCollectionListSearchAndRemove (Some Request)
              Collection_PendingAsynchronousRequests s).2 in
  let ntStatus := Completion_WdfRequestGetStatus e in
  let CompletionParams := Completion_WdfRequestGetCompletionParams e in
  let context := SingleAsynchronousRequestContext_read s SingleAsynchronousRequestContext in
  let buffers :=
    RequestTarget_CompletionParamsInputBufferAndOutputBufferGet s CompletionParams
      (SingleAsynchronousRequestType context) in
  let s := if ReuseRequest
           then UniqueRequestContextSet Request (with_RequestInUse false) s
           else s in
  let s :=
    match EvtRequestTargetSingleAsynchronousRequest context with
    | Some Evt =>
        client {| cb_Evt := Evt;
                  cb_ClientContext := SingleAsynchronousCallbackClientContext context;
                  cb_Buffers := buffers; cb_CompletionStatus := ntStatus |}
          (log (Call_EvtSendCompletion Evt (OutputBufferSize buffers) ntStatus) s)
    | None => s
    end in
  let s := DMF_BufferPool_Put SingleAsynchronousRequestContext s in
  let s := if negb ReuseRequest then WdfObjectDelete_Request Request s else s in
  DMF_ModuleDereference s.

Definition RequestTarget_ProcessAsynchronousRequestSingle
    (client : CallbackArguments → State → State) (e : CompletionAnswers)
    (Request : WDFREQUEST) (CompletionParams : WDF_REQUEST_COMPLETION_PARAMS)
    (SingleAsynchronousRequestContext : PVOID) (s : State) : State :=
  RequestTarget_ProcessAsynchronousRequestRoot client e Request CompletionParams
    SingleAsynchronousRequestContext false s.

Definition RequestTarget_ProcessAsynchronousRequestSingleReuse
    (client : CallbackArguments → State → State) (e : CompletionAnswers)
    (Request : WDFREQUEST) (CompletionParams : WDF_REQUEST_COMPLETION_PARAMS)
    (SingleAsynchronousRequestContext : PVOID) (s : State) : State :=
  RequestTarget_ProcessAsynchronousRequestRoot client e Request CompletionParams
    SingleAsynchronousRequestContext true s.

Definition DMF_QueuedWorkItem_Enqueue (w : RequestTarget_QueuedWorkitemContext)
    (s : State) : State :=
  set_QueuedWorkitems (λ q, q ++ [w]) s.

(** The four completion routines, as the framework calls them: [Context] is
    the pointer given to [WdfRequestSetCompletionRoutine]. *)
Definition run_CompletionRoutine (routine : CompletionRoutine)
    (client : CallbackArguments → State → State) (e : CompletionAnswers)
    (Request : WDFREQUEST) (CompletionParams : WDF_REQUEST_COMPLETION_PARAMS)
    (Context : PVOID) (s : State) : State :=
  match routine with
  | RequestTarget_CompletionRoutine =>
      RequestTarget_ProcessAsynchronousRequestSingle client e Request CompletionParams
        Context s
  | RequestTarget_CompletionRoutineReuse =>
      RequestTarget_ProcessAsynchronousRequestSingleReuse client e Request CompletionParams
        Context s
  | RequestTarget_CompletionRoutinePassive =>
      DMF_QueuedWorkItem_Enqueue
        {| wi_Request := Request; wi_CompletionParams := CompletionParams;
           wi_SingleAsynchronousRequestContext := Context; wi_ReuseRequest := false |} s
  | RequestTarget_CompletionRoutinePassiveReuse =>
      DMF_QueuedWorkItem_Enqueue
        {| wi_Request := Request; wi_CompletionParams := CompletionParams;
           wi_SingleAsynchronousRequestContext := Context; wi_ReuseRequest := true |} s
  end.

Definition RequestTarget_QueuedWorkitemCallbackSingle
    (client : CallbackArguments → State → State) (e : CompletionAnswers)
    (workitemContext : RequestTarget_QueuedWorkitemContext) (s : State) : State :=
  if negb (wi_ReuseRequest workitemContext) then
    RequestTarget_ProcessAsynchronousRequestSingle client e (wi_Request workitemContext)
      (wi_CompletionParams workitemContext)
      (wi_SingleAsynchronousRequestContext workitemContext) s
  else
    RequestTarget_ProcessAsynchronousRequestSingleReuse client e (wi_Request workitemContext)
      (wi_CompletionParams workitemContext)
      (wi_SingleAsynchronousRequestContext workitemContext) s.

(** ** Module Methods *)

(** Every Method that references the Module takes the answer of
    [DMF_ModuleReference] as [reference]. *)

(** [targetAnswer] is what [WdfRequestCancelSentRequest] returns. *)
Definition DMF_RequestTarget_Cancel (reference : NTSTATUS)
    (DmfRequestIdCancel_ : RequestTarget_DmfRequestCancel) (targetAnswer : bool)
    (s : State) : bool * State :=
  if negb (NT_SUCCESS reference) then (false, s)
  else
    let s := DMF_ModuleReference s in
    let '(requestToCancel, s) :=
      RequestTarget_PendingCollectionListSearchAndReference DmfRequestIdCancel_ s in
    let '(returnValue, s) :=
      match requestToCancel with
      | Some requestToCancel =>
          (targetAnswer,
           WdfObjectDereference requestToCancel
             (log (Call_WdfRequestCancelSentRequest requestToCancel) s))
      | None => (false, s)
      end in
    (returnValue, DMF_ModuleDereference s).

Definition set_IoTarget (v : option WDFIOTARGET) (c : DMF_CONTEXT_RequestTarget)
    : DMF_CONTEXT_RequestTarget :=
  {| IoTarget := v; PendingAsynchronousRequests := PendingAsynchronousRequests c;
     PendingReuseRequests := PendingReuseRequests c |}.

Definition DMF_RequestTarget_IoTargetClear (reference : NTSTATUS) (s : State) : State :=
  if negb (NT_SUCCESS reference) then s
  else DMF_ModuleDereference
         (set_moduleContext (set_IoTarget None) (DMF_ModuleReference s)).

Definition DMF_RequestTarget_IoTargetSet (reference : NTSTATUS) (IoTarget_ : WDFIOTARGET)
    (s : State) : State :=
  if negb (NT_SUCCESS reference) then s
  else DMF_ModuleDereference
         (set_moduleContext (set_IoTarget (Some IoTarget_)) (DMF_ModuleReference s)).

(** Returns the NTSTATUS and what [*DmfRequestIdReuse] holds on return (it is
    set to NULL, here 0, on entry). [create] and [add] are the answers of
    [WdfRequestCreate] and [WdfCollectionAdd]. *)
Definition DMF_RequestTarget_ReuseCreate (reference : NTSTATUS)
    (create : NTSTATUS * WDFREQUEST) (add : NTSTATUS) (s : State)
    : (NTSTATUS * RequestTarget_DmfRequestReuse) * State :=
  if negb (NT_SUCCESS reference) then ((reference, 0), s)
  else
    let s := DMF_ModuleReference s in
    if negb (NT_SUCCESS create.1) then ((create.1, 0), DMF_ModuleDereference s)
    else
      let request := create.2 in
      let s := WdfRequestCreate request s in
      let nextRequestId := InterlockedIncrement64 (g_ContinuousRequestTargetUniqueId s) in
      let s := log (Call_InterlockedIncrement64 nextRequestId) (set_UniqueId nextRequestId s) in
      let s := UniqueRequestContextSet request (with_UniqueRequestIdReuse nextRequestId) s in
      let '(ntStatus, s) :=
        RequestTarget_PendingCollectionListAdd add request Collection_PendingReuseRequests s in
      if negb (NT_SUCCESS ntStatus)
      then ((ntStatus, 0), WdfObjectDelete_Request request (DMF_ModuleDereference s))
      else
        let s := WdfObjectReference request s in
        ((ntStatus, UniqueRequestIdReuse (UniqueRequestContextGet s request)),
         DMF_ModuleDereference s).

Definition DMF_RequestTarget_ReuseDelete (DmfRequestIdReuse : RequestTarget_DmfRequestReuse)
    (s : State) : bool * State :=
  let '(requestToDelete, s) :=
    RequestTarget_PendingCollectionReuseListSearch DmfRequestIdReuse s in
  match requestToDelete with
  | Some requestToDelete =>
      let '(returnValue, s) :=
        RequestTarget_PendingCollectionListSearchAndRemove (Some requestToDelete)
          Collection_PendingReuseRequests s in
      (returnValue,
       WdfObjectDereference requestToDelete (WdfObjectDelete_Request requestToDelete s))
  | None => (false, s)
  end.

(** The arguments the asynchronous Methods pass down: [passive] is the answer
    of [DMF_IsModulePassiveLevel]. *)
Definition asynchronous_arguments (passive : bool) (a : SendArguments) : SendArguments :=
  {| IsSynchronousRequest := false;
     RequestBuffer := RequestBuffer a; RequestLength := RequestLength a;
     ResponseBuffer := ResponseBuffer a; ResponseLength := ResponseLength a;
     RequestType := RequestType a; RequestIoctl := RequestIoctl a;
     RequestTimeoutMilliseconds := RequestTimeoutMilliseconds a;
     CompletionOption :=
       if passive then ContinuousRequestTarget_CompletionOptions_Passive
       else ContinuousRequestTarget_CompletionOptions_Dispatch;
     BytesWritten := false;
     EvtRequestTargetSingleAsynchronousRequest_ :=
       EvtRequestTargetSingleAsynchronousRequest_ a;
     SingleAsynchronousRequestClientContext := SingleAsynchronousRequestClientContext a;
     DmfRequestIdCancel := DmfRequestIdCancel a |}.

Definition without_DmfRequestIdCancel (a : SendArguments) : SendArguments :=
  {| IsSynchronousRequest := IsSynchronousRequest a;
     RequestBuffer := RequestBuffer a; RequestLength := RequestLength a;
     ResponseBuffer := ResponseBuffer a; ResponseLength := ResponseLength a;
     RequestType := RequestType a; RequestIoctl := RequestIoctl a;
     RequestTimeoutMilliseconds := RequestTimeoutMilliseconds a;
     CompletionOption := CompletionOption a;
     BytesWritten := BytesWritten a;
     EvtRequestTargetSingleAsynchronousRequest_ :=
       EvtRequestTargetSingleAsynchronousRequest_ a;
     SingleAsynchronousRequestClientContext := SingleAsynchronousRequestClientContext a;
     DmfRequestIdCancel := false |}.

Definition synchronous_arguments (a : SendArguments) : SendArguments :=
  {| IsSynchronousRequest := true;
     RequestBuffer := RequestBuffer a; RequestLength := RequestLength a;
     ResponseBuffer := ResponseBuffer a; ResponseLength := ResponseLength a;
     RequestType := RequestType a; RequestIoctl := RequestIoctl a;
     RequestTimeoutMilliseconds := RequestTimeoutMilliseconds a;
     CompletionOption := ContinuousRequestTarget_CompletionOptions_Default;
     BytesWritten := BytesWritten a;
     EvtRequestTargetSingleAsynchronousRequest_ := None;
     SingleAsynchronousRequestClientContext := None;
     DmfRequestIdCancel := false |}.

Definition reference_failed (reference : NTSTATUS) : SendReturn :=
  {| ret_ntStatus := reference; ret_BytesWritten := None;
     ret_DmfRequestIdCancel := None; ret_requestSendResult := false |}.

Definition DMF_RequestTarget_ReuseSend (reference : NTSTATUS) (passive : bool)
    (DmfRequestIdReuse : RequestTarget_DmfRequestReuse) (a : SendArguments)
    (e : SendAnswers) (s : State) : SendReturn * State :=
  if negb (NT_SUCCESS reference) then (reference_failed reference, s)
  else
    let '(r, s) :=
      RequestTarget_RequestSendReuse (asynchronous_arguments passive a) DmfRequestIdReuse e
        (DMF_ModuleReference s) in
    if negb (NT_SUCCESS (ret_ntStatus r)) then (r, DMF_ModuleDereference s) else (r, s).

Definition DMF_RequestTarget_SendEx (reference : NTSTATUS) (passive : bool)
    (a : SendArguments) (e : SendAnswers) (s : State) : SendReturn * State :=
  if negb (NT_SUCCESS reference) then (reference_failed reference, s)
  else
    let '(r, s) :=
      RequestTarget_RequestCreateAndSend (asynchronous_arguments passive a) e
        (DMF_ModuleReference s) in
    if negb (NT_SUCCESS (ret_ntStatus r)) then (r, DMF_ModuleDereference s) else (r, s).

Definition DMF_RequestTarget_Send (reference : NTSTATUS) (passive : bool)
    (a : SendArguments) (e : SendAnswers) (s : State) : SendReturn * State :=
  DMF_RequestTarget_SendEx reference passive (without_DmfRequestIdCancel a) e s.

Definition DMF_RequestTarget_SendSynchronously (reference : NTSTATUS)
    (a : SendArguments) (e : SendAnswers) (s : State) : SendReturn * State :=
  if negb (NT_SUCCESS reference) then (reference_failed reference, s)
  else
    let '(r, s) :=
      RequestTarget_RequestCreateAndSend (synchronous_arguments a) e
        (DMF_ModuleReference s) in
    (r, DMF_ModuleDereference s).

(** ** The Module under its callers *)

(** One step of the Module: a Method called by the client, a completion
    routine called by the framework, the queued workitem run by its worker, or
    another holder of the [extern] counter drawing an id. Each step carries
    the answers of the framework, and a completion carries [callback]: the
    Methods the client calls from inside its completion callback. *)
#[local] Unset Elimination Schemes.
Inductive Op :=
  | Op_Send (reference : NTSTATUS) (passive : bool) (a : SendArguments) (e : SendAnswers)
  | Op_SendEx (reference : NTSTATUS) (passive : bool) (a : SendArguments) (e : SendAnswers)
  | Op_SendSynchronously (reference : NTSTATUS) (a : SendArguments) (e : SendAnswers)
  | Op_ReuseCreate (reference : NTSTATUS) (create : NTSTATUS * WDFREQUEST) (add : NTSTATUS)
  | Op_ReuseSend (reference : NTSTATUS) (passive : bool)
      (DmfRequestIdReuse : RequestTarget_DmfRequestReuse) (a : SendArguments)
      (e : SendAnswers)
  | Op_ReuseDelete (DmfRequestIdReuse : RequestTarget_DmfRequestReuse)
  | Op_Cancel (reference : NTSTATUS) (DmfRequestIdCancel_ : RequestTarget_DmfRequestCancel)
      (targetAnswer : bool)
  | Op_IoTargetSet (reference : NTSTATUS) (IoTarget_ : WDFIOTARGET)
  | Op_IoTargetClear (reference : NTSTATUS)
  | Op_Completed (Request : WDFREQUEST) (CompletionParams : WDF_REQUEST_COMPLETION_PARAMS)
      (e : CompletionAnswers) (callback : list Op)
  | Op_QueuedWorkitem (e : CompletionAnswers) (callback : list Op)
  | Op_OtherUniqueId.
#[local] Set Elimination Schemes.

Fixpoint step (op : Op) (s : State) {struct op} : State :=
  let run := fix run (ops : list Op) (s : State) {struct ops} : State :=
    match ops with
    | [] => s
    | op :: ops => run ops (step op s)
    end in
  match op with
  | Op_Send reference passive a e => (DMF_RequestTarget_Send reference passive a e s).2
  | Op_SendEx reference passive a e => (DMF_RequestTarget_SendEx reference passive a e s).2
  | Op_SendSynchronously reference a e =>
      (DMF_RequestTarget_SendSynchronously reference a e s).2
  | Op_ReuseCreate reference create add =>
      (DMF_RequestTarget_ReuseCreate reference create add s).2
  | Op_ReuseSend reference passive DmfRequestIdReuse a e =>
      (DMF_RequestTarget_ReuseSend reference passive DmfRequestIdReuse a e s).2
  | Op_ReuseDelete DmfRequestIdReuse => (DMF_RequestTarget_ReuseDelete DmfRequestIdReuse s).2
  | Op_Cancel reference DmfRequestIdCancel_ targetAnswer =>
      (DMF_RequestTarget_Cancel reference DmfRequestIdCancel_ targetAnswer s).2
  | Op_IoTargetSet reference IoTarget_ => DMF_RequestTarget_IoTargetSet reference IoTarget_ s
  | Op_IoTargetClear reference => DMF_RequestTarget_IoTargetClear reference s
  | Op_Completed Request CompletionParams e callback =>
      match Completion (Request_read s Request) with
      | Some (routine, Context) =>
          run_CompletionRoutine routine (λ _, run callback) e Request CompletionParams
            Context s
      | None => s
      end
  | Op_QueuedWorkitem e callback =>
      match QueuedWorkitems s with
      | workitemContext :: rest =>
          RequestTarget_QueuedWorkitemCallbackSingle (λ _, run callback) e workitemContext
            (set_QueuedWorkitems (λ _, rest) s)
      | [] => s
      end
  | Op_OtherUniqueId =>
      let nextRequestId := InterlockedIncrement64 (g_ContinuousRequestTargetUniqueId s) in
      log (Call_InterlockedIncrement64 nextRequestId) (set_UniqueId nextRequestId s)
  end.

Fixpoint run (ops : list Op) (s : State) {struct ops} : State :=
  match ops with
  | [] => s
  | op :: ops => run ops (step op s)
  end.

(** ** Close *)

(** [WdfObjectDelete] of a collection, with the NULL stored in its field. *)
Definition Collection_release (Collection : WDFCOLLECTION) (s : State) : State :=
  set_moduleContext (Collection_set Collection None) s.

(** [DMF_RequestTarget_Open]: [create_pending] and [create_reuse] are the
    answers of the two calls of [WdfCollectionCreate]. A successful call
    stores a new, empty collection in its field; a failed one leaves the field
    as it was. *)
Definition DMF_RequestTarget_Open (create_pending create_reuse : NTSTATUS) (s : State)
    : NTSTATUS * State :=
  if negb (NT_SUCCESS create_pending) then (create_pending, s)
  else
    let s := set_moduleContext
               (Collection_set Collection_PendingAsynchronousRequests (Some [])) s in
    if negb (NT_SUCCESS create_reuse)
    then (create_reuse, Collection_release Collection_PendingAsynchronousRequests s)
    else (create_reuse,
          set_moduleContext (Collection_set Collection_PendingReuseRequests (Some [])) s).

(** The polling loop of [DMF_RequestTarget_Close] on one collection. While the
    loop sleeps ([DMF_Utility_DelayMilliseconds]) the other threads take steps
    of the Module: [others] lists, delay by delay, the steps taken during that
    delay. The loop returns the state in which a poll found the collection
    empty, with the delays it did not need; [None] when [others] runs out
    while the collection still holds a request. *)
Fixpoint Close_wait (Collection : WDFCOLLECTION) (others : list (list Op)) (s : State)
    {struct others} : option (State * list (list Op)) :=
  if decide (WdfCollectionGetCount Collection s = 0%nat) then Some (s, others)
  else
    match others with
    | [] => None
    | during_delay :: others => Close_wait Collection others (run during_delay s)
    end.

(** One of the two blocks of [DMF_RequestTarget_Close]. *)
Definition Close_collection (Collection : WDFCOLLECTION) (others : list (list Op))
    (s : State) : option (State * list (list Op)) :=
  match Collection_get Collection (moduleContext s) with
  | None => Some (s, others)
  | Some _ =>
      match Close_wait Collection others s with
      | Some (s, others) => Some (Collection_release Collection s, others)
      | None => None
      end
  end.

Definition DMF_RequestTarget_Close (others : list (list Op)) (s : State) : option State :=
  match Close_collection Collection_PendingAsynchronousRequests others s with
  | Some (s, others) =>
      match Close_collection Collection_PendingReuseRequests others s with
      | Some (s, _) => Some s
      | None => None
      end
  | None => None
  end.

(** * Dmf_ScheduledTask.c: work the Client wants done a single time

    The Module context, the persistent "TimesRun" value of the driver and the
    calls the Module makes to the Client, the timer and the workitem are the
    state; the answers of the framework and of the Rundown child Module are
    arguments, as above. *)

(** ** Scalars and enumerations *)

Definition ULONG := N.

(** [LONG]: a signed 32-bit value kept in [Z], with its wrap-around. *)
Definition LONG := Z.
Definition LONG_wrap (x : Z) : LONG := (x + 2 ^ 31) mod 2 ^ 32 - 2 ^ 31.
Definition InterlockedIncrement (Addend : LONG) : LONG := LONG_wrap (Addend + 1).
Definition InterlockedDecrement (Addend : LONG) : LONG := LONG_wrap (Addend - 1).

(** 0xC0000034 read as a signed 32-bit value. *)
Definition STATUS_OBJECT_NAME_NOT_FOUND : NTSTATUS := -1073741772.

Definition WDFTIMER := positive.
Definition WDFWORKITEM := positive.

Definition WDF_POWER_DEVICE_STATE := N.
Definition WdfPowerDeviceInvalid : WDF_POWER_DEVICE_STATE := 0%N.

(** The enumerators the Module names; [.._Invalid] stands for every other
    value of the type, which takes the [default] branch of a switch. *)
Inductive ScheduledTask_Result_Type :=
  | ScheduledTask_WorkResult_Invalid
  | ScheduledTask_WorkResult_Success
  | ScheduledTask_WorkResult_Fail
  | ScheduledTask_WorkResult_FailButTryAgain
  | ScheduledTask_WorkResult_SuccessButTryAgain.

Inductive ScheduledTask_Persistence_Type :=
  | ScheduledTask_Persistence_Invalid
  | ScheduledTask_Persistence_PersistentAcrossReboots
  | ScheduledTask_Persistence_NotPersistentAcrossReboots.

Inductive ScheduledTask_ExecutionMode_Type :=
  | ScheduledTask_ExecutionMode_Invalid
  | ScheduledTask_ExecutionMode_Immediate
  | ScheduledTask_ExecutionMode_Deferred.

Inductive ScheduledTask_ExecuteWhen_Type :=
  | ScheduledTask_ExecuteWhen_Invalid
  | ScheduledTask_ExecuteWhen_PrepareHardware
  | ScheduledTask_ExecuteWhen_D0Entry.

Global Instance Result_Type_eq_dec : EqDecision ScheduledTask_Result_Type.
Proof. solve_decision. Defined.
Global Instance ExecuteWhen_Type_eq_dec : EqDecision ScheduledTask_ExecuteWhen_Type.
Proof. solve_decision. Defined.

(** ** Module private context *)

(** [WorkIsCompleted] is a ULONG that only ever holds 0 or TRUE. The Rundown
    child Module is not part of the record: its answers are arguments. *)
Record DMF_CONTEXT_ScheduledTask := {
  Timer : option WDFTIMER;
  WorkIsCompleted : bool;
  TimerIsStarted : bool;
  DeferredOnDemand : option WDFWORKITEM;
  OnDemandCallbackContext : option PVOID;
  NumberOfPendingCalls : LONG;
  DisableRetries : bool
}.

Definition with_Timer (v : option WDFTIMER) (c : DMF_CONTEXT_ScheduledTask)
    : DMF_CONTEXT_ScheduledTask :=
  {| Timer := v; WorkIsCompleted := WorkIsCompleted c; TimerIsStarted := TimerIsStarted c;
     DeferredOnDemand := DeferredOnDemand c;
     OnDemandCallbackContext := OnDemandCallbackContext c;
     NumberOfPendingCalls := NumberOfPendingCalls c; DisableRetries := DisableRetries c |}.
Definition with_WorkIsCompleted (v : bool) (c : DMF_CONTEXT_ScheduledTask)
    : DMF_CONTEXT_ScheduledTask :=
  {| Timer := Timer c; WorkIsCompleted := v; TimerIsStarted := TimerIsStarted c;
     DeferredOnDemand := DeferredOnDemand c;
     OnDemandCallbackContext := OnDemandCallbackContext c;
     NumberOfPendingCalls := NumberOfPendingCalls c; DisableRetries := DisableRetries c |}.
Definition with_TimerIsStarted (v : bool) (c : DMF_CONTEXT_ScheduledTask)
    : DMF_CONTEXT_ScheduledTask :=
  {| Timer := Timer c; WorkIsCompleted := WorkIsCompleted c; TimerIsStarted := v;
     DeferredOnDemand := DeferredOnDemand c;
     OnDemandCallbackContext := OnDemandCallbackContext c;
     NumberOfPendingCalls := NumberOfPendingCalls c; DisableRetries := DisableRetries c |}.
Definition with_DeferredOnDemand (v : option WDFWORKITEM) (c : DMF_CONTEXT_ScheduledTask)
    : DMF_CONTEXT_ScheduledTask :=
  {| Timer := Timer c; WorkIsCompleted := WorkIsCompleted c;
     TimerIsStarted := TimerIsStarted c; DeferredOnDemand := v;
     OnDemandCallbackContext := OnDemandCallbackContext c;
     NumberOfPendingCalls := NumberOfPendingCalls c; DisableRetries := DisableRetries c |}.
Definition with_OnDemandCallbackContext (v : option PVOID) (c : DMF_CONTEXT_ScheduledTask)
    : DMF_CONTEXT_ScheduledTask :=
  {| Timer := Timer c; WorkIsCompleted := WorkIsCompleted c;
     TimerIsStarted := TimerIsStarted c; DeferredOnDemand := DeferredOnDemand c;
     OnDemandCallbackContext := v;
     NumberOfPendingCalls := NumberOfPendingCalls c; DisableRetries := DisableRetries c |}.
Definition with_NumberOfPendingCalls (v : LONG) (c : DMF_CONTEXT_ScheduledTask)
    : DMF_CONTEXT_ScheduledTask :=
  {| Timer := Timer c; WorkIsCompleted := WorkIsCompleted c;
     TimerIsStarted := TimerIsStarted c; DeferredOnDemand := DeferredOnDemand c;
     OnDemandCallbackContext := OnDemandCallbackContext c;
     NumberOfPendingCalls := v; DisableRetries := DisableRetries c |}.
Definition with_DisableRetries (v : bool) (c : DMF_CONTEXT_ScheduledTask)
    : DMF_CONTEXT_ScheduledTask :=
  {| Timer := Timer c; WorkIsCompleted := WorkIsCompleted c;
     TimerIsStarted := TimerIsStarted c; DeferredOnDemand := DeferredOnDemand c;
     OnDemandCallbackContext := OnDemandCallbackContext c;
     NumberOfPendingCalls := NumberOfPendingCalls c; DisableRetries := v |}.

(** The calls to the Client, the timer, the workitem and the Rundown child
    Module that the Module makes, most recent first in [ScheduledTask_Trace]. *)
Inductive ScheduledTask_Call :=
  | Call_EvtScheduledTaskCallback (ClientContext : option PVOID)
      (PreviousState : WDF_POWER_DEVICE_STATE)
  | Call_WdfTimerStart (DueTimeMs : ULONG)
  | Call_WdfTimerStop (Wait : bool)
  | Call_WdfWorkItemEnqueue
  | Call_DMF_Rundown_Start.

Record ScheduledTask_State := {
  ScheduledTask_moduleContext : DMF_CONTEXT_ScheduledTask;
  (** the value "TimesRun" under the Parameters key of the driver, when it exists *)
  Registry_TimesRun : option ULONG;
  ScheduledTask_Trace : list ScheduledTask_Call
}.

Definition ScheduledTask_update (f : DMF_CONTEXT_ScheduledTask → DMF_CONTEXT_ScheduledTask)
    (s : ScheduledTask_State) : ScheduledTask_State :=
  {| ScheduledTask_moduleContext := f (ScheduledTask_moduleContext s);
     Registry_TimesRun := Registry_TimesRun s;
     ScheduledTask_Trace := ScheduledTask_Trace s |}.

Definition set_Registry_TimesRun (v : option ULONG) (s : ScheduledTask_State)
    : ScheduledTask_State :=
  {| ScheduledTask_moduleContext := ScheduledTask_moduleContext s;
     Registry_TimesRun := v;
     ScheduledTask_Trace := ScheduledTask_Trace s |}.

Definition ScheduledTask_log (c : ScheduledTask_Call) (s : ScheduledTask_State)
    : ScheduledTask_State :=
  {| ScheduledTask_moduleContext := ScheduledTask_moduleContext s;
     Registry_TimesRun := Registry_TimesRun s;
     ScheduledTask_Trace := c :: ScheduledTask_Trace s |}.

(** ** Module Config *)

(** [EvtScheduledTaskCallback] is Client code: it returns its result and does
    to the state whatever the Client does there, calls of the Methods of the
    Module included. *)
Record DMF_CONFIG_ScheduledTask := {
  EvtScheduledTaskCallback :
    option PVOID → WDF_POWER_DEVICE_STATE → ScheduledTask_State →
    ScheduledTask_Result_Type * ScheduledTask_State;
  CallbackContext : option PVOID;
  PersistenceType : ScheduledTask_Persistence_Type;
  ExecutionMode : ScheduledTask_ExecutionMode_Type;
  ExecuteWhen : ScheduledTask_ExecuteWhen_Type;
  TimerPeriodMsOnSuccess : ULONG;
  TimerPeriodMsOnFail : ULONG;
  TimeMsBeforeInitialCall : ULONG
}.

(** A call of the Client callback through the Config. *)
Definition call_EvtScheduledTaskCallback (moduleConfig : DMF_CONFIG_ScheduledTask)
    (ClientContext : option PVOID) (PreviousState : WDF_POWER_DEVICE_STATE)
    (s : ScheduledTask_State) : ScheduledTask_Result_Type * ScheduledTask_State :=
  EvtScheduledTaskCallback moduleConfig ClientContext PreviousState
    (ScheduledTask_log (Call_EvtScheduledTaskCallback ClientContext PreviousState) s).

(** ** The registry value *)

(** The answers of [WdfDriverOpenParametersRegistryKey] and of the access to
    the value that follows it ([WdfRegistryQueryValue] or
    [WdfRegistryAssignULong]). *)
Record RegistryAnswers := {
  WdfDriverOpenParametersRegistryKey_answer : NTSTATUS;
  WdfRegistryValue_answer : NTSTATUS
}.

(** [WdfRegistryQueryValue] of "TimesRun": the status and the value read, a
    value that does not exist being not found. *)
Definition WdfRegistryQueryValue (answer : NTSTATUS) (s : ScheduledTask_State)
    : NTSTATUS * option ULONG :=
  if negb (NT_SUCCESS answer) then (answer, None)
  else match Registry_TimesRun s with
       | Some value => (answer, Some value)
       | None => (STATUS_OBJECT_NAME_NOT_FOUND, None)
       end.

(** [WdfRegistryAssignULong] of "TimesRun". *)
Definition WdfRegistryAssignULong (answer : NTSTATUS) (Value : ULONG)
    (s : ScheduledTask_State) : NTSTATUS * ScheduledTask_State :=
  if negb (NT_SUCCESS answer) then (answer, s)
  else (answer, set_Registry_TimesRun (Some Value) s).

(** Returns the NTSTATUS and what [*TimesRun] holds on return. *)
Definition DMF_ScheduledTask_TimesRunGet (e : RegistryAnswers) (s : ScheduledTask_State)
    : NTSTATUS * ULONG :=
  let TimesRun := 0%N in
  let ntStatus := WdfDriverOpenParametersRegistryKey_answer e in
  if negb (NT_SUCCESS ntStatus) then (ntStatus, TimesRun)
  else
    match WdfRegistryQueryValue (WdfRegistryValue_answer e) s with
    | (ntStatus, Some value) => (ntStatus, value)
    | (ntStatus, None) => (ntStatus, TimesRun)
    end.

Definition DMF_ScheduledTask_TimesRunSet (e : RegistryAnswers) (TimesRun : ULONG)
    (s : ScheduledTask_State) : NTSTATUS * ScheduledTask_State :=
  let ntStatus := WdfDriverOpenParametersRegistryKey_answer e in
  if negb (NT_SUCCESS ntStatus) then (ntStatus, s)
  else WdfRegistryAssignULong (WdfRegistryValue_answer e) TimesRun s.

(** ** DMF Module support code *)

(** [reference] is the answer of [DMF_Rundown_Reference]. *)
Definition ScheduledTask_TimerRestart (moduleConfig : DMF_CONFIG_ScheduledTask)
    (reference : NTSTATUS) (WorkResult : ScheduledTask_Result_Type)
    (s : ScheduledTask_State) : ScheduledTask_State :=
  if DisableRetries (ScheduledTask_moduleContext s) then s
  else if NT_SUCCESS reference then
    let s := ScheduledTask_update (with_TimerIsStarted true) s in
    let timerPeriodMs :=
      match WorkResult with
      | ScheduledTask_WorkResult_SuccessButTryAgain => TimerPeriodMsOnSuccess moduleConfig
      | ScheduledTask_WorkResult_FailButTryAgain => TimerPeriodMsOnFail moduleConfig
      | _ => 0%N
      end in
    ScheduledTask_log (Call_WdfTimerStart timerPeriodMs) s
  else s.

(** What the framework and the Rundown child Module answer to the calls of one
    [ScheduledTask_ClientWorkDo]. *)
Record ClientWorkDoAnswers := {
  TimesRunGet_answers : RegistryAnswers;
  TimesRunSet_answers : RegistryAnswers;
  DMF_Rundown_Reference_answer : NTSTATUS
}.

Definition ScheduledTask_ClientWorkDo (moduleConfig : DMF_CONFIG_ScheduledTask)
    (e : ClientWorkDoAnswers) (ClientContext : option PVOID)
    (PreviousState : WDF_POWER_DEVICE_STATE) (s : ScheduledTask_State)
    : ScheduledTask_Result_Type * ScheduledTask_State :=
  let alreadyRun :=
    match PersistenceType moduleConfig with
    | ScheduledTask_Persistence_PersistentAcrossReboots =>
        let timesRun := (DMF_ScheduledTask_TimesRunGet (TimesRunGet_answers e) s).2 in
        bool_decide (1 ≤ timesRun)%N
    | _ => false
    end in
  if alreadyRun then (ScheduledTask_WorkResult_Success, s)
  else if WorkIsCompleted (ScheduledTask_moduleContext s)
  then (ScheduledTask_WorkResult_Success, s)
  else
    let '(workResult, s) :=
      call_EvtScheduledTaskCallback moduleConfig ClientContext PreviousState s in
    match workResult with
    | ScheduledTask_WorkResult_Success =>
        let s := ScheduledTask_update (with_WorkIsCompleted true) s in
        match PersistenceType moduleConfig with
        | ScheduledTask_Persistence_PersistentAcrossReboots =>
            (workResult, (DMF_ScheduledTask_TimesRunSet (TimesRunSet_answers e) 1%N s).2)
        | _ => (workResult, s)
        end
    | ScheduledTask_WorkResult_SuccessButTryAgain =>
        (workResult,
         ScheduledTask_TimerRestart moduleConfig (DMF_Rundown_Reference_answer e) workResult s)
    | ScheduledTask_WorkResult_Fail => (workResult, s)
    | ScheduledTask_WorkResult_FailButTryAgain =>
        (workResult,
         ScheduledTask_TimerRestart moduleConfig (DMF_Rundown_Reference_answer e) workResult s)
    | ScheduledTask_WorkResult_Invalid => (workResult, s)
    end.

Definition ScheduledTask_TimerHandler (moduleConfig : DMF_CONFIG_ScheduledTask)
    (e : ClientWorkDoAnswers) (s : ScheduledTask_State) : ScheduledTask_State :=
  let s := ScheduledTask_update (with_TimerIsStarted false) s in
  (ScheduledTask_ClientWorkDo moduleConfig e (CallbackContext moduleConfig)
     WdfPowerDeviceInvalid s).2.

(** The [do ... while] loop of the workitem handler. [iterations] gives, turn
    by turn, the answer of [DMF_Rundown_Reference] in that turn and the
    answers to the [ScheduledTask_ClientWorkDo] of that turn; the handler
    returns [None] when [iterations] runs out while calls are still pending. *)
Fixpoint ScheduledTask_DeferredHandlerOnDemand (moduleConfig : DMF_CONFIG_ScheduledTask)
    (iterations : list (NTSTATUS * ClientWorkDoAnswers)) (s : ScheduledTask_State)
    {struct iterations} : option ScheduledTask_State :=
  match iterations with
  | [] => None
  | (reference, e) :: iterations =>
      let s :=
        if NT_SUCCESS reference then
          match OnDemandCallbackContext (ScheduledTask_moduleContext s) with
          | Some onDemandCallbackContext =>
              (call_EvtScheduledTaskCallback moduleConfig (Some onDemandCallbackContext)
                 WdfPowerDeviceInvalid s).2
          | None =>
              (ScheduledTask_ClientWorkDo moduleConfig e (CallbackContext moduleConfig)
                 WdfPowerDeviceInvalid s).2
          end
        else s in
      let pendingCalls :=
        InterlockedDecrement (NumberOfPendingCalls (ScheduledTask_moduleContext s)) in
      let s := ScheduledTask_update (with_NumberOfPendingCalls pendingCalls) s in
      if bool_decide (0 < pendingCalls)
      then ScheduledTask_DeferredHandlerOnDemand moduleConfig iterations s
      else Some s
  end.

(** ** WDF Module callbacks *)

(** The body shared by [DMF_ScheduledTask_ModulePrepareHardware] and
    [DMF_ScheduledTask_ModuleD0Entry] once [ExecuteWhen] has matched: the two
    differ in the [PreviousState] they hand to the Client. *)
Definition ScheduledTask_execute (moduleConfig : DMF_CONFIG_ScheduledTask)
    (e : ClientWorkDoAnswers) (PreviousState : WDF_POWER_DEVICE_STATE)
    (s : ScheduledTask_State) : NTSTATUS * ScheduledTask_State :=
  let s := ScheduledTask_update (with_DisableRetries false) s in
  match ExecutionMode moduleConfig with
  | ScheduledTask_ExecutionMode_Deferred =>
      if negb (TimerIsStarted (ScheduledTask_moduleContext s)) then
        (STATUS_SUCCESS,
         ScheduledTask_log (Call_WdfTimerStart (TimeMsBeforeInitialCall moduleConfig))
           (ScheduledTask_update (with_TimerIsStarted true) s))
      else (STATUS_SUCCESS, s)
  | ScheduledTask_ExecutionMode_Immediate =>
      let '(workResult, s) :=
        ScheduledTask_ClientWorkDo moduleConfig e (CallbackContext moduleConfig)
          PreviousState s in
      match workResult with
      | ScheduledTask_WorkResult_Success
      | ScheduledTask_WorkResult_SuccessButTryAgain => (STATUS_SUCCESS, s)
      | _ => (STATUS_UNSUCCESSFUL, s)
      end
  | ScheduledTask_ExecutionMode_Invalid => (STATUS_SUCCESS, s)
  end.

Definition DMF_ScheduledTask_ModulePrepareHardware (moduleConfig : DMF_CONFIG_ScheduledTask)
    (e : ClientWorkDoAnswers) (s : ScheduledTask_State) : NTSTATUS * ScheduledTask_State :=
  match ExecuteWhen moduleConfig with
  | ScheduledTask_ExecuteWhen_PrepareHardware =>
      ScheduledTask_execute moduleConfig e WdfPowerDeviceInvalid s
  | _ => (STATUS_SUCCESS, s)
  end.

Definition DMF_ScheduledTask_ModuleReleaseHardware (moduleConfig : DMF_CONFIG_ScheduledTask)
    (s : ScheduledTask_State) : NTSTATUS * ScheduledTask_State :=
  if decide (ExecuteWhen moduleConfig = ScheduledTask_ExecuteWhen_PrepareHardware) then
    (STATUS_SUCCESS,
     ScheduledTask_update (with_DisableRetries true)
       (ScheduledTask_log (Call_WdfTimerStop false) s))
  else (STATUS_SUCCESS, s).

Definition DMF_ScheduledTask_ModuleD0Entry (moduleConfig : DMF_CONFIG_ScheduledTask)
    (e : ClientWorkDoAnswers) (PreviousState : WDF_POWER_DEVICE_STATE)
    (s : ScheduledTask_State) : NTSTATUS * ScheduledTask_State :=
  match ExecuteWhen moduleConfig with
  | ScheduledTask_ExecuteWhen_D0Entry =>
      ScheduledTask_execute moduleConfig e PreviousState s
  | _ => (STATUS_SUCCESS, s)
  end.

Definition DMF_ScheduledTask_ModuleD0Exit (moduleConfig : DMF_CONFIG_ScheduledTask)
    (s : ScheduledTask_State) : NTSTATUS * ScheduledTask_State :=
  if decide (ExecuteWhen moduleConfig = ScheduledTask_ExecuteWhen_D0Entry) then
    (STATUS_SUCCESS,
     ScheduledTask_update (with_DisableRetries true)
       (ScheduledTask_log (Call_WdfTimerStop false) s))
  else (STATUS_SUCCESS, s).

(** ** DMF Module callbacks *)

(** [timer] and [workitem] are the answers of [WdfTimerCreate] and
    [WdfWorkItemCreate]. *)
Definition DMF_ScheduledTask_Open (timer : NTSTATUS * WDFTIMER)
    (workitem : NTSTATUS * WDFWORKITEM) (s : ScheduledTask_State)
    : NTSTATUS * ScheduledTask_State :=
  let s := ScheduledTask_update (with_TimerIsStarted false) s in
  let s := ScheduledTask_update (with_NumberOfPendingCalls 0) s in
  let s := ScheduledTask_update (with_DisableRetries false) s in
  if negb (NT_SUCCESS timer.1) then (timer.1, s)
  else
    let s := ScheduledTask_update (with_Timer (Some timer.2)) s in
    if negb (NT_SUCCESS workitem.1) then (workitem.1, s)
    else
      let s := ScheduledTask_update (with_DeferredOnDemand (Some workitem.2)) s in
      (workitem.1, ScheduledTask_log Call_DMF_Rundown_Start s).

(** ** Module Methods *)

Definition DMF_ScheduledTask_ExecuteNow (moduleConfig : DMF_CONFIG_ScheduledTask)
    (CallbackContext_ : option PVOID) (s : ScheduledTask_State)
    : ScheduledTask_Result_Type * ScheduledTask_State :=
  call_EvtScheduledTaskCallback moduleConfig CallbackContext_ WdfPowerDeviceInvalid s.

(** The body shared by [DMF_ScheduledTask_ExecuteNowDeferred] and
    [DMF_ScheduledTask_ExecuteNowDeferredEx]: the two differ in the context
    they store. [reference] is the answer of [DMF_Rundown_Reference]. *)
Definition ScheduledTask_enqueue (reference : NTSTATUS) (context : option PVOID)
    (s : ScheduledTask_State) : NTSTATUS * ScheduledTask_State :=
  let pendingCalls :=
    InterlockedIncrement (NumberOfPendingCalls (ScheduledTask_moduleContext s)) in
  let s := ScheduledTask_update (with_NumberOfPendingCalls pendingCalls) s in
  if decide (1 = pendingCalls) then
    if NT_SUCCESS reference then
      let s := ScheduledTask_update (with_OnDemandCallbackContext context) s in
      (STATUS_SUCCESS, ScheduledTask_log Call_WdfWorkItemEnqueue s)
    else
      (STATUS_UNSUCCESSFUL,
       ScheduledTask_update
         (with_NumberOfPendingCalls
            (InterlockedDecrement (NumberOfPendingCalls (ScheduledTask_moduleContext s))))
         s)
  else (STATUS_SUCCESS, s).

Definition DMF_ScheduledTask_ExecuteNowDeferred (reference : NTSTATUS)
    (CallbackContext_ : option PVOID) (s : ScheduledTask_State)
    : NTSTATUS * ScheduledTask_State :=
  ScheduledTask_enqueue reference CallbackContext_ s.

Definition DMF_ScheduledTask_ExecuteNowDeferredEx (reference : NTSTATUS)
    (s : ScheduledTask_State) : NTSTATUS * ScheduledTask_State :=
  ScheduledTask_enqueue reference None s.

(** ** The Module under its callers *)

(** One step of the Module: a WDF or DMF callback, the timer or the workitem
    firing, or a Method called by the Client, with the answers of the
    framework. *)
Inductive ScheduledTask_Op :=
  | Op_Open (timer : NTSTATUS * WDFTIMER) (workitem : NTSTATUS * WDFWORKITEM)
  | Op_ModulePrepareHardware (e : ClientWorkDoAnswers)
  | Op_ModuleReleaseHardware
  | Op_ModuleD0Entry (e : ClientWorkDoAnswers) (PreviousState : WDF_POWER_DEVICE_STATE)
  | Op_ModuleD0Exit
  | Op_TimerHandler (e : ClientWorkDoAnswers)
  | Op_DeferredHandlerOnDemand (iterations : list (NTSTATUS * ClientWorkDoAnswers))
  | Op_ExecuteNow (CallbackContext_ : option PVOID)
  | Op_ExecuteNowDeferred (reference : NTSTATUS) (CallbackContext_ : option PVOID)
  | Op_ExecuteNowDeferredEx (reference : NTSTATUS)
  | Op_TimesRunSet (e : RegistryAnswers) (TimesRun : ULONG).

Definition ScheduledTask_step (moduleConfig : DMF_CONFIG_ScheduledTask)
    (op : ScheduledTask_Op) (s : ScheduledTask_State) : option ScheduledTask_State :=
  match op with
  | Op_Open timer workitem => Some (DMF_ScheduledTask_Open timer workitem s).2
  | Op_ModulePrepareHardware e =>
      Some (DMF_ScheduledTask_ModulePrepareHardware moduleConfig e s).2
  | Op_ModuleReleaseHardware => Some (DMF_ScheduledTask_ModuleReleaseHardware moduleConfig s).2
  | Op_ModuleD0Entry e PreviousState =>
      Some (DMF_ScheduledTask_ModuleD0Entry moduleConfig e PreviousState s).2
  | Op_ModuleD0Exit => Some (DMF_ScheduledTask_ModuleD0Exit moduleConfig s).2
  | Op_TimerHandler e => Some (ScheduledTask_TimerHandler moduleConfig e s)
  | Op_DeferredHandlerOnDemand iterations =>
      ScheduledTask_DeferredHandlerOnDemand moduleConfig iterations s
  | Op_ExecuteNow CallbackContext_ =>
      Some (DMF_ScheduledTask_ExecuteNow moduleConfig CallbackContext_ s).2
  | Op_ExecuteNowDeferred reference CallbackContext_ =>
      Some (DMF_ScheduledTask_ExecuteNowDeferred reference CallbackContext_ s).2
  | Op_ExecuteNowDeferredEx reference =>
      Some (DMF_ScheduledTask_ExecuteNowDeferredEx reference s).2
  | Op_TimesRunSet e TimesRun => Some (DMF_ScheduledTask_TimesRunSet e TimesRun s).2
  end.

Fixpoint ScheduledTask_run (moduleConfig : DMF_CONFIG_ScheduledTask)
    (ops : list ScheduledTask_Op) (s : ScheduledTask_State) : option ScheduledTask_State :=
  match ops with
  | [] => Some s
  | op :: ops =>
      match ScheduledTask_step moduleConfig op s with
      | Some s => ScheduledTask_run moduleConfig ops s
      | None => None
      end
  end.

(** * Notions used to state the properties *)

(** ** Steps and relations between states *)

(** An induction principle for [Op] that reaches the callbacks. *)
Section Op_induction.
Variable P : Op → Prop.
Hypothesis H_Send : ∀ reference passive a e, P (Op_Send reference passive a e).
Hypothesis H_SendEx : ∀ reference passive a e, P (Op_SendEx reference passive a e).
Hypothesis H_SendSynchronously : ∀ reference a e, P (Op_SendSynchronously reference a e).
Hypothesis H_ReuseCreate : ∀ reference create add, P (Op_ReuseCreate reference create add).
Hypothesis H_ReuseSend :
  ∀ reference passive id a e, P (Op_ReuseSend reference passive id a e).
Hypothesis H_ReuseDelete : ∀ id, P (Op_ReuseDelete id).
Hypothesis H_Cancel : ∀ reference id answer, P (Op_Cancel reference id answer).
Hypothesis H_IoTargetSet : ∀ reference t, P (Op_IoTargetSet reference t).
Hypothesis H_IoTargetClear : ∀ reference, P (Op_IoTargetClear reference).
Hypothesis H_Completed :
  ∀ Request p e callback, Forall P callback → P (Op_Completed Request p e callback).
Hypothesis H_QueuedWorkitem :
  ∀ e callback, Forall P callback → P (Op_QueuedWorkitem e callback).
Hypothesis H_OtherUniqueId : P Op_OtherUniqueId.

Fixpoint Op_ind (op : Op) : P op :=
  let all := fix all (ops : list Op) : Forall P ops :=
    match ops with
    | [] => Forall_nil_2 P
    | op :: ops => Forall_cons_2 P op ops (Op_ind op) (all ops)
    end in
  match op with
  | Op_Send reference passive a e => H_Send reference passive a e
  | Op_SendEx reference passive a e => H_SendEx reference passive a e
  | Op_SendSynchronously reference a e => H_SendSynchronously reference a e
  | Op_ReuseCreate reference create add => H_ReuseCreate reference create add
  | Op_ReuseSend reference passive id a e => H_ReuseSend reference passive id a e
  | Op_ReuseDelete id => H_ReuseDelete id
  | Op_Cancel reference id answer => H_Cancel reference id answer
  | Op_IoTargetSet reference t => H_IoTargetSet reference t
  | Op_IoTargetClear reference => H_IoTargetClear reference
  | Op_Completed Request p e callback => H_Completed Request p e callback (all callback)
  | Op_QueuedWorkitem e callback => H_QueuedWorkitem e callback (all callback)
  | Op_OtherUniqueId => H_OtherUniqueId
  end.
End Op_induction.

(** Whether a step, or a callback inside it, calls [DMF_RequestTarget_ReuseDelete]. *)
Fixpoint calls_ReuseDelete (op : Op) : bool :=
  let any := fix any (ops : list Op) : bool :=
    match ops with
    | [] => false
    | op :: ops => calls_ReuseDelete op || any ops
    end in
  match op with
  | Op_ReuseDelete _ => true
  | Op_Completed _ _ _ callback => any callback
  | Op_QueuedWorkitem _ callback => any callback
  | _ => false
  end.

Fixpoint any_calls_ReuseDelete (ops : list Op) : bool :=
  match ops with
  | [] => false
  | op :: ops => calls_ReuseDelete op || any_calls_ReuseDelete ops
  end.

(** A relation between the state before and after that every field update of
    the Module respects is respected by every routine of the Module. The
    removal of an item from [PendingReuseRequests] is kept apart: only
    [DMF_RequestTarget_ReuseDelete] does it. *)
Record respected (Rel : State → State → Prop) : Prop := {
  respected_refl : ∀ s, Rel s s;
  respected_trans : ∀ s1 s2 s3, Rel s1 s2 → Rel s2 s3 → Rel s1 s3;
  respected_Requests : ∀ f s, Rel s (set_Requests f s);
  respected_Memories : ∀ f s, Rel s (set_Memories f s);
  respected_BufferPoolLent : ∀ f s, Rel s (set_BufferPoolLent f s);
  respected_QueuedWorkitems : ∀ f s, Rel s (set_QueuedWorkitems f s);
  respected_ModuleReferences : ∀ f s, Rel s (set_ModuleReferences f s);
  respected_IoTarget : ∀ v s, Rel s (set_moduleContext (set_IoTarget v) s);
  respected_log : ∀ c s, (∀ v, c ≠ Call_InterlockedIncrement64 v) → Rel s (log c s);
  respected_UniqueId :
    ∀ s, Rel s (log (Call_InterlockedIncrement64
                       (InterlockedIncrement64 (g_ContinuousRequestTargetUniqueId s)))
                  (set_UniqueId
                     (InterlockedIncrement64 (g_ContinuousRequestTargetUniqueId s)) s));
  respected_Add : ∀ Collection Request s, Rel s (WdfCollectionAdd Collection Request s);
  respected_Remove_pending :
    ∀ i s, Rel s (WdfCollectionRemoveItem Collection_PendingAsynchronousRequests i s)
}.

(** Steps that may call [DMF_RequestTarget_ReuseDelete] are covered when the
    removal from [PendingReuseRequests] respects the relation. *)
Definition covered (Rel : State → State → Prop) (op : Op) : Prop :=
  (∀ i x, Rel x (WdfCollectionRemoveItem Collection_PendingReuseRequests i x)) ∨
  calls_ReuseDelete op = false.

(** The calls logged in [s'] are those logged in [s] and some made since. *)
Definition extends (s s' : State) : Prop := ∃ calls, Trace s' = calls ++ Trace s.

(** From [s] to [s'] requests were at most added to [PendingReuseRequests]. *)
Definition reuse_grows (s s' : State) : Prop :=
  ∃ added : list WDFREQUEST,
    PendingReuseRequests (moduleContext s')
      = (λ l, l ++ added) <$> PendingReuseRequests (moduleContext s).




(** ** Unique ids *)

(** The ids that [InterlockedIncrement64] returned, most recent first. *)
Fixpoint issued (t : list Call) : list LONGLONG :=
  match t with
  | [] => []
  | Call_InterlockedIncrement64 v :: t => v :: issued t
  | _ :: t => issued t
  end.

(** The ids that [n] increments of a counter standing at [g] return, most
    recent first. *)
Fixpoint unique_ids (g : LONGLONG) (n : nat) : list LONGLONG :=
  match n with
  | O => []
  | S m => InterlockedIncrement64 (Nat.iter m InterlockedIncrement64 g) :: unique_ids g m
  end.

(** From [s] to [s'] the Module drew [n] ids, all from the counter. *)
Definition draws (s s' : State) : Prop :=
  ∃ n : nat,
    g_ContinuousRequestTargetUniqueId s'
      = Nat.iter n InterlockedIncrement64 (g_ContinuousRequestTargetUniqueId s) ∧
    issued (Trace s') = unique_ids (g_ContinuousRequestTargetUniqueId s) n ++ issued (Trace s).

(** From [s] to [s'] no id was drawn. *)
Definition same_ids (s s' : State) : Prop :=
  g_ContinuousRequestTargetUniqueId s' = g_ContinuousRequestTargetUniqueId s ∧
  issued (Trace s') = issued (Trace s).

(** ** Reuse slots and completion *)

(** The slot a reuse cookie names: the first item of [PendingReuseRequests]
    that carries the cookie, with its [RequestInUse]. *)
Definition reuse_slot (s : State) (DmfRequestIdReuse : RequestTarget_DmfRequestReuse)
    : option (WDFREQUEST * bool) :=
  ReuseListSearch_scan s DmfRequestIdReuse
    (Collection_items Collection_PendingReuseRequests s).

(** What the send routine returns when the lookup of the cookie fails. *)
Definition not_found_return (a : SendArguments) : SendReturn :=
  {| ret_ntStatus := STATUS_OBJECTID_NOT_FOUND;
     ret_BytesWritten := if BytesWritten a then Some 0%N else None;
     ret_DmfRequestIdCancel := None;
     ret_requestSendResult := false |}.

(** The state a reusable request is in when its completion reaches the client
    callback [Evt]: detached from [PendingAsynchronousRequests], flag cleared,
    the call logged. *)
Definition state_at_callback (e : CompletionAnswers) (Request : WDFREQUEST)
    (SingleAsynchronousRequestContext : PVOID) (Evt : EVT_DMF_RequestTarget_SendCompletion)
    (s : State) : State :=
  let s0 := (RequestTarget_PendingCollectionListSearchAndRemove (Some Request)
               Collection_PendingAsynchronousRequests s).2 in
  log (Call_EvtSendCompletion Evt
         (OutputBufferSize
            (RequestTarget_CompletionParamsInputBufferAndOutputBufferGet s0
               (Completion_WdfRequestGetCompletionParams e)
               (SingleAsynchronousRequestType
                  (SingleAsynchronousRequestContext_read s
                     SingleAsynchronousRequestContext))))
         (Completion_WdfRequestGetStatus e))
    (UniqueRequestContextSet Request (with_RequestInUse false) s0).

(** From [s] to [s'] the reuse collection and the cookies are untouched, and
    so is the [RequestInUse] of every request but [request]. *)
Definition keeps (request : WDFREQUEST) (s s' : State) : Prop :=
  PendingReuseRequests (moduleContext s') = PendingReuseRequests (moduleContext s) ∧
  (∀ r, UniqueRequestIdReuse (UniqueRequestContextGet s' r)
        = UniqueRequestIdReuse (UniqueRequestContextGet s r)) ∧
  (∀ r, r ≠ request → RequestInUse (UniqueRequestContextGet s' r)
                      = RequestInUse (UniqueRequestContextGet s r)).

(** A routine that comes back without having sent clears the flag. *)
Definition cleared_unless_sent (request : WDFREQUEST) (r : SendReturn * State) : Prop :=
  ret_requestSendResult r.1 = false →
  RequestInUse (UniqueRequestContextGet r.2 request) = false.

(** An asynchronous send that the target took returns success, so a failed
    asynchronous send is one the target did not take. *)
Definition failed_means_not_sent (a : SendArguments) (r : SendReturn * State) : Prop :=
  IsSynchronousRequest a = false →
  NT_SUCCESS (ret_ntStatus r.1) = false → ret_requestSendResult r.1 = false.

(** The slot of [DmfRequestIdReuse] is [request] and a reuse-send of the
    cookie will find it. *)
Definition slot_free (DmfRequestIdReuse : RequestTarget_DmfRequestReuse)
    (request : WDFREQUEST) (s : State) : Prop :=
  RequestInUse (UniqueRequestContextGet s request) = false ∧
  (RequestTarget_PendingCollectionReuseListSearch DmfRequestIdReuse s).1 = Some request.

(** The completion routines of the reuse Methods. *)
Definition is_reuse_routine (routine : CompletionRoutine) : bool :=
  match routine with
  | RequestTarget_CompletionRoutineReuse | RequestTarget_CompletionRoutinePassiveReuse => true
  | RequestTarget_CompletionRoutine | RequestTarget_CompletionRoutinePassive => false
  end.

(** ** States and answers for the examples *)

(** A Module with the given request contexts and collections, an I/O target,
    nothing lent or queued, and the counter at [uniqueId]. *)
Definition state_of (uniqueId : LONGLONG) (contexts : list (WDFREQUEST * UNIQUE_REQUEST))
    (pending reuse : list WDFREQUEST) : State :=
  {| g_ContinuousRequestTargetUniqueId := uniqueId;
     Requests :=
       list_to_map
         ((λ rc : WDFREQUEST * UNIQUE_REQUEST,
             (rc.1, {| Context := rc.2; ReferenceCount := 0%nat; Deleted := false;
                       Completion := None |})) <$> contexts);
     Memories := ∅; BufferPoolLent := ∅; QueuedWorkitems := []; ModuleReferences := 0;
     moduleContext := {| IoTarget := Some 1%positive;
                         PendingAsynchronousRequests := Some pending;
                         PendingReuseRequests := Some reuse |};
     Trace := [] |}.

(** An asynchronous device-control send of 16 bytes with 32 bytes of output
    capacity, a callback and a cancel cookie asked for. *)
Definition example_arguments : SendArguments :=
  {| IsSynchronousRequest := false;
     RequestBuffer := Some 100%positive; RequestLength := 16%N;
     ResponseBuffer := Some 200%positive; ResponseLength := 32%N;
     RequestType := ContinuousRequestTarget_RequestType_Ioctl; RequestIoctl := 1%N;
     RequestTimeoutMilliseconds := 0%N;
     CompletionOption := ContinuousRequestTarget_CompletionOptions_Default;
     BytesWritten := false;
     EvtRequestTargetSingleAsynchronousRequest_ := Some 50%positive;
     SingleAsynchronousRequestClientContext := None;
     DmfRequestIdCancel := true |}.

(** The framework succeeds at every call and hands out the given handles; the
    target takes the request iff [accepted] and the request status is
    [status]. *)
Definition example_answers (request : WDFREQUEST) (accepted : bool) (status : NTSTATUS)
    : SendAnswers :=
  {| DMF_USER_MODE := false;
     WdfRequestCreate_answer := (STATUS_SUCCESS, request);
     WdfRequestReuse_answer := STATUS_SUCCESS;
     WdfMemoryCreatePreallocated_Request_answer := (STATUS_SUCCESS, 11%positive);
     WdfMemoryCreatePreallocated_Response_answer := (STATUS_SUCCESS, 12%positive);
     WdfIoTargetFormatRequest_answer := STATUS_SUCCESS;
     DMF_BufferPool_Get_answer := (STATUS_SUCCESS, 60%positive);
     WdfCollectionAdd_answer := STATUS_SUCCESS;
     WdfRequestAllocateTimer_answer := STATUS_SUCCESS;
     WdfRequestSend_answer := accepted;
     WdfRequestGetStatus_answer := status;
     WdfRequestGetInformation_answer := 20%N |}.

(** The same answers with another buffer handed out by the pool. *)
Definition with_pool_buffer (ClientBuffer : PVOID) (e : SendAnswers) : SendAnswers :=
  {| DMF_USER_MODE := DMF_USER_MODE e;
     WdfRequestCreate_answer := WdfRequestCreate_answer e;
     WdfRequestReuse_answer := WdfRequestReuse_answer e;
     WdfMemoryCreatePreallocated_Request_answer :=
       WdfMemoryCreatePreallocated_Request_answer e;
     WdfMemoryCreatePreallocated_Response_answer :=
       WdfMemoryCreatePreallocated_Response_answer e;
     WdfIoTargetFormatRequest_answer := WdfIoTargetFormatRequest_answer e;
     DMF_BufferPool_Get_answer := ((DMF_BufferPool_Get_answer e).1, ClientBuffer);
     WdfCollectionAdd_answer := WdfCollectionAdd_answer e;
     WdfRequestAllocateTimer_answer := WdfRequestAllocateTimer_answer e;
     WdfRequestSend_answer := WdfRequestSend_answer e;
     WdfRequestGetStatus_answer := WdfRequestGetStatus_answer e;
     WdfRequestGetInformation_answer := WdfRequestGetInformation_answer e |}.

(** A reusable request (handle 10, cookie 1) created and sent once. *)
Definition example_reuse_sent : State :=
  run [ Op_ReuseCreate STATUS_SUCCESS (STATUS_SUCCESS, 10%positive) STATUS_SUCCESS;
        Op_ReuseSend STATUS_SUCCESS false 1 example_arguments
          (example_answers 10%positive true STATUS_SUCCESS) ]
      (state_of 0 [] [] []).

(** The target completes with success and 20 bytes in the output buffer. *)
Definition example_completion : CompletionAnswers :=
  {| Completion_WdfRequestGetStatus := STATUS_SUCCESS;
     Completion_WdfRequestGetCompletionParams :=
       {| Read_Buffer := None; Read_Length := 0%N; Write_Buffer := None; Write_Length := 0%N;
          Ioctl_Input_Buffer := Some 11%positive; Ioctl_Output_Buffer := Some 12%positive;
          Ioctl_Output_Length := 20%N |} |}.

(** ** Completion routines and request types *)

(** The completion routines that hand the request to the queued workitem. *)
Definition is_passive_routine (routine : CompletionRoutine) : bool :=
  match routine with
  | RequestTarget_CompletionRoutinePassive | RequestTarget_CompletionRoutinePassiveReuse => true
  | RequestTarget_CompletionRoutine | RequestTarget_CompletionRoutineReuse => false
  end.

(** The request types [RequestTarget_FormatRequestForRequestType] has no case
    for in the build at hand. *)
Definition not_formatted (e : SendAnswers) (t : ContinuousRequestTarget_RequestType) : bool :=
  match t with
  | ContinuousRequestTarget_RequestType_Invalid => true
  | ContinuousRequestTarget_RequestType_InternalIoctl => DMF_USER_MODE e
  | _ => false
  end.

(** A Module context as the framework allocates it, before Open. *)
Definition state_unopened : State :=
  {| g_ContinuousRequestTargetUniqueId := 0; Requests := ∅; Memories := ∅;
     BufferPoolLent := ∅; QueuedWorkitems := []; ModuleReferences := 0;
     moduleContext := {| IoTarget := None; PendingAsynchronousRequests := None;
                         PendingReuseRequests := None |};
     Trace := [] |}.

(** ** Asynchronous sends and the pending collection *)

(** The state in which a create-and-send that hands out a cancel cookie
    leaves the Module, from the state [s] in which the request was formatted:
    the context buffer lent and filled, the completion routine set, the id
    drawn and stored in the request, the request added to
    [PendingAsynchronousRequests], the request sent. *)
Definition sent_with_cookie (a : SendArguments) (e : SendAnswers) (request : WDFREQUEST)
    (s : State) : State :=
  let nextRequestId := InterlockedIncrement64 (g_ContinuousRequestTargetUniqueId s) in
  log (Call_WdfRequestSend request false)
    (WdfCollectionAdd Collection_PendingAsynchronousRequests request
       (UniqueRequestContextSet request (with_UniqueRequestIdCancel nextRequestId)
          (log (Call_InterlockedIncrement64 nextRequestId)
             (set_UniqueId nextRequestId
                (WdfRequestSetCompletionRoutine request
                   (RequestCreateAndSend_completionRoutineSingle (CompletionOption a))
                   (DMF_BufferPool_Get_answer e).2
                   (DMF_BufferPool_Get (DMF_BufferPool_Get_answer e).2
                      {| SingleAsynchronousRequestType := RequestType a;
                         EvtRequestTargetSingleAsynchronousRequest :=
                           EvtRequestTargetSingleAsynchronousRequest_ a;
                         SingleAsynchronousCallbackClientContext :=
                           SingleAsynchronousRequestClientContext a |} s)))))).

(** The state a create-and-send formats its request in differs from the one
    it was entered with in the request it created, the memory objects and the
    trace. *)
Definition prepared (request : WDFREQUEST) (s s1 : State) : Prop :=
  moduleContext s1 = moduleContext s ∧
  BufferPoolLent s1 = BufferPoolLent s ∧
  QueuedWorkitems s1 = QueuedWorkitems s ∧
  ModuleReferences s1 = ModuleReferences s ∧
  g_ContinuousRequestTargetUniqueId s1 = g_ContinuousRequestTargetUniqueId s ∧
  issued (Trace s1) = issued (Trace s) ∧
  (∀ q, q ≠ request → Request_read s1 q = Request_read s q).

(** The answers with which an asynchronous create-and-send that asks for a
    cancel cookie gets as far as [WdfRequestAllocateTimer]: the request and
    the memory objects it needs are created, the request type is one the
    build formats and the formatting succeeds, the pool lends a context
    buffer and the request is added to [PendingAsynchronousRequests]. *)
Definition reaches_timer (a : SendArguments) (e : SendAnswers) : bool :=
  NT_SUCCESS (WdfRequestCreate_answer e).1
  && implb (bool_decide (0 < RequestLength a)%N)
       (NT_SUCCESS (WdfMemoryCreatePreallocated_Request_answer e).1)
  && implb (bool_decide (0 < ResponseLength a)%N)
       (NT_SUCCESS (WdfMemoryCreatePreallocated_Response_answer e).1)
  && negb (not_formatted e (RequestType a))
  && NT_SUCCESS (WdfIoTargetFormatRequest_answer e)
  && NT_SUCCESS (DMF_BufferPool_Get_answer e).1
  && NT_SUCCESS (WdfCollectionAdd_answer e).

(** The answers with which a create-and-send gets as far as the formatting of
    its request. *)
Definition reaches_format (a : SendArguments) (e : SendAnswers) : bool :=
  NT_SUCCESS (WdfRequestCreate_answer e).1
  && implb (bool_decide (0 < RequestLength a)%N)
       (NT_SUCCESS (WdfMemoryCreatePreallocated_Request_answer e).1)
  && implb (bool_decide (0 < ResponseLength a)%N)
       (NT_SUCCESS (WdfMemoryCreatePreallocated_Response_answer e).1).

(** ** The scheduled task *)

(** The registry can be opened and the value accessed. *)
Definition registry_works (e : RegistryAnswers) : bool :=
  NT_SUCCESS (WdfDriverOpenParametersRegistryKey_answer e)
  && NT_SUCCESS (WdfRegistryValue_answer e).

(** A Module context as the framework allocates it (zeroed), with the given
    registry value. *)
Definition ScheduledTask_allocated (TimesRun : option ULONG) : ScheduledTask_State :=
  {| ScheduledTask_moduleContext :=
       {| Timer := None; WorkIsCompleted := false; TimerIsStarted := false;
          DeferredOnDemand := None; OnDemandCallbackContext := None;
          NumberOfPendingCalls := 0; DisableRetries := false |};
     Registry_TimesRun := TimesRun;
     ScheduledTask_Trace := [] |}.

(** A Config whose callback returns [result] and calls no Method. *)
Definition example_task (persistence : ScheduledTask_Persistence_Type)
    (mode : ScheduledTask_ExecutionMode_Type) (when : ScheduledTask_ExecuteWhen_Type)
    (result : ScheduledTask_Result_Type) : DMF_CONFIG_ScheduledTask :=
  {| EvtScheduledTaskCallback := λ _ _ s, (result, s);
     CallbackContext := Some 7%positive;
     PersistenceType := persistence; ExecutionMode := mode; ExecuteWhen := when;
     TimerPeriodMsOnSuccess := 1000%N; TimerPeriodMsOnFail := 250%N;
     TimeMsBeforeInitialCall := 0%N |}.

(** Answers with which every call to the registry and to the Rundown child
    Module succeeds. *)
Definition example_work_answers : ClientWorkDoAnswers :=
  {| TimesRunGet_answers :=
       {| WdfDriverOpenParametersRegistryKey_answer := STATUS_SUCCESS;
          WdfRegistryValue_answer := STATUS_SUCCESS |};
     TimesRunSet_answers :=
       {| WdfDriverOpenParametersRegistryKey_answer := STATUS_SUCCESS;
          WdfRegistryValue_answer := STATUS_SUCCESS |};
     DMF_Rundown_Reference_answer := STATUS_SUCCESS |}.

(** The Client callback never clears [WorkIsCompleted]: the flag is private
    to the Module and none of the Methods the Client can call clears it. *)
Definition flag_kept (moduleConfig : DMF_CONFIG_ScheduledTask) : Prop :=
  ∀ ClientContext PreviousState s,
    WorkIsCompleted (ScheduledTask_moduleContext s) = true →
    WorkIsCompleted
      (ScheduledTask_moduleContext
         (EvtScheduledTaskCallback moduleConfig ClientContext PreviousState s).2) = true.

(** The Client callback calls no Method of the Module and leaves the registry
    alone: it returns with the state it was called in. *)
Definition quiet (moduleConfig : DMF_CONFIG_ScheduledTask) : Prop :=
  ∀ ClientContext PreviousState s,
    (EvtScheduledTaskCallback moduleConfig ClientContext PreviousState s).2 = s.

(** The Client callback leaves the count of pending deferred calls and the
    context stored for them as they are: it makes no deferred call itself. *)
Definition pending_calls_kept (moduleConfig : DMF_CONFIG_ScheduledTask) : Prop :=
  ∀ ClientContext PreviousState s,
    NumberOfPendingCalls
      (ScheduledTask_moduleContext
         (EvtScheduledTaskCallback moduleConfig ClientContext PreviousState s).2)
      = NumberOfPendingCalls (ScheduledTask_moduleContext s) ∧
    OnDemandCallbackContext
      (ScheduledTask_moduleContext
         (EvtScheduledTaskCallback moduleConfig ClientContext PreviousState s).2)
      = OnDemandCallbackContext (ScheduledTask_moduleContext s).

(** * Properties *)

(** ** The request store *)

Lemma Request_read_update f r r' s :
  Request_read (Request_update f r s) r' =
  if decide (r = r') then f (Request_read s r) else Request_read s r'.
Proof.
  unfold Request_read, Request_update; simpl.
  rewrite lookup_partial_alter. by case_decide.
Qed.

Lemma UniqueRequestContextGet_Set f r r' s :
  UniqueRequestContextGet (UniqueRequestContextSet r f s) r' =
  if decide (r = r') then f (UniqueRequestContextGet s r) else UniqueRequestContextGet s r'.
Proof.
  unfold UniqueRequestContextGet, UniqueRequestContextSet.
  rewrite Request_read_update. by case_decide.
Qed.

(** ** Buffer extraction *)

(** C5, as the code has it. Buffer extraction follows the request type. A
    read yields no input (NULL, 0) and the output buffer with the length of
    the read result; a write yields no output (NULL, 0) and the input buffer
    with the length of the write result. An IOCTL or internal IOCTL yields
    the input buffer, with the size of its memory object, when the completion
    has an input memory object, and NULL with size zero when it has none; it
    yields the output buffer when the completion has an output memory object,
    with the length the target returned, and NULL with length zero when it has
    none, whatever length the target returned. In no case does the reported
    output length depend on the size of a memory object. A request type that
    is none of the four yields NULL and zero throughout. *)
Theorem extraction_by_request_type (s : State) (p : WDF_REQUEST_COMPLETION_PARAMS) :
  (let b := RequestTarget_CompletionParamsInputBufferAndOutputBufferGet s p
              ContinuousRequestTarget_RequestType_Read in
   InputBuffer b = None ∧ InputBufferSize b = 0%N ∧
   OutputBufferSize b = Read_Length p ∧
   OutputBuffer b = (m ← Read_Buffer p; (WdfMemoryGetBuffer s m).1)) ∧
  (let b := RequestTarget_CompletionParamsInputBufferAndOutputBufferGet s p
              ContinuousRequestTarget_RequestType_Write in
   OutputBuffer b = None ∧ OutputBufferSize b = 0%N ∧
   InputBufferSize b = Write_Length p ∧
   InputBuffer b = (m ← Write_Buffer p; (WdfMemoryGetBuffer s m).1)) ∧
  (let device_control (t : ContinuousRequestTarget_RequestType) :=
     let b := RequestTarget_CompletionParamsInputBufferAndOutputBufferGet s p t in
     (InputBuffer b, InputBufferSize b)
       = match Ioctl_Input_Buffer p with
         | Some inputMemory => WdfMemoryGetBuffer s inputMemory
         | None => (None, 0%N)
         end ∧
     (OutputBuffer b, OutputBufferSize b)
       = match Ioctl_Output_Buffer p with
         | Some outputMemory =>
             ((WdfMemoryGetBuffer s outputMemory).1, Ioctl_Output_Length p)
         | None => (None, 0%N)
         end ∧
     (∀ s' : State,
        OutputBufferSize
          (RequestTarget_CompletionParamsInputBufferAndOutputBufferGet s' p t)
        = OutputBufferSize b) in
   device_control ContinuousRequestTarget_RequestType_Ioctl ∧
   device_control ContinuousRequestTarget_RequestType_InternalIoctl) ∧
  RequestTarget_CompletionParamsInputBufferAndOutputBufferGet s p
    ContinuousRequestTarget_RequestType_Invalid
  = {| InputBuffer := None; InputBufferSize := 0%N;
       OutputBuffer := None; OutputBufferSize := 0%N |}.
Proof.
  split; [|split; [|split]].
  - simpl. repeat split; by destruct (Read_Buffer p).
  - simpl. repeat split; by destruct (Write_Buffer p).
  - cbv zeta. simpl. split.
    all: split; [|split].
    all: try (destruct (Ioctl_Input_Buffer p) as [m|]; [by destruct (WdfMemoryGetBuffer s m) | done]).
    all: try (by destruct (Ioctl_Output_Buffer p)).
    all: intros s'; by destruct (Ioctl_Output_Buffer p).
  - reflexivity.
Qed.

(** The same at a concrete completion: a device-control request with 32 bytes
    of output capacity of which the target filled 20. *)
Lemma extraction_by_request_type_witness :
  let s :=
    {| g_ContinuousRequestTargetUniqueId := 0; Requests := ∅;
       Memories := {[ 1%positive := {| Buffer := Some 100%positive; BufferSize := 16%N;
                                       ParentObject := 9%positive |};
                      2%positive := {| Buffer := Some 200%positive; BufferSize := 32%N;
                                       ParentObject := 9%positive |} ]};
       BufferPoolLent := ∅; QueuedWorkitems := []; ModuleReferences := 0;
       moduleContext := {| IoTarget := None; PendingAsynchronousRequests := Some [];
                           PendingReuseRequests := Some [] |};
       Trace := [] |} in
  let p :=
    {| Read_Buffer := None; Read_Length := 0%N; Write_Buffer := None; Write_Length := 0%N;
       Ioctl_Input_Buffer := Some 1%positive; Ioctl_Output_Buffer := Some 2%positive;
       Ioctl_Output_Length := 20%N |} in
  let b := RequestTarget_CompletionParamsInputBufferAndOutputBufferGet s p
             ContinuousRequestTarget_RequestType_Ioctl in
  (InputBuffer b, InputBufferSize b) = (Some 100%positive, 16%N) ∧
  (OutputBuffer b, OutputBufferSize b) = (Some 200%positive, 20%N).
Proof.
  intros s p b.
  destruct (proj1 (proj1 (proj2 (proj2 (extraction_by_request_type s p)))))
    as (Hinput & Houtput & _).
  split; [exact Hinput | exact Houtput].
Defined.

(** C5 as stated fails on a device-control request that has no output memory
    object, as one sent without a response buffer has: the target reports 20
    bytes returned, the input buffer is extracted, and the output buffer is
    NULL with a reported length of zero, not 20. *)
Lemma extraction_ioctl_without_output_memory :
  let s :=
    {| g_ContinuousRequestTargetUniqueId := 0; Requests := ∅;
       Memories := {[ 1%positive := {| Buffer := Some 100%positive; BufferSize := 16%N;
                                       ParentObject := 9%positive |} ]};
       BufferPoolLent := ∅; QueuedWorkitems := []; ModuleReferences := 0;
       moduleContext := {| IoTarget := None; PendingAsynchronousRequests := Some [];
                           PendingReuseRequests := Some [] |};
       Trace := [] |} in
  let p :=
    {| Read_Buffer := None; Read_Length := 0%N; Write_Buffer := None; Write_Length := 0%N;
       Ioctl_Input_Buffer := Some 1%positive; Ioctl_Output_Buffer := None;
       Ioctl_Output_Length := 20%N |} in
  let b := RequestTarget_CompletionParamsInputBufferAndOutputBufferGet s p
             ContinuousRequestTarget_RequestType_Ioctl in
  Ioctl_Output_Length p = 20%N ∧
  b = {| InputBuffer := Some 100%positive; InputBufferSize := 16%N;
         OutputBuffer := None; OutputBufferSize := 0%N |} ∧
  OutputBufferSize b ≠ Ioctl_Output_Length p.
Proof. repeat split. discriminate. Qed.

(** ** The scans *)

(** Taking and dropping a Module reference leaves the state as it was. *)
Lemma DMF_ModuleDereference_Reference s :
  DMF_ModuleDereference (DMF_ModuleReference s) = s.
Proof.
  destruct s; unfold DMF_ModuleDereference, DMF_ModuleReference, set_ModuleReferences;
    simpl; f_equal; lia.
Qed.

Lemma SearchAndReference_scan_None s id items :
  SearchAndReference_scan s id items = None ↔
  ∀ r, r ∈ items → UniqueRequestIdCancel (UniqueRequestContextGet s r) ≠ id.
Proof.
  induction items as [|r0 items IH]; simpl.
  - split; [intros _ r Hr; by apply elem_of_nil in Hr | done].
  - case_decide as Hid.
    + split; [done | intros H; exfalso; eapply H; [left | done]].
    + rewrite IH. split.
      * intros H r [-> | Hr]%elem_of_cons; auto.
      * intros H r Hr. apply H. by right.
Qed.

(** The scan returns the first item that carries the id. *)
Lemma SearchAndReference_scan_Some s id items r :
  SearchAndReference_scan s id items = Some r ↔
  ∃ i, items !! i = Some r ∧
       UniqueRequestIdCancel (UniqueRequestContextGet s r) = id ∧
       ∀ j r', (j < i)%nat → items !! j = Some r' →
               UniqueRequestIdCancel (UniqueRequestContextGet s r') ≠ id.
Proof.
  revert r. induction items as [|r0 items IH]; intros r; simpl.
  - split; [done | by intros (i & Hi & _)].
  - case_decide as Hid.
    + split.
      * intros [= <-]. exists 0%nat. repeat split; [done|]. intros j r' Hj. lia.
      * intros ([|i] & Hi & Hr & Hfirst); simpl in Hi; [congruence|].
        exfalso. eapply (Hfirst 0%nat r0); [lia | done | done].
    + rewrite IH. split.
      * intros (i & Hi & Hr & Hfirst). exists (S i). repeat split; [done..|].
        intros [|j] r' Hj Hr'; simpl in Hr'; [by simplify_eq|].
        eapply Hfirst; [|done]. lia.
      * intros ([|i] & Hi & Hr & Hfirst); simpl in Hi; [by simplify_eq|].
        exists i. repeat split; [done..|].
        intros j r' Hj Hr'. eapply (Hfirst (S j)); [lia | done].
Qed.

Lemma ReuseListSearch_scan_None s id items :
  ReuseListSearch_scan s id items = None ↔
  ∀ r, r ∈ items → UniqueRequestIdReuse (UniqueRequestContextGet s r) ≠ id.
Proof.
  induction items as [|r0 items IH]; simpl.
  - split; [intros _ r Hr; by apply elem_of_nil in Hr | done].
  - case_decide as Hid.
    + split; [done | intros H; exfalso; eapply H; [left | done]].
    + rewrite IH. split.
      * intros H r [-> | Hr]%elem_of_cons; auto.
      * intros H r Hr. apply H. by right.
Qed.

Lemma ReuseListSearch_scan_Some s id items r b :
  ReuseListSearch_scan s id items = Some (r, b) ↔
  ∃ i, items !! i = Some r ∧
       UniqueRequestIdReuse (UniqueRequestContextGet s r) = id ∧
       RequestInUse (UniqueRequestContextGet s r) = b ∧
       ∀ j r', (j < i)%nat → items !! j = Some r' →
               UniqueRequestIdReuse (UniqueRequestContextGet s r') ≠ id.
Proof.
  revert r b. induction items as [|r0 items IH]; intros r b; simpl.
  - split; [done | by intros (i & Hi & _)].
  - case_decide as Hid.
    + split.
      * intros [= <- <-]. exists 0%nat. repeat split; [done|]. intros j r' Hj. lia.
      * intros ([|i] & Hi & Hr & Hb & Hfirst); simpl in Hi; [congruence|].
        exfalso. eapply (Hfirst 0%nat r0); [lia | done | done].
    + rewrite IH. split.
      * intros (i & Hi & Hr & Hb & Hfirst). exists (S i). repeat split; [done..|].
        intros [|j] r' Hj Hr'; simpl in Hr'; [by simplify_eq|].
        eapply Hfirst; [|done]. lia.
      * intros ([|i] & Hi & Hr & Hb & Hfirst); simpl in Hi; [by simplify_eq|].
        exists i. repeat split; [done..|].
        intros j r' Hj Hr'. eapply (Hfirst (S j)); [lia | done].
Qed.

(** The scan reads the cookie and the flag of the items and nothing else. *)
Lemma ReuseListSearch_scan_ext s s' id items :
  (∀ r, r ∈ items →
     UniqueRequestIdReuse (UniqueRequestContextGet s' r)
       = UniqueRequestIdReuse (UniqueRequestContextGet s r) ∧
     RequestInUse (UniqueRequestContextGet s' r)
       = RequestInUse (UniqueRequestContextGet s r)) →
  ReuseListSearch_scan s' id items = ReuseListSearch_scan s id items.
Proof.
  induction items as [|r0 items IH]; intros H; simpl; [done|].
  destruct (H r0) as [-> ->]; [by left|].
  case_decide; [done|]. apply IH. intros r Hr. apply H. by right.
Qed.

(** Writing the flag of the slot a cookie names changes what the scan reports
    about that slot, and nothing else. *)
Lemma ReuseListSearch_scan_flag s s' id items r b b' :
  ReuseListSearch_scan s id items = Some (r, b) →
  (∀ r', UniqueRequestIdReuse (UniqueRequestContextGet s' r')
           = UniqueRequestIdReuse (UniqueRequestContextGet s r')) →
  (∀ r', r' ≠ r → RequestInUse (UniqueRequestContextGet s' r')
                    = RequestInUse (UniqueRequestContextGet s r')) →
  RequestInUse (UniqueRequestContextGet s' r) = b' →
  ReuseListSearch_scan s' id items = Some (r, b').
Proof.
  intros Hscan Hid Hother <-.
  induction items as [|r0 items IH]; simpl in *; [done|].
  rewrite Hid. case_decide as Hc.
  - by simplify_eq.
  - by apply IH.
Qed.

(** The scan of [SearchAndRemove] returns the index of the first occurrence. *)
Lemma SearchAndRemove_scan_Some Request items k i :
  SearchAndRemove_scan Request items k = Some i ↔
  ∃ j, i = (k + j)%nat ∧ items !! j = Some Request ∧
       ∀ j', (j' < j)%nat → items !! j' ≠ Some Request.
Proof.
  revert k i. induction items as [|r0 items IH]; intros k i; simpl.
  - split; [done | by intros (j & _ & Hj & _)].
  - case_decide as Heq.
    + subst r0. split.
      * intros [= <-]. exists 0%nat. repeat split; [lia|]. intros j' Hj'. lia.
      * intros ([|j] & -> & Hj & Hfirst); [f_equal; lia|].
        exfalso. by eapply (Hfirst 0%nat); [lia|].
    + rewrite IH. split.
      * intros (j & -> & Hj & Hfirst). exists (S j). repeat split; [lia | done |].
        intros [|j'] Hj'; simpl; [congruence|]. apply Hfirst. lia.
      * intros ([|j] & -> & Hj & Hfirst); simpl in Hj; [congruence|].
        exists j. repeat split; [lia | done |].
        intros j' Hj'. apply (Hfirst (S j')). lia.
Qed.

Lemma SearchAndRemove_scan_None Request items k :
  SearchAndRemove_scan Request items k = None ↔ Request ∉ items.
Proof.
  revert k. induction items as [|r0 items IH]; intros k; simpl.
  - split; [intros _; apply not_elem_of_nil | done].
  - case_decide as Heq.
    + subst. split; [done | intros H; exfalso; apply H; by left].
    + rewrite IH, not_elem_of_cons.
      split; [intros ?; split; [congruence | done] | by intros [_ ?]].
Qed.

(** ** Cancel *)

Lemma SearchAndReference_scan_ext s s' id items :
  (∀ r, UniqueRequestContextGet s' r = UniqueRequestContextGet s r) →
  SearchAndReference_scan s' id items = SearchAndReference_scan s id items.
Proof.
  intros H. induction items as [|r0 items IH]; simpl; [done|].
  rewrite H. case_decide; [done | apply IH].
Qed.

Lemma SearchAndReference_ModuleReference id s :
  RequestTarget_PendingCollectionListSearchAndReference id (DMF_ModuleReference s) =
  match SearchAndReference_scan s id
          (Collection_items Collection_PendingAsynchronousRequests s) with
  | Some r => (Some r, WdfObjectReference r (DMF_ModuleReference s))
  | None => (None, DMF_ModuleReference s)
  end.
Proof.
  unfold RequestTarget_PendingCollectionListSearchAndReference.
  by rewrite (SearchAndReference_scan_ext s (DMF_ModuleReference s)).
Qed.

(** C3, as the code has it. Cancel with a cookie that no pending request
    carries returns FALSE and leaves the whole state as it was, whatever the
    cookie (zero included) and whether or not the Module could be referenced.
    When a pending request carries the cookie and the Module is referenced,
    cancel asks the target to cancel the first such request and returns
    exactly the target's answer. When the Module cannot be referenced, cancel
    returns FALSE and leaves the state as it was without searching the
    collection or asking the target, whether a pending request carries the
    cookie or not. *)
Theorem cancel_absent_or_target_answer (reference : NTSTATUS)
    (DmfRequestIdCancel_ : RequestTarget_DmfRequestCancel) (targetAnswer : bool)
    (s : State) :
  ((∀ r, r ∈ Collection_items Collection_PendingAsynchronousRequests s →
         UniqueRequestIdCancel (UniqueRequestContextGet s r) ≠ DmfRequestIdCancel_) →
   DMF_RequestTarget_Cancel reference DmfRequestIdCancel_ targetAnswer s = (false, s)) ∧
  (∀ r, r ∈ Collection_items Collection_PendingAsynchronousRequests s →
        UniqueRequestIdCancel (UniqueRequestContextGet s r) = DmfRequestIdCancel_ →
        NT_SUCCESS reference = true →
        ∃ requestToCancel,
          SearchAndReference_scan s DmfRequestIdCancel_
            (Collection_items Collection_PendingAsynchronousRequests s)
            = Some requestToCancel ∧
          (DMF_RequestTarget_Cancel reference DmfRequestIdCancel_ targetAnswer s).1
            = targetAnswer ∧
          Trace (DMF_RequestTarget_Cancel reference DmfRequestIdCancel_ targetAnswer s).2
            = Call_WdfRequestCancelSentRequest requestToCancel :: Trace s) ∧
  (NT_SUCCESS reference = false →
   DMF_RequestTarget_Cancel reference DmfRequestIdCancel_ targetAnswer s = (false, s)).
Proof.
  split; [|split].
  - intros Habsent. apply SearchAndReference_scan_None in Habsent.
    unfold DMF_RequestTarget_Cancel.
    destruct (NT_SUCCESS reference); simpl; [|done].
    rewrite SearchAndReference_ModuleReference, Habsent.
    by rewrite DMF_ModuleDereference_Reference.
  - intros r Hr Hid Href.
    destruct (SearchAndReference_scan s DmfRequestIdCancel_
                (Collection_items Collection_PendingAsynchronousRequests s))
      as [requestToCancel|] eqn:Hscan.
    + exists requestToCancel. split; [done|].
      unfold DMF_RequestTarget_Cancel. rewrite Href. simpl.
      by rewrite SearchAndReference_ModuleReference, Hscan.
    + exfalso. rewrite SearchAndReference_scan_None in Hscan. by eapply Hscan.
  - intros Href. unfold DMF_RequestTarget_Cancel. by rewrite Href.
Qed.

Lemma cancel_absent_or_target_answer_witness :
  let s := state_of 2 [(5%positive, {| UniqueRequestIdCancel := 2; UniqueRequestIdReuse := 0;
                                       RequestInUse := false |})]
             [5%positive] [] in
  DMF_RequestTarget_Cancel STATUS_SUCCESS 0 true s = (false, s) ∧
  (∃ requestToCancel,
     SearchAndReference_scan s 2 (Collection_items Collection_PendingAsynchronousRequests s)
       = Some requestToCancel ∧
     (DMF_RequestTarget_Cancel STATUS_SUCCESS 2 false s).1 = false ∧
     Trace (DMF_RequestTarget_Cancel STATUS_SUCCESS 2 false s).2
       = Call_WdfRequestCancelSentRequest requestToCancel :: Trace s) ∧
  DMF_RequestTarget_Cancel STATUS_UNSUCCESSFUL 2 true s = (false, s).
Proof.
  intros s. split; [|split].
  - apply (proj1 (cancel_absent_or_target_answer STATUS_SUCCESS 0 true s)).
    intros r Hr. apply list_elem_of_singleton in Hr. subst r. vm_compute. discriminate.
  - apply (proj1 (proj2 (cancel_absent_or_target_answer STATUS_SUCCESS 2 false s))
             5%positive).
    + apply list_elem_of_singleton. reflexivity.
    + vm_compute. reflexivity.
    + reflexivity.
  - apply (proj2 (proj2 (cancel_absent_or_target_answer STATUS_UNSUCCESSFUL 2 true s))).
    reflexivity.
Defined.

(** C3 as stated fails when the Module cannot be referenced: the cookie 2 is
    that of the request 5, which is in [PendingAsynchronousRequests], and the
    target would accept the cancellation, the very call returning TRUE when the
    Module is referenced; yet cancel returns FALSE, which is not the target's
    answer, and the target is not asked. *)
Lemma cancel_without_reference_returns_false :
  let s := state_of 2 [(5%positive, {| UniqueRequestIdCancel := 2; UniqueRequestIdReuse := 0;
                                       RequestInUse := false |})]
             [5%positive] [] in
  SearchAndReference_scan s 2 (Collection_items Collection_PendingAsynchronousRequests s)
    = Some 5%positive ∧
  (DMF_RequestTarget_Cancel STATUS_SUCCESS 2 true s).1 = true ∧
  NT_SUCCESS STATUS_UNSUCCESSFUL = false ∧
  (DMF_RequestTarget_Cancel STATUS_UNSUCCESSFUL 2 true s).1 = false ∧
  Trace (DMF_RequestTarget_Cancel STATUS_UNSUCCESSFUL 2 true s).2 = Trace s.
Proof. repeat split. Qed.

(** ** What every step of the Module preserves *)

Section Frame.
Variable Rel : State → State → Prop.
Hypothesis HRel : respected Rel.

Lemma Rel_refl : ∀ s, Rel s s.
Proof. apply HRel. Qed.

Lemma Rel_trans : ∀ s1 s2 s3, Rel s1 s2 → Rel s2 s3 → Rel s1 s3.
Proof. apply HRel. Qed.

Lemma Rel_Requests : ∀ f s, Rel s (set_Requests f s).
Proof. apply HRel. Qed.

Lemma Rel_Memories : ∀ f s, Rel s (set_Memories f s).
Proof. apply HRel. Qed.

Lemma Rel_BufferPoolLent : ∀ f s, Rel s (set_BufferPoolLent f s).
Proof. apply HRel. Qed.

Lemma Rel_QueuedWorkitems : ∀ f s, Rel s (set_QueuedWorkitems f s).
Proof. apply HRel. Qed.

Lemma Rel_ModuleReferences : ∀ f s, Rel s (set_ModuleReferences f s).
Proof. apply HRel. Qed.

Lemma Rel_IoTarget : ∀ v s, Rel s (set_moduleContext (set_IoTarget v) s).
Proof. apply HRel. Qed.

Lemma Rel_log : ∀ c s, (∀ v, c ≠ Call_InterlockedIncrement64 v) → Rel s (log c s).
Proof. apply HRel. Qed.

Lemma Rel_UniqueId : ∀ s, Rel s (log (Call_InterlockedIncrement64
                     (InterlockedIncrement64 (g_ContinuousRequestTargetUniqueId s)))
                (set_UniqueId
                   (InterlockedIncrement64 (g_ContinuousRequestTargetUniqueId s)) s)).
Proof. apply HRel. Qed.

Lemma Rel_Add : ∀ Collection Request s, Rel s (WdfCollectionAdd Collection Request s).
Proof. apply HRel. Qed.

Lemma Rel_Remove_pending : ∀ i s, Rel s (WdfCollectionRemoveItem Collection_PendingAsynchronousRequests i s).
Proof. apply HRel. Qed.


Ltac unfold_primitives :=
  unfold WdfObjectDelete_Request, WdfObjectDelete_Memory, WdfMemoryCreatePreallocated,
    DMF_BufferPool_Get, DMF_BufferPool_Put, DMF_ModuleReference, DMF_ModuleDereference,
    WdfRequestSetCompletionRoutine, WdfObjectReference, WdfObjectDereference,
    UniqueRequestContextSet, Request_update, WdfRequestCreate,
    DMF_QueuedWorkItem_Enqueue.

Ltac peel_with tac :=
  cbn [fst snd]; unfold_primitives;
  repeat first
    [ apply Rel_refl
    | lazymatch goal with
      | H : ?t = (_, ?x) |- Rel _ ?x => replace x with (t.2) by (by rewrite H)
      end
    | eapply Rel_trans;
      [ | first [ tac
                | apply Rel_Requests | apply Rel_Memories | apply Rel_BufferPoolLent
                | apply Rel_QueuedWorkitems | apply Rel_ModuleReferences
                | apply Rel_IoTarget | apply Rel_UniqueId | apply Rel_Add
                | apply Rel_Remove_pending
                | apply Rel_log; intros ?; discriminate ] ] ].

Ltac peel := peel_with fail.

Lemma Rel_ListAdd answer Request Collection s :
  Rel s (RequestTarget_PendingCollectionListAdd answer Request Collection s).2.
Proof. unfold RequestTarget_PendingCollectionListAdd. case_match; peel. Qed.

Lemma Rel_SearchAndRemove_pending Request s :
  Rel s (RequestTarget_PendingCollectionListSearchAndRemove Request
           Collection_PendingAsynchronousRequests s).2.
Proof.
  unfold RequestTarget_PendingCollectionListSearchAndRemove. repeat case_match; peel.
Qed.

Lemma Rel_SearchAndReference id s :
  Rel s (RequestTarget_PendingCollectionListSearchAndReference id s).2.
Proof.
  unfold RequestTarget_PendingCollectionListSearchAndReference. repeat case_match; peel.
Qed.

Lemma Rel_ReuseListSearch id s :
  Rel s (RequestTarget_PendingCollectionReuseListSearch id s).2.
Proof.
  unfold RequestTarget_PendingCollectionReuseListSearch. repeat case_match; peel.
Qed.

Lemma Rel_Format e Request RequestType s :
  Rel s (RequestTarget_FormatRequestForRequestType e Request RequestType s).2.
Proof. unfold RequestTarget_FormatRequestForRequestType. repeat case_match; peel. Qed.

Lemma Rel_RequestSendReuse_Exit a request m1 m2 abortReuse sent ntStatus size written s :
  Rel s (RequestSendReuse_Exit a request m1 m2 abortReuse sent ntStatus size written s).2.
Proof. unfold RequestSendReuse_Exit. repeat case_match; peel. Qed.

Lemma Rel_RequestSendReuse_send a e request m1 m2 id s :
  Rel s (RequestSendReuse_send a e request m1 m2 id s).2.
Proof.
  unfold RequestSendReuse_send. repeat case_match;
    peel_with ltac:(first [ apply Rel_RequestSendReuse_Exit
                          | apply Rel_SearchAndRemove_pending ]).
Qed.

Lemma Rel_RequestSendReuse_arm a e request m1 m2 ntStatus s :
  Rel s (RequestSendReuse_arm a e request m1 m2 ntStatus s).2.
Proof.
  unfold RequestSendReuse_arm. repeat case_match;
    peel_with ltac:(first [ apply Rel_RequestSendReuse_Exit
                          | apply Rel_RequestSendReuse_send
                          | apply Rel_ListAdd ]).
Qed.
Lemma Rel_RequestSendReuse_attach a e request ntStatus s :
  Rel s (RequestSendReuse_attach a e request ntStatus s).2.
Proof.
  unfold RequestSendReuse_attach. repeat (case_match; simplify_eq);
    peel_with ltac:(first [ apply Rel_RequestSendReuse_Exit
                          | apply Rel_RequestSendReuse_arm
                          | apply Rel_Format ]).
Qed.

Lemma Rel_RequestSendReuse a id e s :
  Rel s (RequestTarget_RequestSendReuse a id e s).2.
Proof.
  unfold RequestTarget_RequestSendReuse. repeat (case_match; simplify_eq);
    peel_with ltac:(first [ apply Rel_RequestSendReuse_Exit
                          | apply Rel_RequestSendReuse_attach
                          | apply Rel_ReuseListSearch ]).
Qed.

Lemma Rel_RequestCreateAndSend_Exit a request sent ntStatus size written s :
  Rel s (RequestCreateAndSend_Exit a request sent ntStatus size written s).2.
Proof. unfold RequestCreateAndSend_Exit. repeat case_match; peel. Qed.

Lemma Rel_RequestCreateAndSend_send a e request id s :
  Rel s (RequestCreateAndSend_send a e request id s).2.
Proof.
  unfold RequestCreateAndSend_send. repeat case_match;
    peel_with ltac:(first [ apply Rel_RequestCreateAndSend_Exit
                          | apply Rel_SearchAndRemove_pending ]).
Qed.

Lemma Rel_RequestCreateAndSend_arm a e request s :
  Rel s (RequestCreateAndSend_arm a e request s).2.
Proof.
  unfold RequestCreateAndSend_arm. repeat case_match;
    peel_with ltac:(first [ apply Rel_RequestCreateAndSend_Exit
                          | apply Rel_RequestCreateAndSend_send
                          | apply Rel_ListAdd ]).
Qed.

Lemma Rel_RequestCreateAndSend a e s :
  Rel s (RequestTarget_RequestCreateAndSend a e s).2.
Proof.
  unfold RequestTarget_RequestCreateAndSend. repeat (case_match; simplify_eq);
    peel_with ltac:(first [ apply Rel_RequestCreateAndSend_Exit
                          | apply Rel_RequestCreateAndSend_arm
                          | apply Rel_Format ]).
Qed.

Lemma Rel_Cancel reference id answer s :
  Rel s (DMF_RequestTarget_Cancel reference id answer s).2.
Proof.
  unfold DMF_RequestTarget_Cancel. repeat (case_match; simplify_eq);
    peel_with ltac:(apply Rel_SearchAndReference).
Qed.

Lemma Rel_IoTargetClear reference s : Rel s (DMF_RequestTarget_IoTargetClear reference s).
Proof. unfold DMF_RequestTarget_IoTargetClear. case_match; peel. Qed.

Lemma Rel_IoTargetSet reference t s : Rel s (DMF_RequestTarget_IoTargetSet reference t s).
Proof. unfold DMF_RequestTarget_IoTargetSet. case_match; peel. Qed.

Lemma Rel_ReuseCreate reference create add s :
  Rel s (DMF_RequestTarget_ReuseCreate reference create add s).2.
Proof.
  unfold DMF_RequestTarget_ReuseCreate. repeat (case_match; simplify_eq);
    peel_with ltac:(apply Rel_ListAdd).
Qed.

Lemma Rel_ReuseSend reference passive id a e s :
  Rel s (DMF_RequestTarget_ReuseSend reference passive id a e s).2.
Proof.
  unfold DMF_RequestTarget_ReuseSend. repeat (case_match; simplify_eq);
    peel_with ltac:(apply Rel_RequestSendReuse).
Qed.

Lemma Rel_SendEx reference passive a e s :
  Rel s (DMF_RequestTarget_SendEx reference passive a e s).2.
Proof.
  unfold DMF_RequestTarget_SendEx. repeat (case_match; simplify_eq);
    peel_with ltac:(apply Rel_RequestCreateAndSend).
Qed.

Lemma Rel_Send reference passive a e s :
  Rel s (DMF_RequestTarget_Send reference passive a e s).2.
Proof. apply Rel_SendEx. Qed.

Lemma Rel_SendSynchronously reference a e s :
  Rel s (DMF_RequestTarget_SendSynchronously reference a e s).2.
Proof.
  unfold DMF_RequestTarget_SendSynchronously. repeat (case_match; simplify_eq);
    peel_with ltac:(apply Rel_RequestCreateAndSend).
Qed.

(** The completion path respects the relation when the client callback,
    which is made of steps of the Module, does. *)
Lemma Rel_Root client e Request p context ReuseRequest s :
  (∀ args x, Rel x (client args x)) →
  Rel s (RequestTarget_ProcessAsynchronousRequestRoot client e Request p context
           ReuseRequest s).
Proof.
  intros Hclient. unfold RequestTarget_ProcessAsynchronousRequestRoot.
  repeat case_match;
    peel_with ltac:(first [ apply Hclient | apply Rel_SearchAndRemove_pending ]).
Qed.

Lemma Rel_run_CompletionRoutine routine client e Request p context s :
  (∀ args x, Rel x (client args x)) →
  Rel s (run_CompletionRoutine routine client e Request p context s).
Proof.
  intros Hclient. destruct routine; simpl;
    unfold RequestTarget_ProcessAsynchronousRequestSingle,
      RequestTarget_ProcessAsynchronousRequestSingleReuse;
    peel_with ltac:(by apply Rel_Root).
Qed.

Lemma Rel_QueuedWorkitemCallbackSingle client e w s :
  (∀ args x, Rel x (client args x)) →
  Rel s (RequestTarget_QueuedWorkitemCallbackSingle client e w s).
Proof.
  intros Hclient. unfold RequestTarget_QueuedWorkitemCallbackSingle,
    RequestTarget_ProcessAsynchronousRequestSingle,
    RequestTarget_ProcessAsynchronousRequestSingleReuse.
  case_match; by apply Rel_Root.
Qed.

(** [DMF_RequestTarget_ReuseDelete] needs the removal from
    [PendingReuseRequests] to respect the relation. *)
Lemma Rel_ReuseDelete id s :
  (∀ i x, Rel x (WdfCollectionRemoveItem Collection_PendingReuseRequests i x)) →
  Rel s (DMF_RequestTarget_ReuseDelete id s).2.
Proof.
  intros Hremove.
  unfold DMF_RequestTarget_ReuseDelete,
    RequestTarget_PendingCollectionListSearchAndRemove.
  repeat (case_match; simplify_eq);
    peel_with ltac:(first [ apply Hremove | apply Rel_ReuseListSearch ]).
Qed.

Lemma step_Completed Request p e callback s :
  step (Op_Completed Request p e callback) s =
  match Completion (Request_read s Request) with
  | Some (routine, Context) =>
      run_CompletionRoutine routine (λ _, run callback) e Request p Context s
  | None => s
  end.
Proof. reflexivity. Qed.

Lemma step_QueuedWorkitem e callback s :
  step (Op_QueuedWorkitem e callback) s =
  match QueuedWorkitems s with
  | workitemContext :: rest =>
      RequestTarget_QueuedWorkitemCallbackSingle (λ _, run callback) e workitemContext
        (set_QueuedWorkitems (λ _, rest) s)
  | [] => s
  end.
Proof. reflexivity. Qed.

Lemma Rel_run_Forall ops :
  Forall (λ op, covered Rel op → ∀ s, Rel s (step op s)) ops →
  ((∀ i x, Rel x (WdfCollectionRemoveItem Collection_PendingReuseRequests i x)) ∨
   any_calls_ReuseDelete ops = false) →
  ∀ s, Rel s (run ops s).
Proof.
  induction 1 as [|op ops Hop _ IH]; intros Hcov s; simpl; [apply Rel_refl|].
  eapply Rel_trans.
  - apply Hop. destruct Hcov as [H | H]; [by left|].
    right. simpl in H. by apply orb_false_iff in H as [? _].
  - apply IH. destruct Hcov as [H | H]; [by left|].
    right. simpl in H. by apply orb_false_iff in H as [_ ?].
Qed.

Lemma Rel_step op : covered Rel op → ∀ s, Rel s (step op s).
Proof.
  induction op using Op_ind; intros Hcov s.
  - apply Rel_Send.
  - apply Rel_SendEx.
  - apply Rel_SendSynchronously.
  - apply Rel_ReuseCreate.
  - apply Rel_ReuseSend.
  - destruct Hcov as [H | H]; [|done]. by apply Rel_ReuseDelete.
  - apply Rel_Cancel.
  - apply Rel_IoTargetSet.
  - apply Rel_IoTargetClear.
  - rewrite step_Completed. repeat case_match; [|apply Rel_refl].
    apply Rel_run_CompletionRoutine. intros _ x. by apply Rel_run_Forall.
  - rewrite step_QueuedWorkitem. case_match; [apply Rel_refl|].
    eapply Rel_trans; [apply Rel_QueuedWorkitems|].
    apply Rel_QueuedWorkitemCallbackSingle. intros _ x. by apply Rel_run_Forall.
  - apply Rel_UniqueId.
Qed.

Lemma Rel_run ops s :
  ((∀ i x, Rel x (WdfCollectionRemoveItem Collection_PendingReuseRequests i x)) ∨
   any_calls_ReuseDelete ops = false) →
  Rel s (run ops s).
Proof.
  intros Hcov. apply Rel_run_Forall; [|done].
  apply Forall_forall. intros op _. apply Rel_step.
Qed.
End Frame.

(** ** The unique-id counter *)

Lemma LONGLONG_wrap_add x y : LONGLONG_wrap (LONGLONG_wrap x + y) = LONGLONG_wrap (x + y).
Proof.
  unfold LONGLONG_wrap. f_equal.
  replace ((x + 2 ^ 63) mod 2 ^ 64 - 2 ^ 63 + y + 2 ^ 63)
    with ((x + 2 ^ 63) mod 2 ^ 64 + y) by lia.
  rewrite Zplus_mod_idemp_l. f_equal. lia.
Qed.

Lemma iter_InterlockedIncrement64 g (n : nat) :
  Nat.iter (S n) InterlockedIncrement64 g = LONGLONG_wrap (g + Z.of_nat (S n)).
Proof.
  induction n as [|n IH].
  - simpl. unfold InterlockedIncrement64. f_equal.
  - change (Nat.iter (S (S n)) InterlockedIncrement64 g)
      with (InterlockedIncrement64 (Nat.iter (S n) InterlockedIncrement64 g)).
    rewrite IH. unfold InterlockedIncrement64. rewrite LONGLONG_wrap_add. f_equal. lia.
Qed.

Lemma unique_ids_elem g n x :
  x ∈ unique_ids g n → ∃ k : nat, (1 ≤ k ≤ n)%nat ∧ x = LONGLONG_wrap (g + Z.of_nat k).
Proof.
  induction n as [|n IH]; simpl; [by intros ?%elem_of_nil|].
  intros [-> | Hx]%elem_of_cons.
  - exists (S n). split; [lia|]. apply (iter_InterlockedIncrement64 g n).
  - destruct (IH Hx) as (k & Hk & ->). exists k. split; [lia | done].
Qed.

Lemma LONGLONG_wrap_inj_near x (j k : nat) :
  (k < j)%nat → Z.of_nat j - Z.of_nat k < 2 ^ 64 →
  LONGLONG_wrap (x + Z.of_nat j) ≠ LONGLONG_wrap (x + Z.of_nat k).
Proof.
  intros Hlt Hbound Heq. unfold LONGLONG_wrap in Heq.
  assert (H : (x + Z.of_nat j + 2 ^ 63) mod 2 ^ 64 = (x + Z.of_nat k + 2 ^ 63) mod 2 ^ 64)
    by lia.
  clear Heq.
  pose proof (Z.div_mod (x + Z.of_nat j + 2 ^ 63) (2 ^ 64) ltac:(lia)) as Hj.
  pose proof (Z.div_mod (x + Z.of_nat k + 2 ^ 63) (2 ^ 64) ltac:(lia)) as Hk.
  rewrite H in Hj.
  set (qj := (x + Z.of_nat j + 2 ^ 63) / 2 ^ 64) in *.
  set (qk := (x + Z.of_nat k + 2 ^ 63) / 2 ^ 64) in *.
  assert (Hd : Z.of_nat j - Z.of_nat k = 2 ^ 64 * (qj - qk)) by lia.
  assert (0 < qj - qk < 1) by nia. lia.
Qed.

(** Fewer than 2^64 + 1 draws never return the same id twice. *)
Lemma unique_ids_NoDup g n : Z.of_nat n ≤ 2 ^ 64 → NoDup (unique_ids g n).
Proof.
  induction n as [|n IH]; intros Hn; simpl; [constructor|].
  constructor; [|apply IH; lia].
  intros (k & Hk & Heq)%unique_ids_elem.
  change (InterlockedIncrement64 (Nat.iter n InterlockedIncrement64 g))
    with (Nat.iter (S n) InterlockedIncrement64 g) in Heq.
  rewrite iter_InterlockedIncrement64 in Heq.
  revert Heq. apply LONGLONG_wrap_inj_near; lia.
Qed.

Lemma unique_ids_app g (n m : nat) :
  unique_ids g (m + n) = unique_ids (Nat.iter n InterlockedIncrement64 g) m ++ unique_ids g n.
Proof.
  induction m as [|m IH]; simpl; [done|].
  rewrite IH. f_equal. f_equal. by rewrite Nat.iter_add.
Qed.

Lemma unique_ids_length g n : length (unique_ids g n) = n.
Proof. induction n; simpl; congruence. Qed.

Lemma draws_refl s : draws s s.
Proof. by exists 0%nat. Qed.

Lemma draws_trans s1 s2 s3 : draws s1 s2 → draws s2 s3 → draws s1 s3.
Proof.
  intros (n & Hg & Ht) (m & Hg' & Ht'). exists (m + n)%nat. split.
  - by rewrite Hg', Hg, Nat.iter_add.
  - by rewrite Ht', Ht, Hg, unique_ids_app, app_assoc.
Qed.

Lemma draws_respected : respected draws.
Proof.
  split.
  1: apply draws_refl.
  1: apply draws_trans.
  all: try (intros; by exists 0%nat).
  - intros c s0 Hc. exists 0%nat. split; [done|]. destruct c; simpl; try done.
    by destruct (Hc result).
  - intros s0. by exists 1%nat.
Qed.

(** Every run of the Module draws its ids from the counter, one increment
    each, whatever the steps are. *)
Lemma run_draws ops s : draws s (run ops s).
Proof.
  apply (Rel_run draws draws_respected). left. intros; by exists 0%nat.
Qed.

(** The ids drawn over a run that starts with an empty log. *)
Lemma run_ids_pairwise_distinct (ops : list Op) (s : State) :
  Trace s = [] →
  Z.of_nat (length (issued (Trace (run ops s)))) ≤ 2 ^ 64 →
  NoDup (issued (Trace (run ops s))) ∧
  issued (Trace (run ops s))
    = unique_ids (g_ContinuousRequestTargetUniqueId s)
        (length (issued (Trace (run ops s)))) ∧
  g_ContinuousRequestTargetUniqueId (run ops s)
    = Nat.iter (length (issued (Trace (run ops s)))) InterlockedIncrement64
        (g_ContinuousRequestTargetUniqueId s).
Proof.
  intros Hfresh Hbound.
  destruct (run_draws ops s) as (n & Hg & Ht).
  rewrite Hfresh, app_nil_r in Ht.
  rewrite Ht, unique_ids_length in *.
  split; [by apply unique_ids_NoDup | done].
Qed.

(** ** Reuse exclusivity *)

Lemma extends_respected : respected extends.
Proof.
  split; try (intros; by exists []).
  - intros s1 s2 s3 [c1 H1] [c2 H2]. exists (c2 ++ c1). by rewrite H2, H1, app_assoc.
  - intros c s _. by exists [c].
  - intros s. by eexists [_].
Qed.

Lemma reuse_slot_ModuleReference s id : reuse_slot (DMF_ModuleReference s) id = reuse_slot s id.
Proof. unfold reuse_slot. by apply ReuseListSearch_scan_ext. Qed.

Lemma ReuseListSearch_in_use s id r :
  reuse_slot s id = Some (r, true) →
  RequestTarget_PendingCollectionReuseListSearch id s = (None, s).
Proof.
  unfold reuse_slot, RequestTarget_PendingCollectionReuseListSearch. by intros ->.
Qed.

Lemma ReuseListSearch_absent s id :
  reuse_slot s id = None →
  RequestTarget_PendingCollectionReuseListSearch id s = (None, s).
Proof.
  unfold reuse_slot, RequestTarget_PendingCollectionReuseListSearch. by intros ->.
Qed.

Lemma ReuseListSearch_idle s id r :
  reuse_slot s id = Some (r, false) →
  RequestTarget_PendingCollectionReuseListSearch id s
    = (Some r, UniqueRequestContextSet r (with_RequestInUse true) s).
Proof.
  unfold reuse_slot, RequestTarget_PendingCollectionReuseListSearch. by intros ->.
Qed.

(** C2, as the code has it. A reuse-send against a cookie whose slot is in
    use fails with STATUS_OBJECTID_NOT_FOUND, the status it also returns for a
    cookie that names no slot at all: the Module has no status of its own for
    the slot being in use. The send routine leaves the whole state as it was,
    so that nothing is re-armed, formatted or sent (no call is logged) and no
    collection or request context changes; the Method
    [DMF_RequestTarget_ReuseSend] fails likewise and leaves the state as it
    was. When the slot is found not in use, the lookup sets its
    [RequestInUse] and changes no other request, and the send goes on to
    re-arm the request with [WdfRequestReuse]. *)
Theorem reuse_send_exclusive (a : SendArguments)
    (DmfRequestIdReuse : RequestTarget_DmfRequestReuse) (e : SendAnswers)
    (s : State) (request : WDFREQUEST) :
  (reuse_slot s DmfRequestIdReuse = Some (request, true) →
   RequestTarget_RequestSendReuse a DmfRequestIdReuse e s = (not_found_return a, s) ∧
   ret_ntStatus (not_found_return a) = STATUS_OBJECTID_NOT_FOUND ∧
   NT_SUCCESS (ret_ntStatus (not_found_return a)) = false ∧
   ∀ reference passive,
     NT_SUCCESS
       (ret_ntStatus (DMF_RequestTarget_ReuseSend reference passive DmfRequestIdReuse a e s).1)
       = false ∧
     (DMF_RequestTarget_ReuseSend reference passive DmfRequestIdReuse a e s).2 = s) ∧
  (reuse_slot s DmfRequestIdReuse = None →
   RequestTarget_RequestSendReuse a DmfRequestIdReuse e s = (not_found_return a, s)) ∧
  (reuse_slot s DmfRequestIdReuse = Some (request, false) →
   ∃ s1,
     RequestTarget_PendingCollectionReuseListSearch DmfRequestIdReuse s = (Some request, s1) ∧
     RequestInUse (UniqueRequestContextGet s1 request) = true ∧
     (∀ r, r ≠ request → UniqueRequestContextGet s1 r = UniqueRequestContextGet s r) ∧
     ∃ calls,
       Trace (RequestTarget_RequestSendReuse a DmfRequestIdReuse e s).2
         = calls ++ Call_WdfRequestReuse request :: Trace s).
Proof.
  split; [|split].
  - intros Hslot. split; [|split; [done|split; [done|]]].
    + unfold RequestTarget_RequestSendReuse.
      by rewrite (ReuseListSearch_in_use _ _ _ Hslot).
    + intros reference passive. unfold DMF_RequestTarget_ReuseSend.
      destruct (NT_SUCCESS reference) eqn:Href; simpl; [|done].
      unfold RequestTarget_RequestSendReuse.
      rewrite (ReuseListSearch_in_use (DMF_ModuleReference s) _ request)
        by by rewrite reuse_slot_ModuleReference.
      simpl. by rewrite DMF_ModuleDereference_Reference.
  - intros Hslot. unfold RequestTarget_RequestSendReuse.
    by rewrite (ReuseListSearch_absent _ _ Hslot).
  - intros Hslot. eexists. split; [by apply ReuseListSearch_idle|].
    split; [|split].
    + rewrite UniqueRequestContextGet_Set. by rewrite decide_True.
    + intros r Hr. rewrite UniqueRequestContextGet_Set. by rewrite decide_False.
    + unfold RequestTarget_RequestSendReuse. rewrite (ReuseListSearch_idle _ _ _ Hslot).
      set (s1 := log _ _).
      assert (Hext : ∀ x, extends s1 x → ∃ calls,
                 Trace x = calls ++ Call_WdfRequestReuse request :: Trace s).
      { intros x [calls Hx]. exists calls. by rewrite Hx. }
      case_match; apply Hext.
      * apply (Rel_RequestSendReuse_Exit extends extends_respected).
      * apply (Rel_RequestSendReuse_attach extends extends_respected).
Qed.

Lemma reuse_send_exclusive_witness :
  let busy := state_of 7 [(5%positive, {| UniqueRequestIdCancel := 0;
                                          UniqueRequestIdReuse := 7;
                                          RequestInUse := true |})] [] [5%positive] in
  let idle := state_of 7 [(5%positive, {| UniqueRequestIdCancel := 0;
                                          UniqueRequestIdReuse := 7;
                                          RequestInUse := false |})] [] [5%positive] in
  let a := example_arguments in
  let e := example_answers 5%positive true STATUS_SUCCESS in
  (RequestTarget_RequestSendReuse a 7 e busy = (not_found_return a, busy) ∧
   ret_ntStatus (not_found_return a) = STATUS_OBJECTID_NOT_FOUND ∧
   NT_SUCCESS (ret_ntStatus (not_found_return a)) = false ∧
   ∀ reference passive,
     NT_SUCCESS (ret_ntStatus (DMF_RequestTarget_ReuseSend reference passive 7 a e busy).1)
       = false ∧
     (DMF_RequestTarget_ReuseSend reference passive 7 a e busy).2 = busy) ∧
  RequestTarget_RequestSendReuse a 8 e busy = (not_found_return a, busy) ∧
  ∃ s1,
    RequestTarget_PendingCollectionReuseListSearch 7 idle = (Some 5%positive, s1) ∧
    RequestInUse (UniqueRequestContextGet s1 5%positive) = true ∧
    (∀ r, r ≠ 5%positive → UniqueRequestContextGet s1 r = UniqueRequestContextGet idle r) ∧
    ∃ calls,
      Trace (RequestTarget_RequestSendReuse a 7 e idle).2
        = calls ++ Call_WdfRequestReuse 5%positive :: Trace idle.
Proof.
  intros busy idle a e. split; [|split].
  - apply (proj1 (reuse_send_exclusive a 7 e busy 5%positive)). reflexivity.
  - apply (proj1 (proj2 (reuse_send_exclusive a 8 e busy 5%positive))). reflexivity.
  - apply (proj2 (proj2 (reuse_send_exclusive a 7 e idle 5%positive))). reflexivity.
Defined.

(** C2 as stated fails on the status: the send against the cookie 7, whose
    slot (request 5) is in use, comes back with STATUS_OBJECTID_NOT_FOUND,
    which is the not-found status, the very one the send against the cookie 8,
    which names no slot, comes back with, and not STATUS_INVALID_PARAMETER,
    the only other failure status the Module produces itself. *)
Lemma reuse_send_in_use_reports_not_found :
  let busy := state_of 7 [(5%positive, {| UniqueRequestIdCancel := 0;
                                          UniqueRequestIdReuse := 7;
                                          RequestInUse := true |})] [] [5%positive] in
  let a := example_arguments in
  let e := example_answers 5%positive true STATUS_SUCCESS in
  reuse_slot busy 7 = Some (5%positive, true) ∧
  reuse_slot busy 8 = None ∧
  ret_ntStatus (DMF_RequestTarget_ReuseSend STATUS_SUCCESS false 7 a e busy).1
    = STATUS_OBJECTID_NOT_FOUND ∧
  ret_ntStatus (DMF_RequestTarget_ReuseSend STATUS_SUCCESS false 8 a e busy).1
    = STATUS_OBJECTID_NOT_FOUND ∧
  bool_decide (STATUS_OBJECTID_NOT_FOUND = STATUS_INVALID_PARAMETER) = false.
Proof. repeat split. Qed.

(** ** Reuse-delete *)

Lemma reuse_slot_elem s id r b :
  reuse_slot s id = Some (r, b) → r ∈ Collection_items Collection_PendingReuseRequests s.
Proof.
  intros (i & Hi & _)%ReuseListSearch_scan_Some. by eapply list_elem_of_lookup_2.
Qed.

(** C7, as the code has it. [DMF_RequestTarget_ReuseDelete] looks the cookie
    up with the lookup of reuse-send, which flags a slot that is not in use as
    in use. When the slot is found and was not in use, the Method removes the
    request from [PendingReuseRequests] (the first occurrence, the other items
    keeping their order), deletes it and returns TRUE. When the slot is in use,
    or no slot carries the cookie, it returns FALSE and leaves the whole state
    as it was. *)
Theorem reuse_delete_removes_idle_slot
    (DmfRequestIdReuse : RequestTarget_DmfRequestReuse) (s : State) :
  (∀ request, reuse_slot s DmfRequestIdReuse = Some (request, false) →
     let r := DMF_RequestTarget_ReuseDelete DmfRequestIdReuse s in
     r.1 = true ∧
     (∃ i, Collection_items Collection_PendingReuseRequests s !! i = Some request ∧
           (∀ j, (j < i)%nat →
                 Collection_items Collection_PendingReuseRequests s !! j ≠ Some request) ∧
           PendingReuseRequests (moduleContext r.2)
             = delete i <$> PendingReuseRequests (moduleContext s)) ∧
     Deleted (Request_read r.2 request) = true ∧
     RequestInUse (UniqueRequestContextGet r.2 request) = true) ∧
  (∀ request, reuse_slot s DmfRequestIdReuse = Some (request, true) →
     DMF_RequestTarget_ReuseDelete DmfRequestIdReuse s = (false, s)) ∧
  (reuse_slot s DmfRequestIdReuse = None →
     DMF_RequestTarget_ReuseDelete DmfRequestIdReuse s = (false, s)).
Proof.
  split; [|split].
  - intros request Hslot. simpl.
    pose proof (reuse_slot_elem _ _ _ _ Hslot) as Helem.
    unfold DMF_RequestTarget_ReuseDelete.
    rewrite (ReuseListSearch_idle _ _ _ Hslot).
    unfold RequestTarget_PendingCollectionListSearchAndRemove.
    change (Collection_items Collection_PendingReuseRequests
              (UniqueRequestContextSet request (with_RequestInUse true) s))
      with (Collection_items Collection_PendingReuseRequests s).
    destruct (SearchAndRemove_scan request
                (Collection_items Collection_PendingReuseRequests s) 0) as [i|] eqn:Hscan.
    + apply SearchAndRemove_scan_Some in Hscan as (j & -> & Hj & Hfirst). simpl.
      split; [done|]. split; [by exists j|].
      unfold WdfObjectDereference, WdfObjectDelete_Request, UniqueRequestContextGet.
      rewrite !Request_read_update, !decide_True by done.
      change (Request_read (set_Memories ?f ?x) ?r) with (Request_read x r).
      rewrite !Request_read_update, !decide_True by done.
      change (Request_read (WdfCollectionRemoveItem ?c ?k ?x) ?r) with (Request_read x r).
      unfold UniqueRequestContextSet. rewrite !Request_read_update, !decide_True by done.
      done.
    + exfalso. by apply SearchAndRemove_scan_None in Hscan.
  - intros request Hslot. unfold DMF_RequestTarget_ReuseDelete.
    by rewrite (ReuseListSearch_in_use _ _ _ Hslot).
  - intros Hslot. unfold DMF_RequestTarget_ReuseDelete.
    by rewrite (ReuseListSearch_absent _ _ Hslot).
Qed.

Lemma reuse_delete_removes_idle_slot_witness :
  let idle := state_of 7 [(5%positive, {| UniqueRequestIdCancel := 0;
                                          UniqueRequestIdReuse := 7;
                                          RequestInUse := false |})] [] [5%positive] in
  let r := DMF_RequestTarget_ReuseDelete 7 idle in
  r.1 = true ∧
  (∃ i, Collection_items Collection_PendingReuseRequests idle !! i = Some 5%positive ∧
        (∀ j, (j < i)%nat →
              Collection_items Collection_PendingReuseRequests idle !! j ≠ Some 5%positive) ∧
        PendingReuseRequests (moduleContext r.2)
          = delete i <$> PendingReuseRequests (moduleContext idle)) ∧
  Deleted (Request_read r.2 5%positive) = true ∧
  RequestInUse (UniqueRequestContextGet r.2 5%positive) = true.
Proof.
  intros idle.
  apply (proj1 (reuse_delete_removes_idle_slot 7 idle) 5%positive). reflexivity.
Defined.

(** C7 as stated fails on a slot that is in use: the cookie 7 names the
    request 5, which is in [PendingReuseRequests], and reuse-delete returns
    FALSE and removes nothing. On a slot that is not in use the lookup does
    mark the request in use before it is removed. *)
Lemma reuse_delete_refuses_slot_in_use :
  let busy := state_of 7 [(5%positive, {| UniqueRequestIdCancel := 0;
                                          UniqueRequestIdReuse := 7;
                                          RequestInUse := true |})] [] [5%positive] in
  let idle := state_of 7 [(5%positive, {| UniqueRequestIdCancel := 0;
                                          UniqueRequestIdReuse := 7;
                                          RequestInUse := false |})] [] [5%positive] in
  reuse_slot busy 7 = Some (5%positive, true) ∧
  Collection_items Collection_PendingReuseRequests busy = [5%positive] ∧
  DMF_RequestTarget_ReuseDelete 7 busy = (false, busy) ∧
  RequestInUse (UniqueRequestContextGet idle 5%positive) = false ∧
  RequestInUse (UniqueRequestContextGet (DMF_RequestTarget_ReuseDelete 7 idle).2 5%positive)
    = true.
Proof. repeat split. Qed.

(** ** Completion *)

Lemma SearchAndRemove_Requests Request Collection s :
  Requests (RequestTarget_PendingCollectionListSearchAndRemove Request Collection s).2
    = Requests s.
Proof.
  unfold RequestTarget_PendingCollectionListSearchAndRemove. by repeat case_match.
Qed.

Lemma SearchAndRemove_pending_reuse_items Request s :
  Collection_items Collection_PendingReuseRequests
    (RequestTarget_PendingCollectionListSearchAndRemove Request
       Collection_PendingAsynchronousRequests s).2
  = Collection_items Collection_PendingReuseRequests s.
Proof.
  unfold RequestTarget_PendingCollectionListSearchAndRemove. by repeat case_match.
Qed.

Lemma SearchAndRemove_BufferPoolLent Request Collection s :
  BufferPoolLent (RequestTarget_PendingCollectionListSearchAndRemove Request Collection s).2
    = BufferPoolLent s.
Proof.
  unfold RequestTarget_PendingCollectionListSearchAndRemove. by repeat case_match.
Qed.

(** C4. When a reusable request completes and a client callback is
    registered, the callback runs in a state in which [RequestInUse] of the
    request is already FALSE: whatever the callback does, the completion is
    the callback applied to that state, followed by the return of the context
    buffer to the pool and the release of the Module reference. A reuse-send
    of the same cookie from inside the callback therefore finds the slot and
    is not turned down as in use. *)
Theorem in_use_cleared_before_callback (e : CompletionAnswers) (Request : WDFREQUEST)
    (CompletionParams : WDF_REQUEST_COMPLETION_PARAMS)
    (SingleAsynchronousRequestContext : PVOID)
    (Evt : EVT_DMF_RequestTarget_SendCompletion) (s : State) :
  EvtRequestTargetSingleAsynchronousRequest
    (SingleAsynchronousRequestContext_read s SingleAsynchronousRequestContext) = Some Evt →
  let before := state_at_callback e Request SingleAsynchronousRequestContext Evt s in
  (∃ arguments, cb_Evt arguments = Evt ∧
     ∀ client,
       RequestTarget_ProcessAsynchronousRequestRoot client e Request CompletionParams
         SingleAsynchronousRequestContext true s
       = DMF_ModuleDereference
           (DMF_BufferPool_Put SingleAsynchronousRequestContext (client arguments before))) ∧
  RequestInUse (UniqueRequestContextGet before Request) = false ∧
  ∀ DmfRequestIdReuse inUse,
    reuse_slot s DmfRequestIdReuse = Some (Request, inUse) →
    (RequestTarget_PendingCollectionReuseListSearch DmfRequestIdReuse before).1
      = Some Request.
Proof.
  intros HEvt before.
  assert (Hctx : ∀ r,
    UniqueRequestContextGet before r =
    if decide (Request = r)
    then with_RequestInUse false (UniqueRequestContextGet s r)
    else UniqueRequestContextGet s r).
  { intros r. unfold before, state_at_callback.
    change (UniqueRequestContextGet (log ?c ?x) r) with (UniqueRequestContextGet x r).
    rewrite UniqueRequestContextGet_Set.
    unfold UniqueRequestContextGet, Request_read.
    rewrite SearchAndRemove_Requests. by case_decide; subst. }
  split; [|split].
  - exists
      {| cb_Evt := Evt;
         cb_ClientContext :=
           SingleAsynchronousCallbackClientContext
             (SingleAsynchronousRequestContext_read s SingleAsynchronousRequestContext);
         cb_Buffers :=
           RequestTarget_CompletionParamsInputBufferAndOutputBufferGet
             (RequestTarget_PendingCollectionListSearchAndRemove (Some Request)
                Collection_PendingAsynchronousRequests s).2
             (Completion_WdfRequestGetCompletionParams e)
             (SingleAsynchronousRequestType
                (SingleAsynchronousRequestContext_read s SingleAsynchronousRequestContext));
         cb_CompletionStatus := Completion_WdfRequestGetStatus e |}.
    split; [done|]. intros client.
    unfold RequestTarget_ProcessAsynchronousRequestRoot, before, state_at_callback.
    unfold SingleAsynchronousRequestContext_read in *.
    rewrite SearchAndRemove_BufferPoolLent, HEvt. reflexivity.
  - rewrite Hctx. by rewrite decide_True.
  - intros id inUse Hslot.
    assert (Hbefore : reuse_slot before id = Some (Request, false)).
    { unfold reuse_slot in *.
      change (Collection_items Collection_PendingReuseRequests before)
        with (Collection_items Collection_PendingReuseRequests
                (RequestTarget_PendingCollectionListSearchAndRemove (Some Request)
                   Collection_PendingAsynchronousRequests s).2).
      rewrite SearchAndRemove_pending_reuse_items.
      eapply ReuseListSearch_scan_flag; [done|..].
      - intros r. rewrite Hctx. by case_decide.
      - intros r Hr. rewrite Hctx. by rewrite decide_False.
      - rewrite Hctx. by rewrite decide_True. }
    by rewrite (ReuseListSearch_idle _ _ _ Hbefore).
Qed.

Lemma in_use_cleared_before_callback_witness :
  let s := example_reuse_sent in
  let e := example_completion in
  let before := state_at_callback e 10%positive 60%positive 50%positive s in
  RequestInUse (UniqueRequestContextGet s 10%positive) = true ∧
  (∃ arguments, cb_Evt arguments = 50%positive ∧
     ∀ client,
       RequestTarget_ProcessAsynchronousRequestRoot client e 10%positive
         (Completion_WdfRequestGetCompletionParams e) 60%positive true s
       = DMF_ModuleDereference (DMF_BufferPool_Put 60%positive (client arguments before))) ∧
  RequestInUse (UniqueRequestContextGet before 10%positive) = false ∧
  ∀ DmfRequestIdReuse inUse,
    reuse_slot s DmfRequestIdReuse = Some (10%positive, inUse) →
    (RequestTarget_PendingCollectionReuseListSearch DmfRequestIdReuse before).1
      = Some 10%positive.
Proof.
  intros s e before. split; [reflexivity|].
  apply (in_use_cleared_before_callback e 10%positive
           (Completion_WdfRequestGetCompletionParams e) 60%positive 50%positive s).
  reflexivity.
Defined.

(** The scenario end to end: the reusable request is sent, a second send of
    the same cookie before the completion is turned down, and a send of the
    same cookie from inside the completion callback is taken: at the end the
    request has been sent twice, the callback has seen 20 bytes and success,
    and the slot is in use again. *)
Example resend_from_callback_scenario :
  let again := with_pool_buffer 61%positive (example_answers 10%positive true STATUS_SUCCESS) in
  ret_ntStatus
    (DMF_RequestTarget_ReuseSend STATUS_SUCCESS false 1 example_arguments again
       example_reuse_sent).1 = STATUS_OBJECTID_NOT_FOUND ∧
  let s' :=
    run [ Op_Completed 10%positive (Completion_WdfRequestGetCompletionParams example_completion)
            example_completion
            [ Op_ReuseSend STATUS_SUCCESS false 1 example_arguments again ] ]
        example_reuse_sent in
  Trace s' =
    [ Call_WdfRequestSend 10%positive false;
      Call_InterlockedIncrement64 3;
      Call_FormatRequest 10%positive ContinuousRequestTarget_RequestType_Ioctl;
      Call_WdfRequestReuse 10%positive;
      Call_EvtSendCompletion 50%positive 20%N STATUS_SUCCESS;
      Call_WdfRequestSend 10%positive false;
      Call_InterlockedIncrement64 2;
      Call_FormatRequest 10%positive ContinuousRequestTarget_RequestType_Ioctl;
      Call_WdfRequestReuse 10%positive;
      Call_InterlockedIncrement64 1 ] ∧
  RequestInUse (UniqueRequestContextGet s' 10%positive) = true ∧
  Deleted (Request_read s' 10%positive) = false ∧
  Collection_items Collection_PendingReuseRequests s' = [10%positive].
Proof. vm_compute. repeat split. Qed.

(** ** A failed reuse-send *)

Lemma keeps_refl request s : keeps request s s.
Proof. done. Qed.

Lemma keeps_trans request s1 s2 s3 :
  keeps request s1 s2 → keeps request s2 s3 → keeps request s1 s3.
Proof.
  intros (H1 & H2 & H3) (H1' & H2' & H3'). repeat split.
  - congruence.
  - intros r. by rewrite H2', H2.
  - intros r Hr. by rewrite H3', H3.
Qed.

Lemma keeps_same_Requests request s s' :
  Requests s' = Requests s →
  PendingReuseRequests (moduleContext s') = PendingReuseRequests (moduleContext s) →
  keeps request s s'.
Proof.
  intros HR HP. unfold keeps, UniqueRequestContextGet, Request_read. by rewrite HR, HP.
Qed.

Lemma keeps_Request_update request f s :
  (∀ o, UniqueRequestIdReuse (Context (f o)) = UniqueRequestIdReuse (Context o)) →
  keeps request s (Request_update f request s).
Proof.
  intros Hf. unfold keeps, UniqueRequestContextGet. repeat split.
  - intros r. rewrite Request_read_update. case_decide; [subst; apply Hf | done].
  - intros r Hr. rewrite Request_read_update. by rewrite decide_False.
Qed.

Lemma keeps_Memories request f s : keeps request s (set_Memories f s).
Proof. by apply keeps_same_Requests. Qed.

Lemma keeps_BufferPoolLent request f s : keeps request s (set_BufferPoolLent f s).
Proof. by apply keeps_same_Requests. Qed.

Lemma keeps_log request c s : keeps request s (log c s).
Proof. by apply keeps_same_Requests. Qed.

Lemma keeps_UniqueId request v s : keeps request s (set_UniqueId v s).
Proof. by apply keeps_same_Requests. Qed.

Lemma keeps_Add_pending request r s :
  keeps request s (WdfCollectionAdd Collection_PendingAsynchronousRequests r s).
Proof. by apply keeps_same_Requests. Qed.

Lemma keeps_Remove_pending request i s :
  keeps request s (WdfCollectionRemoveItem Collection_PendingAsynchronousRequests i s).
Proof. by apply keeps_same_Requests. Qed.

Ltac keeps_peel tac :=
  cbn [fst snd];
  unfold WdfObjectDelete_Memory, WdfMemoryCreatePreallocated, DMF_BufferPool_Get,
    WdfRequestSetCompletionRoutine, UniqueRequestContextSet;
  repeat first
    [ apply keeps_refl
    | lazymatch goal with
      | H : ?t = (_, ?x) |- keeps _ _ ?x => replace x with (t.2) by (by rewrite H)
      end
    | eapply keeps_trans;
      [ | first [ tac
                | apply keeps_Request_update; intros []; reflexivity
                | apply keeps_Memories | apply keeps_BufferPoolLent
                | apply keeps_log | apply keeps_UniqueId
                | apply keeps_Add_pending | apply keeps_Remove_pending ] ] ].

Lemma keeps_SearchAndRemove_pending request r s :
  keeps request s
    (RequestTarget_PendingCollectionListSearchAndRemove r
       Collection_PendingAsynchronousRequests s).2.
Proof.
  unfold RequestTarget_PendingCollectionListSearchAndRemove.
  repeat case_match; keeps_peel fail.
Qed.

Lemma keeps_ListAdd_pending request answer r s :
  keeps request s
    (RequestTarget_PendingCollectionListAdd answer r
       Collection_PendingAsynchronousRequests s).2.
Proof. unfold RequestTarget_PendingCollectionListAdd. case_match; keeps_peel fail. Qed.

Lemma keeps_Format request e r t s :
  keeps request s (RequestTarget_FormatRequestForRequestType e r t s).2.
Proof.
  unfold RequestTarget_FormatRequestForRequestType. repeat case_match; keeps_peel fail.
Qed.

Lemma keeps_Exit a request m1 m2 abortReuse sent ntStatus size written s :
  keeps request s
    (RequestSendReuse_Exit a (Some request) m1 m2 abortReuse sent ntStatus size written s).2.
Proof. unfold RequestSendReuse_Exit. repeat case_match; keeps_peel fail. Qed.

Lemma keeps_send a e request m1 m2 id s :
  keeps request s (RequestSendReuse_send a e request m1 m2 id s).2.
Proof.
  unfold RequestSendReuse_send. repeat case_match;
    keeps_peel ltac:(first [ apply keeps_Exit | apply keeps_SearchAndRemove_pending ]).
Qed.

Lemma keeps_arm a e request m1 m2 ntStatus s :
  keeps request s (RequestSendReuse_arm a e request m1 m2 ntStatus s).2.
Proof.
  unfold RequestSendReuse_arm. repeat case_match;
    keeps_peel ltac:(first [ apply keeps_Exit | apply keeps_send
                           | apply keeps_ListAdd_pending ]).
Qed.

Lemma keeps_attach a e request ntStatus s :
  keeps request s (RequestSendReuse_attach a e request ntStatus s).2.
Proof.
  unfold RequestSendReuse_attach. repeat (case_match; simplify_eq);
    keeps_peel ltac:(first [ apply keeps_Exit | apply keeps_arm | apply keeps_Format ]).
Qed.

Lemma cleared_Exit a request m1 m2 sent ntStatus size written s :
  cleared_unless_sent request
    (RequestSendReuse_Exit a (Some request) m1 m2 (negb sent) sent ntStatus size written s).
Proof.
  unfold cleared_unless_sent, RequestSendReuse_Exit. simpl. intros ->. simpl.
  unfold UniqueRequestContextGet.
  assert (H : ∀ x, RequestInUse
                     (Context (Request_read
                        (UniqueRequestContextSet request (with_RequestInUse false) x)
                        request)) = false).
  { intros x. unfold UniqueRequestContextSet. rewrite Request_read_update.
    by rewrite decide_True. }
  destruct m1, m2; apply H.
Qed.

Lemma cleared_send a e request m1 m2 id s :
  cleared_unless_sent request (RequestSendReuse_send a e request m1 m2 id s).
Proof.
  unfold RequestSendReuse_send. repeat case_match;
    first [ apply (cleared_Exit a request m1 m2 false) | apply cleared_Exit ].
Qed.

Lemma cleared_arm a e request m1 m2 ntStatus s :
  cleared_unless_sent request (RequestSendReuse_arm a e request m1 m2 ntStatus s).
Proof.
  unfold RequestSendReuse_arm. repeat case_match;
    first [ apply (cleared_Exit a request m1 m2 false) | apply cleared_send ].
Qed.

Lemma cleared_attach a e request ntStatus s :
  cleared_unless_sent request (RequestSendReuse_attach a e request ntStatus s).
Proof.
  unfold RequestSendReuse_attach. repeat (case_match; simplify_eq);
    first [ apply (cleared_Exit a request _ _ false) | apply cleared_arm ].
Qed.

Lemma not_sent_send a e request m1 m2 id s :
  failed_means_not_sent a (RequestSendReuse_send a e request m1 m2 id s).
Proof.
  intros Ha. unfold RequestSendReuse_send, RequestSendReuse_Exit. rewrite Ha.
  destruct (NT_SUCCESS (WdfRequestAllocateTimer_answer e)) eqn:Ht; simpl; [|done].
  destruct (WdfRequestSend_answer e); simpl; [by rewrite Ht|].
  by repeat case_match.
Qed.

Lemma not_sent_arm a e request m1 m2 ntStatus s :
  failed_means_not_sent a (RequestSendReuse_arm a e request m1 m2 ntStatus s).
Proof.
  intros Ha. unfold RequestSendReuse_arm. rewrite Ha.
  repeat case_match; try done; by apply not_sent_send.
Qed.

Lemma not_sent_attach a e request ntStatus s :
  failed_means_not_sent a (RequestSendReuse_attach a e request ntStatus s).
Proof.
  intros Ha. unfold RequestSendReuse_attach.
  repeat (case_match; simplify_eq); try done; by apply not_sent_arm.
Qed.

Lemma not_sent_RequestSendReuse a id e s :
  failed_means_not_sent a (RequestTarget_RequestSendReuse a id e s).
Proof.
  intros Ha. unfold RequestTarget_RequestSendReuse.
  repeat (case_match; simplify_eq); try done; by apply not_sent_attach.
Qed.

Lemma slot_free_intro id request b s s' :
  reuse_slot s id = Some (request, b) →
  keeps request s s' →
  RequestInUse (UniqueRequestContextGet s' request) = false →
  slot_free id request s'.
Proof.
  intros Hslot (HP & Hid & Hother) Hflag. split; [done|].
  assert (Hslot' : reuse_slot s' id = Some (request, false)).
  { unfold reuse_slot, Collection_items in *. simpl. rewrite HP.
    by eapply ReuseListSearch_scan_flag. }
  by rewrite (ReuseListSearch_idle _ _ _ Hslot').
Qed.

Lemma RequestSendReuse_keeps a id e s request :
  reuse_slot s id = Some (request, false) →
  keeps request s (RequestTarget_RequestSendReuse a id e s).2 ∧
  cleared_unless_sent request (RequestTarget_RequestSendReuse a id e s).
Proof.
  intros Hslot. unfold RequestTarget_RequestSendReuse.
  rewrite (ReuseListSearch_idle _ _ _ Hslot).
  assert (Hs1 : keeps request s
                  (log (Call_WdfRequestReuse request)
                     (UniqueRequestContextSet request (with_RequestInUse true) s))).
  { eapply keeps_trans; [|apply keeps_log].
    apply keeps_Request_update. by intros []. }
  case_match.
  - split; [|apply (cleared_Exit a request None None false)].
    eapply keeps_trans; [done | apply keeps_Exit].
  - split; [|apply cleared_attach].
    eapply keeps_trans; [done | apply keeps_attach].
Qed.

(** C10. A reuse-send that marked the slot in use and then came back with a
    failure status without the target having taken the request (the local
    [requestSendResult] is still FALSE) has put [RequestInUse] back to FALSE,
    and the next lookup of the same cookie finds the slot. For the Method
    [DMF_RequestTarget_ReuseSend], which always sends asynchronously, every
    failure after the lookup is such a failure. *)
Theorem failed_reuse_send_frees_slot (a : SendArguments)
    (DmfRequestIdReuse : RequestTarget_DmfRequestReuse) (e : SendAnswers)
    (s : State) (request : WDFREQUEST) :
  reuse_slot s DmfRequestIdReuse = Some (request, false) →
  (let r := RequestTarget_RequestSendReuse a DmfRequestIdReuse e s in
   NT_SUCCESS (ret_ntStatus r.1) = false →
   ret_requestSendResult r.1 = false →
   slot_free DmfRequestIdReuse request r.2) ∧
  (∀ reference passive,
     NT_SUCCESS reference = true →
     let r := DMF_RequestTarget_ReuseSend reference passive DmfRequestIdReuse a e s in
     NT_SUCCESS (ret_ntStatus r.1) = false →
     slot_free DmfRequestIdReuse request r.2).
Proof.
  intros Hslot. split.
  - intros r _ Hsent.
    destruct (RequestSendReuse_keeps a DmfRequestIdReuse e s request Hslot) as [Hk Hc].
    eapply slot_free_intro; [done | done | by apply Hc].
  - intros reference passive Href. unfold DMF_RequestTarget_ReuseSend. rewrite Href. simpl.
    set (a' := asynchronous_arguments passive a).
    pose proof (reuse_slot_ModuleReference s DmfRequestIdReuse) as Hslot'.
    rewrite Hslot in Hslot'.
    destruct (RequestSendReuse_keeps a' DmfRequestIdReuse e _ request Hslot') as [Hk Hc].
    pose proof (not_sent_RequestSendReuse a' DmfRequestIdReuse e (DMF_ModuleReference s)
                  eq_refl) as Hns.
    destruct (RequestTarget_RequestSendReuse a' DmfRequestIdReuse e (DMF_ModuleReference s))
      as [r s'] eqn:Hr.
    simpl in *. destruct (NT_SUCCESS (ret_ntStatus r)) eqn:Hst; simpl; intros Hfail;
      [congruence|].
    eapply (slot_free_intro _ _ _ (DMF_ModuleReference s)); [done | | by apply Hc, Hns].
    eapply keeps_trans; [done|]. by apply keeps_same_Requests.
Qed.

Lemma failed_reuse_send_frees_slot_witness :
  let idle := state_of 7 [(5%positive, {| UniqueRequestIdCancel := 0;
                                          UniqueRequestIdReuse := 7;
                                          RequestInUse := false |})] [] [5%positive] in
  let a := example_arguments in
  let e := example_answers 5%positive false STATUS_UNSUCCESSFUL in
  let r := DMF_RequestTarget_ReuseSend STATUS_SUCCESS false 7 a e idle in
  ret_ntStatus r.1 = STATUS_UNSUCCESSFUL ∧
  slot_free 7 5%positive r.2.
Proof.
  intros idle a e r. split; [reflexivity|].
  apply (proj2 (failed_reuse_send_frees_slot a 7 e idle 5%positive eq_refl)
           STATUS_SUCCESS false); reflexivity.
Defined.

(** ** A failed send and the context buffer *)

(** No path from [WdfRequestAllocateTimer] to the return of either send
    routine puts a buffer back into the pool. *)
Lemma RequestCreateAndSend_send_BufferPoolLent a e request id s :
  BufferPoolLent (RequestCreateAndSend_send a e request id s).2 = BufferPoolLent s.
Proof.
  unfold RequestCreateAndSend_send, RequestCreateAndSend_Exit.
  repeat case_match; cbn [fst snd];
    unfold WdfObjectDelete_Request, WdfObjectDelete_Memory, UniqueRequestContextSet,
      Request_update;
    cbn [BufferPoolLent set_Memories set_Requests log];
    by rewrite ?SearchAndRemove_BufferPoolLent.
Qed.

Lemma RequestSendReuse_send_BufferPoolLent a e request m1 m2 id s :
  BufferPoolLent (RequestSendReuse_send a e request m1 m2 id s).2 = BufferPoolLent s.
Proof.
  unfold RequestSendReuse_send, RequestSendReuse_Exit.
  repeat case_match; cbn [fst snd];
    unfold WdfObjectDelete_Request, WdfObjectDelete_Memory, UniqueRequestContextSet,
      Request_update;
    cbn [BufferPoolLent set_Memories set_Requests log];
    by rewrite ?SearchAndRemove_BufferPoolLent.
Qed.

(** Once an asynchronous send has taken its context buffer from the pool, the
    buffer is still lent when the routine returns, on every path: the only
    [DMF_BufferPool_Put] of the Module is in the completion path. *)
Lemma RequestCreateAndSend_arm_keeps_buffer a e request s :
  IsSynchronousRequest a = false →
  NT_SUCCESS (DMF_BufferPool_Get_answer e).1 = true →
  BufferPoolLent (RequestCreateAndSend_arm a e request s).2 !! (DMF_BufferPool_Get_answer e).2
  = Some {| SingleAsynchronousRequestType := RequestType a;
            EvtRequestTargetSingleAsynchronousRequest :=
              EvtRequestTargetSingleAsynchronousRequest_ a;
            SingleAsynchronousCallbackClientContext :=
              SingleAsynchronousRequestClientContext a |}.
Proof.
  intros Ha Hpool. unfold RequestCreateAndSend_arm. rewrite Ha, Hpool. cbn [negb].
  unfold RequestTarget_PendingCollectionListAdd, RequestCreateAndSend_Exit.
  repeat case_match; simplify_eq; cbn [fst snd];
    rewrite ?RequestCreateAndSend_send_BufferPoolLent; cbn; by rewrite lookup_insert_eq.
Qed.

Lemma RequestSendReuse_arm_keeps_buffer a e request m1 m2 ntStatus s :
  IsSynchronousRequest a = false →
  CompletionOption a ≠ ContinuousRequestTarget_CompletionOptions_Maximum →
  NT_SUCCESS (DMF_BufferPool_Get_answer e).1 = true →
  BufferPoolLent (RequestSendReuse_arm a e request m1 m2 ntStatus s).2
    !! (DMF_BufferPool_Get_answer e).2
  = Some {| SingleAsynchronousRequestType := RequestType a;
            EvtRequestTargetSingleAsynchronousRequest :=
              EvtRequestTargetSingleAsynchronousRequest_ a;
            SingleAsynchronousCallbackClientContext :=
              SingleAsynchronousRequestClientContext a |}.
Proof.
  intros Ha Hopt Hpool.
  unfold RequestSendReuse_arm, RequestSendReuse_completionRoutineSingle.
  rewrite Ha, Hpool. cbn [negb].
  unfold RequestTarget_PendingCollectionListAdd, RequestSendReuse_Exit.
  repeat case_match; simplify_eq; cbn [fst snd];
    rewrite ?RequestSendReuse_send_BufferPoolLent; cbn; by rewrite lookup_insert_eq.
Qed.

(** C8, the code at a send the target refuses. An asynchronous create-and-send
    with a cancel cookie, and an asynchronous reuse-send, each with
    [WdfRequestSend] returning FALSE and the request status
    STATUS_UNSUCCESSFUL: the Method returns the failure, the memory objects
    are gone, the registration in [PendingAsynchronousRequests] is undone (and
    the one-shot request deleted, the reusable one free again), but the
    context buffer 60 taken from the pool is still lent on return. *)
Lemma refused_send_leaves_context_buffer_lent :
  let a := example_arguments in
  let context :=
    {| SingleAsynchronousRequestType := ContinuousRequestTarget_RequestType_Ioctl;
       EvtRequestTargetSingleAsynchronousRequest := Some 50%positive;
       SingleAsynchronousCallbackClientContext := None |} in
  (let s := state_of 0 [] [] [] in
   let r := DMF_RequestTarget_SendEx STATUS_SUCCESS false a
              (example_answers 20%positive false STATUS_UNSUCCESSFUL) s in
   ret_ntStatus r.1 = STATUS_UNSUCCESSFUL ∧
   Trace r.2 = [Call_WdfRequestSend 20%positive false; Call_InterlockedIncrement64 1;
                Call_FormatRequest 20%positive ContinuousRequestTarget_RequestType_Ioctl] ∧
   Memories r.2 = ∅ ∧
   Collection_items Collection_PendingAsynchronousRequests r.2 = [] ∧
   Deleted (Request_read r.2 20%positive) = true ∧
   ModuleReferences r.2 = ModuleReferences s ∧
   BufferPoolLent s = ∅ ∧
   BufferPoolLent r.2 = {[ 60%positive := context ]}) ∧
  (let s := state_of 7 [(5%positive, {| UniqueRequestIdCancel := 0;
                                        UniqueRequestIdReuse := 7;
                                        RequestInUse := false |})] [] [5%positive] in
   let r := DMF_RequestTarget_ReuseSend STATUS_SUCCESS false 7 a
              (example_answers 5%positive false STATUS_UNSUCCESSFUL) s in
   ret_ntStatus r.1 = STATUS_UNSUCCESSFUL ∧
   Memories r.2 = ∅ ∧
   Collection_items Collection_PendingAsynchronousRequests r.2 = [] ∧
   RequestInUse (UniqueRequestContextGet r.2 5%positive) = false ∧
   ModuleReferences r.2 = ModuleReferences s ∧
   BufferPoolLent s = ∅ ∧
   BufferPoolLent r.2 = {[ 60%positive := context ]}).
Proof. vm_compute. repeat split. Qed.

(** ** The reuse collection under completion *)

Lemma reuse_grows_same s s' :
  PendingReuseRequests (moduleContext s') = PendingReuseRequests (moduleContext s) →
  reuse_grows s s'.
Proof.
  intros H. exists []. rewrite H.
  destruct (PendingReuseRequests (moduleContext s)); simpl; [|done].
  by rewrite app_nil_r.
Qed.

Lemma reuse_grows_respected : respected reuse_grows.
Proof.
  split; try (intros; by apply reuse_grows_same).
  - intros s1 s2 s3 [a1 H1] [a2 H2]. exists (a1 ++ a2). rewrite H2, H1.
    destruct (PendingReuseRequests (moduleContext s1)); simpl; [|done].
    by rewrite app_assoc.
  - intros [] Request s; [by apply reuse_grows_same | by exists [Request]].
Qed.

Lemma queued_workitem_dispatch client e w s :
  RequestTarget_QueuedWorkitemCallbackSingle client e w s
    = RequestTarget_ProcessAsynchronousRequestRoot client e (wi_Request w)
        (wi_CompletionParams w) (wi_SingleAsynchronousRequestContext w)
        (wi_ReuseRequest w) s.
Proof. unfold RequestTarget_QueuedWorkitemCallbackSingle. by destruct (wi_ReuseRequest w). Qed.

Lemma Deleted_WdfObjectDelete_Request Request s :
  Deleted (Request_read (WdfObjectDelete_Request Request s) Request) = true.
Proof.
  unfold WdfObjectDelete_Request.
  change (Request_read (set_Memories ?f ?x) ?r) with (Request_read x r).
  rewrite Request_read_update. by rewrite decide_True.
Qed.

Lemma SearchAndRemove_pending_reuse Request s :
  PendingReuseRequests
    (moduleContext (RequestTarget_PendingCollectionListSearchAndRemove Request
                      Collection_PendingAsynchronousRequests s).2)
  = PendingReuseRequests (moduleContext s).
Proof.
  unfold RequestTarget_PendingCollectionListSearchAndRemove. by repeat case_match.
Qed.

(** A reusable request that completes twice without a callback is still the
    slot of its cookie, and not deleted. *)
Example reuse_slot_survives_completions :
  let s := example_reuse_sent in
  let s' := run [ Op_Completed 10%positive
                    (Completion_WdfRequestGetCompletionParams example_completion)
                    example_completion [];
                  Op_ReuseSend STATUS_SUCCESS false 1 example_arguments
                    (example_answers 10%positive true STATUS_SUCCESS);
                  Op_Completed 10%positive
                    (Completion_WdfRequestGetCompletionParams example_completion)
                    example_completion [] ] s in
  reuse_slot s' 1 = Some (10%positive, false) ∧
  Deleted (Request_read s' 10%positive) = false ∧
  BufferPoolLent s' = ∅.
Proof. vm_compute. repeat split. Qed.

(** ** Close *)













(** Close with one request pending and one reusable request not yet deleted:
    the request completes during the first delay and the client deletes the
    reusable request during the second. *)
Example close_after_two_delays :
  let s :=
    run [ Op_ReuseCreate STATUS_SUCCESS (STATUS_SUCCESS, 10%positive) STATUS_SUCCESS;
          Op_SendEx STATUS_SUCCESS false example_arguments
            (example_answers 20%positive true STATUS_SUCCESS) ]
        (state_of 0 [] [] []) in
  let others :=
    [ [ Op_Completed 20%positive
          (Completion_WdfRequestGetCompletionParams example_completion)
          example_completion [] ];
      [ Op_ReuseDelete 1 ] ] in
  Collection_items Collection_PendingAsynchronousRequests s = [20%positive] ∧
  Collection_items Collection_PendingReuseRequests s = [10%positive] ∧
  DMF_RequestTarget_Close [] s = None ∧
  DMF_RequestTarget_Close (take 1 others) s = None ∧
  (moduleContext <$> DMF_RequestTarget_Close others s)
    = Some {| IoTarget := Some 1%positive; PendingAsynchronousRequests := None;
              PendingReuseRequests := None |}.
Proof. vm_compute. repeat split. Qed.


(** ** The cookies are ids of the counter *)

Lemma same_ids_refl s : same_ids s s.
Proof. done. Qed.

Lemma same_ids_trans s1 s2 s3 : same_ids s1 s2 → same_ids s2 s3 → same_ids s1 s3.
Proof. intros [H1 H2] [H1' H2']. split; congruence. Qed.

Lemma same_ids_Requests f s : same_ids s (set_Requests f s).
Proof. done. Qed.

Lemma same_ids_Memories f s : same_ids s (set_Memories f s).
Proof. done. Qed.

Lemma same_ids_BufferPoolLent f s : same_ids s (set_BufferPoolLent f s).
Proof. done. Qed.

Lemma same_ids_ModuleReferences f s : same_ids s (set_ModuleReferences f s).
Proof. done. Qed.

Lemma same_ids_moduleContext f s : same_ids s (set_moduleContext f s).
Proof. done. Qed.

Lemma same_ids_log c s : (∀ v, c ≠ Call_InterlockedIncrement64 v) → same_ids s (log c s).
Proof. intros Hc. split; [done|]. destruct c; try done. by destruct (Hc result). Qed.

Ltac same_ids_peel tac :=
  cbn [fst snd];
  unfold WdfObjectDelete_Request, WdfObjectDelete_Memory, WdfMemoryCreatePreallocated,
    DMF_BufferPool_Get, DMF_BufferPool_Put, DMF_ModuleReference, DMF_ModuleDereference,
    WdfRequestSetCompletionRoutine, WdfObjectReference, WdfObjectDereference,
    UniqueRequestContextSet, Request_update, WdfRequestCreate, WdfCollectionAdd,
    WdfCollectionRemoveItem, Collection_update;
  repeat first
    [ apply same_ids_refl
    | lazymatch goal with
      | H : ?t = (_, ?x) |- same_ids _ ?x => replace x with (t.2) by (by rewrite H)
      end
    | eapply same_ids_trans;
      [ | first [ tac
                | apply same_ids_Requests | apply same_ids_Memories
                | apply same_ids_BufferPoolLent | apply same_ids_ModuleReferences
                | apply same_ids_moduleContext
                | apply same_ids_log; intros ?; discriminate ] ] ].

Lemma same_ids_SearchAndRemove Request Collection s :
  same_ids s (RequestTarget_PendingCollectionListSearchAndRemove Request Collection s).2.
Proof.
  unfold RequestTarget_PendingCollectionListSearchAndRemove.
  repeat case_match; same_ids_peel fail.
Qed.

Lemma same_ids_ListAdd answer Request Collection s :
  same_ids s (RequestTarget_PendingCollectionListAdd answer Request Collection s).2.
Proof. unfold RequestTarget_PendingCollectionListAdd. case_match; same_ids_peel fail. Qed.

Lemma same_ids_Format e Request t s :
  same_ids s (RequestTarget_FormatRequestForRequestType e Request t s).2.
Proof.
  unfold RequestTarget_FormatRequestForRequestType. repeat case_match; same_ids_peel fail.
Qed.

Lemma same_ids_RequestCreateAndSend_send a e request id s :
  same_ids s (RequestCreateAndSend_send a e request id s).2.
Proof.
  unfold RequestCreateAndSend_send, RequestCreateAndSend_Exit.
  repeat case_match; same_ids_peel ltac:(apply same_ids_SearchAndRemove).
Qed.

Lemma same_ids_RequestSendReuse_send a e request m1 m2 id s :
  same_ids s (RequestSendReuse_send a e request m1 m2 id s).2.
Proof.
  unfold RequestSendReuse_send, RequestSendReuse_Exit.
  repeat case_match; same_ids_peel ltac:(apply same_ids_SearchAndRemove).
Qed.

(** The cookie a send stage writes to [*DmfRequestIdCancel] is the one it was
    given. *)
Lemma RequestCreateAndSend_send_cookie a e request id s v :
  ret_DmfRequestIdCancel (RequestCreateAndSend_send a e request id s).1 = Some v → v = id.
Proof.
  unfold RequestCreateAndSend_send, RequestCreateAndSend_Exit.
  repeat case_match; simpl; congruence.
Qed.

Lemma RequestSendReuse_send_cookie a e request m1 m2 id s v :
  ret_DmfRequestIdCancel (RequestSendReuse_send a e request m1 m2 id s).1 = Some v → v = id.
Proof.
  unfold RequestSendReuse_send, RequestSendReuse_Exit.
  repeat case_match; simpl; congruence.
Qed.

Lemma UniqueRequestIdCancel_just_set request v s :
  UniqueRequestIdCancel
    (UniqueRequestContextGet
       (UniqueRequestContextSet request (with_UniqueRequestIdCancel v) s) request) = v.
Proof. rewrite UniqueRequestContextGet_Set. by rewrite decide_True. Qed.

Lemma RequestCreateAndSend_arm_cookie a e request s v :
  ret_DmfRequestIdCancel (RequestCreateAndSend_arm a e request s).1 = Some v →
  v = InterlockedIncrement64 (g_ContinuousRequestTargetUniqueId s) ∧
  issued (Trace (RequestCreateAndSend_arm a e request s).2) = v :: issued (Trace s).
Proof.
  unfold RequestCreateAndSend_arm.
  destruct (IsSynchronousRequest a) eqn:Ha.
  { intros H. exfalso. revert H.
    unfold RequestCreateAndSend_send, RequestCreateAndSend_Exit. rewrite Ha.
    repeat case_match; simpl; try done; by rewrite orb_true_r in *. }
  destruct (NT_SUCCESS (DMF_BufferPool_Get_answer e).1); cbn [negb]; [|done].
  destruct (DmfRequestIdCancel a) eqn:Hc.
  - rewrite UniqueRequestIdCancel_just_set.
    unfold RequestTarget_PendingCollectionListAdd.
    destruct (NT_SUCCESS (WdfCollectionAdd_answer e)) eqn:Hadd; rewrite ?Hadd; cbn [negb];
      [|done].
    intros ->%RequestCreateAndSend_send_cookie. split; [done|].
    match goal with
    | |- issued (Trace (RequestCreateAndSend_send _ _ _ _ ?x).2) = _ =>
        destruct (same_ids_RequestCreateAndSend_send a e request
                    (InterlockedIncrement64
                       (g_ContinuousRequestTargetUniqueId
                          (WdfRequestSetCompletionRoutine request
                             (RequestCreateAndSend_completionRoutineSingle (CompletionOption a))
                             (DMF_BufferPool_Get_answer e).2
                             (DMF_BufferPool_Get (DMF_BufferPool_Get_answer e).2
                                {| SingleAsynchronousRequestType := RequestType a;
                                   EvtRequestTargetSingleAsynchronousRequest :=
                                     EvtRequestTargetSingleAsynchronousRequest_ a;
                                   SingleAsynchronousCallbackClientContext :=
                                     SingleAsynchronousRequestClientContext a |} s)))) x)
          as [_ ->]
    end.
    reflexivity.
  - intros H. exfalso. revert H.
    unfold RequestCreateAndSend_send, RequestCreateAndSend_Exit. rewrite Hc.
    by repeat case_match.
Qed.

(** Walk the branches of a routine without renaming its arguments. *)
Ltac walk :=
  repeat first
    [ match goal with
      | |- context [if ?b then _ else _] =>
          lazymatch b with
          | context [if _ then _ else _] => fail
          | _ => destruct b eqn:?; cbn [fst snd negb]
          end
      end
    | match goal with
      | |- context [RequestTarget_FormatRequestForRequestType ?e ?r ?t ?x] =>
          destruct (RequestTarget_FormatRequestForRequestType e r t x) as [? ?] eqn:?
      end ].

Lemma RequestCreateAndSend_cookie a e st v :
  ret_DmfRequestIdCancel (RequestTarget_RequestCreateAndSend a e st).1 = Some v →
  v = InterlockedIncrement64 (g_ContinuousRequestTargetUniqueId st) ∧
  issued (Trace (RequestTarget_RequestCreateAndSend a e st).2) = v :: issued (Trace st).
Proof.
  unfold RequestTarget_RequestCreateAndSend.
  walk; try (unfold RequestCreateAndSend_Exit; simpl; done).
  all: intros [-> ->]%RequestCreateAndSend_arm_cookie.
  all: lazymatch goal with
       | |- _ ∧ _ :: issued (Trace ?x) = _ =>
           assert (Hsame : same_ids st x)
             by same_ids_peel ltac:(apply same_ids_Format)
       end.
  all: destruct Hsame as [Hg Ht]; rewrite Hg, Ht; done.
Qed.

Lemma RequestSendReuse_arm_cookie a e request m1 m2 ntStatus s v :
  ret_DmfRequestIdCancel (RequestSendReuse_arm a e request m1 m2 ntStatus s).1 = Some v →
  v = InterlockedIncrement64 (g_ContinuousRequestTargetUniqueId s) ∧
  issued (Trace (RequestSendReuse_arm a e request m1 m2 ntStatus s).2) = v :: issued (Trace s).
Proof.
  unfold RequestSendReuse_arm.
  destruct (IsSynchronousRequest a) eqn:Ha.
  { intros H. exfalso. revert H.
    unfold RequestSendReuse_send, RequestSendReuse_Exit. rewrite Ha.
    repeat case_match; simpl; try done; by rewrite orb_true_r in *. }
  destruct (RequestSendReuse_completionRoutineSingle (CompletionOption a)) as [routine|];
    [|done].
  destruct (NT_SUCCESS (DMF_BufferPool_Get_answer e).1); cbn [negb]; [|done].
  destruct (DmfRequestIdCancel a) eqn:Hc.
  - rewrite UniqueRequestIdCancel_just_set.
    unfold RequestTarget_PendingCollectionListAdd.
    destruct (NT_SUCCESS (WdfCollectionAdd_answer e)) eqn:Hadd; rewrite ?Hadd; cbn [negb];
      [|done].
    intros ->%RequestSendReuse_send_cookie. split; [done|].
    match goal with
    | |- issued (Trace (RequestSendReuse_send _ _ _ _ _ ?i ?x).2) = _ =>
        destruct (same_ids_RequestSendReuse_send a e request m1 m2 i x) as [_ ->]
    end.
    reflexivity.
  - intros H. exfalso. revert H.
    unfold RequestSendReuse_send, RequestSendReuse_Exit. rewrite Hc.
    by repeat case_match.
Qed.

Lemma RequestSendReuse_attach_cookie a e request ntStatus st v :
  ret_DmfRequestIdCancel (RequestSendReuse_attach a e request ntStatus st).1 = Some v →
  v = InterlockedIncrement64 (g_ContinuousRequestTargetUniqueId st) ∧
  issued (Trace (RequestSendReuse_attach a e request ntStatus st).2) = v :: issued (Trace st).
Proof.
  unfold RequestSendReuse_attach.
  walk; try (unfold RequestSendReuse_Exit; simpl; done).
  all: intros [-> ->]%RequestSendReuse_arm_cookie.
  all: lazymatch goal with
       | |- _ ∧ _ :: issued (Trace ?x) = _ =>
           assert (Hsame : same_ids st x)
             by same_ids_peel ltac:(apply same_ids_Format)
       end.
  all: destruct Hsame as [Hg Ht]; rewrite Hg, Ht; done.
Qed.

Lemma RequestSendReuse_cookie a id e s v :
  ret_DmfRequestIdCancel (RequestTarget_RequestSendReuse a id e s).1 = Some v →
  v = InterlockedIncrement64 (g_ContinuousRequestTargetUniqueId s) ∧
  issued (Trace (RequestTarget_RequestSendReuse a id e s).2) = v :: issued (Trace s).
Proof.
  unfold RequestTarget_RequestSendReuse, RequestTarget_PendingCollectionReuseListSearch.
  repeat (case_match; simplify_eq); try (unfold RequestSendReuse_Exit; simpl; done).
  intros [-> ->]%RequestSendReuse_attach_cookie. done.
Qed.

(** The cookie of a successful reuse-create is the id the counter returned,
    it is the [UniqueRequestIdReuse] of the new request, and the request is
    the last item of [PendingReuseRequests]. *)
Lemma ReuseCreate_cookie reference create add s :
  let r := DMF_RequestTarget_ReuseCreate reference create add s in
  NT_SUCCESS r.1.1 = true →
  r.1.2 = InterlockedIncrement64 (g_ContinuousRequestTargetUniqueId s) ∧
  issued (Trace r.2) = r.1.2 :: issued (Trace s) ∧
  UniqueRequestIdReuse (UniqueRequestContextGet r.2 create.2) = r.1.2 ∧
  PendingReuseRequests (moduleContext r.2)
    = (λ l, l ++ [create.2]) <$> PendingReuseRequests (moduleContext s).
Proof.
  unfold DMF_RequestTarget_ReuseCreate, RequestTarget_PendingCollectionListAdd.
  destruct (NT_SUCCESS reference) eqn:Href; cbn [negb]; [|simpl; congruence].
  destruct (NT_SUCCESS create.1) eqn:Hcreate; cbn [negb]; [|simpl; congruence].
  destruct (NT_SUCCESS add) eqn:Hadd; rewrite ?Hadd; cbn [negb]; [|simpl; congruence].
  intros _. cbn [fst snd].
  assert (Hid : ∀ x v,
    UniqueRequestIdReuse
      (UniqueRequestContextGet
         (WdfObjectReference create.2
            (WdfCollectionAdd Collection_PendingReuseRequests create.2
               (UniqueRequestContextSet create.2 (with_UniqueRequestIdReuse v) x)))
         create.2) = v).
  { intros x v. unfold WdfObjectReference, UniqueRequestContextGet.
    rewrite Request_read_update, decide_True by done.
    change (Request_read (WdfCollectionAdd ?c ?r ?y) ?q) with (Request_read y q).
    unfold UniqueRequestContextSet. by rewrite Request_read_update, decide_True. }
  rewrite Hid.
  change (UniqueRequestContextGet (DMF_ModuleDereference ?x) ?r)
    with (UniqueRequestContextGet x r).
  rewrite Hid. done.
Qed.

(** C1. Every cookie the Module hands out is the value one
    [InterlockedIncrement64] on [g_ContinuousRequestTargetUniqueId] returned:
    the reuse cookie of a successful reuse-create, and the cancel cookie that
    create-and-send or reuse-send writes to [*DmfRequestIdCancel]. From a state
    in which no call has been made yet, whatever steps the Module takes (sends
    with or without a cancel cookie, reuse-create, reuse-send, reuse-delete,
    cancel, completions and the callbacks inside them, other holders of the
    counter), the ids drawn are exactly the values of successive increments of
    that one counter, and they are pairwise distinct, deleted requests or not,
    as long as no more than 2^64 ids are drawn (the counter is a 64-bit value
    and wraps after that). *)
Theorem unique_ids_pairwise_distinct :
  (∀ reference create add s,
     let r := DMF_RequestTarget_ReuseCreate reference create add s in
     NT_SUCCESS r.1.1 = true →
     r.1.2 = InterlockedIncrement64 (g_ContinuousRequestTargetUniqueId s) ∧
     issued (Trace r.2) = r.1.2 :: issued (Trace s) ∧
     UniqueRequestIdReuse (UniqueRequestContextGet r.2 create.2) = r.1.2) ∧
  (∀ a e s v,
     ret_DmfRequestIdCancel (RequestTarget_RequestCreateAndSend a e s).1 = Some v →
     v = InterlockedIncrement64 (g_ContinuousRequestTargetUniqueId s) ∧
     issued (Trace (RequestTarget_RequestCreateAndSend a e s).2) = v :: issued (Trace s)) ∧
  (∀ a id e s v,
     ret_DmfRequestIdCancel (RequestTarget_RequestSendReuse a id e s).1 = Some v →
     v = InterlockedIncrement64 (g_ContinuousRequestTargetUniqueId s) ∧
     issued (Trace (RequestTarget_RequestSendReuse a id e s).2) = v :: issued (Trace s)) ∧
  (∀ ops s,
     Trace s = [] →
     Z.of_nat (length (issued (Trace (run ops s)))) ≤ 2 ^ 64 →
     NoDup (issued (Trace (run ops s))) ∧
     issued (Trace (run ops s))
       = unique_ids (g_ContinuousRequestTargetUniqueId s)
           (length (issued (Trace (run ops s)))) ∧
     g_ContinuousRequestTargetUniqueId (run ops s)
       = Nat.iter (length (issued (Trace (run ops s)))) InterlockedIncrement64
           (g_ContinuousRequestTargetUniqueId s)).
Proof.
  split; [|split; [|split]].
  - intros reference create add s r Hr.
    destruct (ReuseCreate_cookie reference create add s Hr) as (H1 & H2 & H3 & _).
    done.
  - apply RequestCreateAndSend_cookie.
  - apply RequestSendReuse_cookie.
  - apply run_ids_pairwise_distinct.
Qed.

Lemma unique_ids_pairwise_distinct_witness :
  let s := state_of 0 [] [] [] in
  let ops :=
    [ Op_ReuseCreate STATUS_SUCCESS (STATUS_SUCCESS, 10%positive) STATUS_SUCCESS;
      Op_SendEx STATUS_SUCCESS false example_arguments
        (example_answers 20%positive true STATUS_SUCCESS);
      Op_ReuseDelete 1;
      Op_ReuseCreate STATUS_SUCCESS (STATUS_SUCCESS, 10%positive) STATUS_SUCCESS ] in
  issued (Trace (run ops s)) = [3; 2; 1] ∧
  NoDup (issued (Trace (run ops s))) ∧
  issued (Trace (run ops s))
    = unique_ids (g_ContinuousRequestTargetUniqueId s)
        (length (issued (Trace (run ops s)))) ∧
  g_ContinuousRequestTargetUniqueId (run ops s)
    = Nat.iter (length (issued (Trace (run ops s)))) InterlockedIncrement64
        (g_ContinuousRequestTargetUniqueId s).
Proof.
  intros s ops. split; [vm_compute; reflexivity|].
  apply (proj2 (proj2 (proj2 unique_ids_pairwise_distinct)) ops s);
    [reflexivity | by vm_compute].
Defined.

(** * Further properties of Dmf_RequestTarget.c *)

(** ** Open *)

(** [DMF_RequestTarget_Open] on a context whose collection fields are NULL,
    as they are in a context the framework has just allocated: the Method
    returns the status of the first [WdfCollectionCreate] that fails, or the
    status of the second; when it succeeds both collections exist and are
    empty; when it fails both fields are NULL again, the first collection
    being deleted when the second cannot be created, and the state is the one
    the Method was entered with. Nothing but the two fields is ever written. *)
Theorem open_creates_both_collections_or_none (create_pending create_reuse : NTSTATUS)
    (s : State) :
  PendingAsynchronousRequests (moduleContext s) = None →
  PendingReuseRequests (moduleContext s) = None →
  let r := DMF_RequestTarget_Open create_pending create_reuse s in
  r.1 = (if NT_SUCCESS create_pending then create_reuse else create_pending) ∧
  (if NT_SUCCESS r.1
   then moduleContext r.2
        = {| IoTarget := IoTarget (moduleContext s);
             PendingAsynchronousRequests := Some [];
             PendingReuseRequests := Some [] |}
   else r.2 = s) ∧
  Requests r.2 = Requests s ∧ Memories r.2 = Memories s ∧
  BufferPoolLent r.2 = BufferPoolLent s ∧ QueuedWorkitems r.2 = QueuedWorkitems s ∧
  ModuleReferences r.2 = ModuleReferences s ∧ Trace r.2 = Trace s ∧
  g_ContinuousRequestTargetUniqueId r.2 = g_ContinuousRequestTargetUniqueId s.
Proof.
  intros HP HR. destruct s as [g rq m b q n [t p u] tr]. simpl in HP, HR. subst p u.
  unfold DMF_RequestTarget_Open.
  destruct (NT_SUCCESS create_pending) eqn:H1; cbn [negb].
  - destruct (NT_SUCCESS create_reuse) eqn:H2; cbn [negb fst snd]; rewrite ?H2; done.
  - cbn [fst snd]. rewrite H1. done.
Qed.

Lemma open_creates_both_collections_or_none_witness :
  let s := state_unopened in
  let r := DMF_RequestTarget_Open STATUS_SUCCESS STATUS_UNSUCCESSFUL s in
  r.1 = STATUS_UNSUCCESSFUL ∧ r.2 = s.
Proof.
  intros s r.
  pose proof (open_creates_both_collections_or_none STATUS_SUCCESS STATUS_UNSUCCESSFUL s
                eq_refl eq_refl) as (H1 & H2 & _).
  split; [exact H1 | exact H2].
Defined.

(** [DMF_RequestTarget_Close] right after [DMF_RequestTarget_Open], whether
    Open succeeded or failed: Close returns without sleeping even once (it is
    given no delay at all here) and leaves both collection fields NULL, so the
    state is again the one Open was entered with. *)
Theorem close_undoes_open (create_pending create_reuse : NTSTATUS) (s : State) :
  PendingAsynchronousRequests (moduleContext s) = None →
  PendingReuseRequests (moduleContext s) = None →
  DMF_RequestTarget_Close [] (DMF_RequestTarget_Open create_pending create_reuse s).2
    = Some s.
Proof.
  intros HP HR. destruct s as [g rq m b q n [t p u] tr]. simpl in HP, HR. subst p u.
  unfold DMF_RequestTarget_Open.
  destruct (NT_SUCCESS create_pending); cbn [negb]; [|done].
  destruct (NT_SUCCESS create_reuse); cbn [negb]; done.
Qed.

Lemma close_undoes_open_witness :
  let s := state_unopened in
  NT_SUCCESS (DMF_RequestTarget_Open STATUS_SUCCESS STATUS_SUCCESS s).1 = true ∧
  DMF_RequestTarget_Close [] (DMF_RequestTarget_Open STATUS_SUCCESS STATUS_SUCCESS s).2
    = Some s.
Proof.
  intros s. split; [reflexivity|].
  apply (close_undoes_open STATUS_SUCCESS STATUS_SUCCESS s); reflexivity.
Defined.

(** ** References on the Module *)

Lemma SearchAndRemove_ModuleReferences Request Collection s :
  ModuleReferences (RequestTarget_PendingCollectionListSearchAndRemove Request Collection s).2
    = ModuleReferences s.
Proof.
  unfold RequestTarget_PendingCollectionListSearchAndRemove. by repeat case_match.
Qed.

Lemma Format_ModuleReferences e Request t s :
  ModuleReferences (RequestTarget_FormatRequestForRequestType e Request t s).2
    = ModuleReferences s.
Proof. unfold RequestTarget_FormatRequestForRequestType. by repeat case_match. Qed.

Lemma ReuseListSearch_ModuleReferences id s :
  ModuleReferences (RequestTarget_PendingCollectionReuseListSearch id s).2
    = ModuleReferences s.
Proof. unfold RequestTarget_PendingCollectionReuseListSearch. by repeat case_match. Qed.

Lemma SearchAndReference_ModuleReferences id s :
  ModuleReferences (RequestTarget_PendingCollectionListSearchAndReference id s).2
    = ModuleReferences s.
Proof. unfold RequestTarget_PendingCollectionListSearchAndReference. by repeat case_match. Qed.

(** Reduce the reading of a field through the stores it does not depend on. *)
Ltac field_through lemma :=
  cbn [fst snd];
  unfold RequestCreateAndSend_Exit, RequestSendReuse_Exit,
    RequestTarget_PendingCollectionListAdd, WdfObjectDelete_Request, WdfObjectDelete_Memory,
    WdfMemoryCreatePreallocated, DMF_BufferPool_Get, DMF_BufferPool_Put,
    WdfRequestSetCompletionRoutine, WdfObjectReference, WdfObjectDereference,
    UniqueRequestContextSet, Request_update, WdfRequestCreate, WdfCollectionAdd,
    WdfCollectionRemoveItem, Collection_update;
  repeat (case_match; simplify_eq); cbn [fst snd];
  repeat first
    [ reflexivity
    | rewrite lemma
    | progress cbn [ModuleReferences moduleContext BufferPoolLent QueuedWorkitems
                    g_ContinuousRequestTargetUniqueId Requests Memories Trace
                    set_UniqueId set_Requests set_Memories set_BufferPoolLent
                    set_QueuedWorkitems set_moduleContext log] ].

Lemma RequestCreateAndSend_send_ModuleReferences a e request id s :
  ModuleReferences (RequestCreateAndSend_send a e request id s).2 = ModuleReferences s.
Proof.
  unfold RequestCreateAndSend_send. field_through SearchAndRemove_ModuleReferences.
Qed.

Lemma RequestCreateAndSend_arm_ModuleReferences a e request s :
  ModuleReferences (RequestCreateAndSend_arm a e request s).2 = ModuleReferences s.
Proof.
  unfold RequestCreateAndSend_arm.
  field_through RequestCreateAndSend_send_ModuleReferences.
Qed.

Lemma RequestCreateAndSend_ModuleReferences a e s :
  ModuleReferences (RequestTarget_RequestCreateAndSend a e s).2 = ModuleReferences s.
Proof.
  unfold RequestTarget_RequestCreateAndSend.
  walk; field_through RequestCreateAndSend_arm_ModuleReferences.
  all: lazymatch goal with
       | H : RequestTarget_FormatRequestForRequestType ?e ?r ?t ?x = (_, ?y) |- _ =>
           replace y with (RequestTarget_FormatRequestForRequestType e r t x).2
             by (by rewrite H);
           by rewrite Format_ModuleReferences
       end.
Qed.

Lemma RequestSendReuse_send_ModuleReferences a e request m1 m2 id s :
  ModuleReferences (RequestSendReuse_send a e request m1 m2 id s).2 = ModuleReferences s.
Proof.
  unfold RequestSendReuse_send. field_through SearchAndRemove_ModuleReferences.
Qed.

Lemma RequestSendReuse_arm_ModuleReferences a e request m1 m2 ntStatus s :
  ModuleReferences (RequestSendReuse_arm a e request m1 m2 ntStatus s).2
    = ModuleReferences s.
Proof.
  unfold RequestSendReuse_arm. field_through RequestSendReuse_send_ModuleReferences.
Qed.

Lemma RequestSendReuse_attach_ModuleReferences a e request ntStatus s :
  ModuleReferences (RequestSendReuse_attach a e request ntStatus s).2 = ModuleReferences s.
Proof.
  unfold RequestSendReuse_attach.
  walk; field_through RequestSendReuse_arm_ModuleReferences.
  all: lazymatch goal with
       | H : RequestTarget_FormatRequestForRequestType ?e ?r ?t ?x = (_, ?y) |- _ =>
           replace y with (RequestTarget_FormatRequestForRequestType e r t x).2
             by (by rewrite H);
           by rewrite Format_ModuleReferences
       end.
Qed.

Lemma RequestSendReuse_ModuleReferences a id e s :
  ModuleReferences (RequestTarget_RequestSendReuse a id e s).2 = ModuleReferences s.
Proof.
  unfold RequestTarget_RequestSendReuse.
  destruct (RequestTarget_PendingCollectionReuseListSearch id s) as [request s1] eqn:H.
  assert (H1 : ModuleReferences s1 = ModuleReferences s).
  { replace s1 with (RequestTarget_PendingCollectionReuseListSearch id s).2 by (by rewrite H).
    apply ReuseListSearch_ModuleReferences. }
  destruct request as [request|]; [|by rewrite <- H1].
  destruct (NT_SUCCESS (WdfRequestReuse_answer e)); cbn [negb].
  - by rewrite RequestSendReuse_attach_ModuleReferences.
  - by rewrite <- H1.
Qed.

(** The Methods that work while the caller waits give back the reference they
    take on the Module: cancel, the two I/O target Methods, reuse-create,
    reuse-delete (which takes none) and the synchronous send return with as
    many references on the Module as they were entered with, whatever the
    framework and the target answer. *)
Theorem waiting_methods_return_their_reference (s : State) :
  (∀ reference id targetAnswer,
     ModuleReferences (DMF_RequestTarget_Cancel reference id targetAnswer s).2
       = ModuleReferences s) ∧
  (∀ reference IoTarget_,
     ModuleReferences (DMF_RequestTarget_IoTargetSet reference IoTarget_ s)
       = ModuleReferences s) ∧
  (∀ reference,
     ModuleReferences (DMF_RequestTarget_IoTargetClear reference s) = ModuleReferences s) ∧
  (∀ reference create add,
     ModuleReferences (DMF_RequestTarget_ReuseCreate reference create add s).2
       = ModuleReferences s) ∧
  (∀ id, ModuleReferences (DMF_RequestTarget_ReuseDelete id s).2 = ModuleReferences s) ∧
  (∀ reference a e,
     ModuleReferences (DMF_RequestTarget_SendSynchronously reference a e s).2
       = ModuleReferences s).
Proof.
  repeat split.
  - intros reference id targetAnswer. unfold DMF_RequestTarget_Cancel.
    destruct (NT_SUCCESS reference); cbn [negb]; [|done].
    rewrite SearchAndReference_ModuleReference.
    destruct (SearchAndReference_scan _ _ _); simpl; lia.
  - intros reference t. unfold DMF_RequestTarget_IoTargetSet.
    destruct (NT_SUCCESS reference); simpl; lia.
  - intros reference. unfold DMF_RequestTarget_IoTargetClear.
    destruct (NT_SUCCESS reference); simpl; lia.
  - intros reference create add.
    unfold DMF_RequestTarget_ReuseCreate, RequestTarget_PendingCollectionListAdd.
    destruct (NT_SUCCESS reference); cbn [negb]; [|done].
    destruct (NT_SUCCESS create.1); cbn [negb]; [|simpl; lia].
    destruct (NT_SUCCESS add) eqn:Hadd; rewrite ?Hadd; simpl; lia.
  - intros id. unfold DMF_RequestTarget_ReuseDelete.
    destruct (RequestTarget_PendingCollectionReuseListSearch id s) as [request s1] eqn:H.
    assert (H1 : ModuleReferences s1 = ModuleReferences s).
    { replace s1 with (RequestTarget_PendingCollectionReuseListSearch id s).2
        by (by rewrite H).
      apply ReuseListSearch_ModuleReferences. }
    destruct request as [request|]; [|done].
    destruct (RequestTarget_PendingCollectionListSearchAndRemove _ _ s1) as [b s2] eqn:H2.
    simpl. rewrite <- H1.
    replace s2 with (RequestTarget_PendingCollectionListSearchAndRemove (Some request)
                       Collection_PendingReuseRequests s1).2 by (by rewrite H2).
    apply SearchAndRemove_ModuleReferences.
  - intros reference a e. unfold DMF_RequestTarget_SendSynchronously.
    destruct (NT_SUCCESS reference); cbn [negb]; [|done].
    destruct (RequestTarget_RequestCreateAndSend _ _ _) as [r s1] eqn:H.
    replace s1 with (RequestTarget_RequestCreateAndSend (synchronous_arguments a) e
                       (DMF_ModuleReference s)).2 by (by rewrite H).
    simpl. rewrite RequestCreateAndSend_ModuleReferences. simpl. lia.
Qed.

(** The Methods that send and return hold their reference on the Module
    exactly when they return success: [DMF_RequestTarget_SendEx],
    [DMF_RequestTarget_Send] and [DMF_RequestTarget_ReuseSend] return with one
    reference more than they were entered with when their status is a success,
    and with as many when it is not. *)
Theorem sending_methods_hold_reference_iff_success (s : State) (reference : NTSTATUS)
    (passive : bool) (a : SendArguments) (e : SendAnswers) :
  let held (r : SendReturn * State) :=
    ModuleReferences r.2
      = ModuleReferences s + (if NT_SUCCESS (ret_ntStatus r.1) then 1 else 0) in
  held (DMF_RequestTarget_SendEx reference passive a e s) ∧
  held (DMF_RequestTarget_Send reference passive a e s) ∧
  (∀ id, held (DMF_RequestTarget_ReuseSend reference passive id a e s)).
Proof.
  assert (HEx : ∀ a',
    let r := DMF_RequestTarget_SendEx reference passive a' e s in
    ModuleReferences r.2
      = ModuleReferences s + (if NT_SUCCESS (ret_ntStatus r.1) then 1 else 0)).
  { intros a'. unfold DMF_RequestTarget_SendEx.
    destruct (NT_SUCCESS reference) eqn:Href; cbn [negb].
    - destruct (RequestTarget_RequestCreateAndSend _ _ _) as [r s1] eqn:H.
      assert (H1 : ModuleReferences s1 = ModuleReferences s + 1).
      { replace s1 with (RequestTarget_RequestCreateAndSend
                           (asynchronous_arguments passive a') e
                           (DMF_ModuleReference s)).2 by (by rewrite H).
        by rewrite RequestCreateAndSend_ModuleReferences. }
      destruct (NT_SUCCESS (ret_ntStatus r)) eqn:Hr; simpl; rewrite Hr, H1; lia.
    - simpl. rewrite Href. lia. }
  simpl. split; [apply HEx | split; [apply HEx|]].
  intros id. unfold DMF_RequestTarget_ReuseSend.
  destruct (NT_SUCCESS reference) eqn:Href; cbn [negb].
  - destruct (RequestTarget_RequestSendReuse _ _ _ _) as [r s1] eqn:H.
    assert (H1 : ModuleReferences s1 = ModuleReferences s + 1).
    { replace s1 with (RequestTarget_RequestSendReuse (asynchronous_arguments passive a)
                         id e (DMF_ModuleReference s)).2 by (by rewrite H).
      by rewrite RequestSendReuse_ModuleReferences. }
    destruct (NT_SUCCESS (ret_ntStatus r)) eqn:Hr; simpl; rewrite Hr, H1; lia.
  - simpl. rewrite Href. lia.
Qed.

(** The completion of a request gives back the reference its send left on the
    Module. With a Client callback that leaves the references alone, a
    completion routine that processes the request itself returns with one
    reference less, one that defers to the queued workitem returns with as
    many, and the queued workitem callback then returns with one less. *)
Theorem completion_releases_the_reference
    (client : CallbackArguments → State → State) (e : CompletionAnswers) (s : State) :
  (∀ arguments x, ModuleReferences (client arguments x) = ModuleReferences x) →
  (∀ routine Request p Context,
     ModuleReferences (run_CompletionRoutine routine client e Request p Context s)
       = ModuleReferences s - (if is_passive_routine routine then 0 else 1)) ∧
  (∀ workitemContext,
     ModuleReferences (RequestTarget_QueuedWorkitemCallbackSingle client e workitemContext s)
       = ModuleReferences s - 1).
Proof.
  intros Hclient.
  assert (Hroot : ∀ Request p Context ReuseRequest,
    ModuleReferences
      (RequestTarget_ProcessAsynchronousRequestRoot client e Request p Context ReuseRequest s)
    = ModuleReferences s - 1).
  { intros Request p Context ReuseRequest.
    unfold RequestTarget_ProcessAsynchronousRequestRoot.
    pose proof (SearchAndRemove_ModuleReferences (Some Request)
                  Collection_PendingAsynchronousRequests s) as H0.
    set (s0 := (RequestTarget_PendingCollectionListSearchAndRemove (Some Request)
                  Collection_PendingAsynchronousRequests s).2) in *.
    clearbody s0.
    destruct ReuseRequest; cbn [negb];
      destruct (EvtRequestTargetSingleAsynchronousRequest
                  (SingleAsynchronousRequestContext_read _ Context));
      simpl; rewrite ?Hclient; simpl; rewrite H0; done. }
  split.
  - intros [] Request p Context; cbn [run_CompletionRoutine is_passive_routine];
      unfold RequestTarget_ProcessAsynchronousRequestSingle,
        RequestTarget_ProcessAsynchronousRequestSingleReuse;
      first [apply Hroot | simpl; lia].
  - intros w. rewrite queued_workitem_dispatch. apply Hroot.
Qed.

Lemma completion_releases_the_reference_witness :
  ModuleReferences example_reuse_sent = 1 ∧
  ModuleReferences
    (run_CompletionRoutine RequestTarget_CompletionRoutineReuse (λ _ x, x)
       example_completion 10%positive
       (Completion_WdfRequestGetCompletionParams example_completion) 60%positive
       example_reuse_sent) = 0.
Proof.
  split; [reflexivity|].
  pose proof (proj1 (completion_releases_the_reference (λ _ x, x) example_completion
                       example_reuse_sent (λ _ _, eq_refl))
                RequestTarget_CompletionRoutineReuse 10%positive
                (Completion_WdfRequestGetCompletionParams example_completion)
                60%positive) as H.
  exact H.
Defined.

(** ** The synchronous send *)

Lemma Format_shape e Request t s :
  (RequestTarget_FormatRequestForRequestType e Request t s).2 = s ∨
  (RequestTarget_FormatRequestForRequestType e Request t s).2
    = log (Call_FormatRequest Request t) s.
Proof. unfold RequestTarget_FormatRequestForRequestType. repeat case_match; auto. Qed.

(** Replace the state a formatting returned by what the formatting did. *)
Ltac format_cases :=
  repeat lazymatch goal with
  | H : RequestTarget_FormatRequestForRequestType ?e ?r ?t ?x = (_, ?y) |- _ =>
      let H' := fresh in
      assert (H' : y = x ∨ y = log (Call_FormatRequest r t) x)
        by (replace y with (RequestTarget_FormatRequestForRequestType e r t x).2
              by (by rewrite H); apply Format_shape);
      clear H; destruct H'; subst y
  end.

Lemma Request_read_WdfRequestCreate_ne Request q s :
  q ≠ Request → Request_read (WdfRequestCreate Request s) q = Request_read s q.
Proof.
  intros Hq. unfold Request_read, WdfRequestCreate. simpl. by rewrite lookup_insert_ne.
Qed.

(** A synchronous create-and-send whose request could be created ends, on
    every path, in the deletion of that request, having written to no
    collection, pool, queue or counter and to no other request. *)
Lemma RequestCreateAndSend_synchronous a e s :
  IsSynchronousRequest a = true →
  DmfRequestIdCancel a = false →
  NT_SUCCESS (WdfRequestCreate_answer e).1 = true →
  ∃ s1,
    (RequestTarget_RequestCreateAndSend a e s).2
      = WdfObjectDelete_Request (WdfRequestCreate_answer e).2 s1 ∧
    moduleContext s1 = moduleContext s ∧ BufferPoolLent s1 = BufferPoolLent s ∧
    QueuedWorkitems s1 = QueuedWorkitems s ∧
    g_ContinuousRequestTargetUniqueId s1 = g_ContinuousRequestTargetUniqueId s ∧
    (∀ q, q ≠ (WdfRequestCreate_answer e).2 → Request_read s1 q = Request_read s q).
Proof.
  intros Hsync Hcancel Hcreate.
  unfold RequestTarget_RequestCreateAndSend, RequestCreateAndSend_arm,
    RequestCreateAndSend_send, RequestCreateAndSend_Exit.
  rewrite Hsync, Hcancel, Hcreate. cbn [negb orb].
  walk; format_cases; (eexists; split; [reflexivity|]); repeat split; try reflexivity;
    try (intros q Hq; by apply Request_read_WdfRequestCreate_ne).
Qed.

Lemma WdfObjectDelete_Request_Memories Request s m o :
  Memories (WdfObjectDelete_Request Request s) !! m = Some o → ParentObject o ≠ Request.
Proof.
  unfold WdfObjectDelete_Request. simpl. intros [_ H]%map_lookup_filter_Some. exact H.
Qed.

Lemma Request_read_WdfObjectDelete_Request_ne Request q s :
  q ≠ Request → Request_read (WdfObjectDelete_Request Request s) q = Request_read s q.
Proof.
  intros Hq. unfold WdfObjectDelete_Request.
  change (Request_read (set_Memories ?f ?x) ?r) with (Request_read x r).
  rewrite Request_read_update. by rewrite decide_False.
Qed.

(** [DMF_RequestTarget_SendSynchronously] leaves nothing behind. Whatever the
    framework and the target answer, it returns with the two collections, the
    pool of contexts, the workitem queue, the counter of unique ids and the
    references on the Module as they were, having written no cancel cookie;
    and when its request could be created, the request is deleted on return,
    no memory object parented to it remains, and every other request is as it
    was. *)
Theorem synchronous_send_leaves_nothing_behind (reference : NTSTATUS) (a : SendArguments)
    (e : SendAnswers) (s : State) :
  let r := DMF_RequestTarget_SendSynchronously reference a e s in
  let request := (WdfRequestCreate_answer e).2 in
  moduleContext r.2 = moduleContext s ∧
  BufferPoolLent r.2 = BufferPoolLent s ∧
  QueuedWorkitems r.2 = QueuedWorkitems s ∧
  g_ContinuousRequestTargetUniqueId r.2 = g_ContinuousRequestTargetUniqueId s ∧
  ModuleReferences r.2 = ModuleReferences s ∧
  ret_DmfRequestIdCancel r.1 = None ∧
  (∀ q, q ≠ request → Request_read r.2 q = Request_read s q) ∧
  (NT_SUCCESS reference = true → NT_SUCCESS (WdfRequestCreate_answer e).1 = true →
   Deleted (Request_read r.2 request) = true ∧
   ∀ m o, Memories r.2 !! m = Some o → ParentObject o ≠ request).
Proof.
  simpl. unfold DMF_RequestTarget_SendSynchronously.
  destruct (NT_SUCCESS reference) eqn:Href; cbn [negb]; [|by repeat split].
  destruct (RequestTarget_RequestCreateAndSend (synchronous_arguments a) e
              (DMF_ModuleReference s)) as [r s1] eqn:H.
  assert (Hs1 : s1 = (RequestTarget_RequestCreateAndSend (synchronous_arguments a) e
                        (DMF_ModuleReference s)).2) by (by rewrite H).
  assert (Hr : r = (RequestTarget_RequestCreateAndSend (synchronous_arguments a) e
                      (DMF_ModuleReference s)).1) by (by rewrite H).
  cbn [fst snd].
  assert (Hcookie : ret_DmfRequestIdCancel r = None).
  { destruct (ret_DmfRequestIdCancel r) as [v|] eqn:Hv; [|done]. exfalso.
    rewrite Hr in Hv. revert Hv.
    unfold RequestTarget_RequestCreateAndSend, RequestCreateAndSend_arm,
      RequestCreateAndSend_send, RequestCreateAndSend_Exit.
    cbn [IsSynchronousRequest DmfRequestIdCancel synchronous_arguments negb orb].
    walk; simpl; congruence. }
  assert (Hm : ModuleReferences s1 = ModuleReferences s + 1).
  { rewrite Hs1, RequestCreateAndSend_ModuleReferences. reflexivity. }
  destruct (NT_SUCCESS (WdfRequestCreate_answer e).1) eqn:Hcreate.
  - destruct (RequestCreateAndSend_synchronous (synchronous_arguments a) e
                (DMF_ModuleReference s) eq_refl eq_refl Hcreate)
      as (s2 & Heq & Hc & Hb & Hq & Hg & Hother).
    rewrite Hs1 in Hm |- *. clear Hs1. rewrite Heq in Hm |- *.
    simpl in Hc, Hb, Hq, Hg, Hm.
    repeat split; try (simpl; congruence).
    + simpl in Hm |- *. lia.
    + intros q Hne. change (Request_read (DMF_ModuleDereference ?x) ?y)
        with (Request_read x y).
      rewrite Request_read_WdfObjectDelete_Request_ne by done. by rewrite Hother.
    + change (Request_read (DMF_ModuleDereference ?x) ?y) with (Request_read x y).
      apply Deleted_WdfObjectDelete_Request.
    + intros m o Hmem.
      change (Memories (DMF_ModuleDereference ?x)) with (Memories x) in Hmem.
      by eapply WdfObjectDelete_Request_Memories.
  - assert (Hsame : s1 = DMF_ModuleReference s).
    { rewrite Hs1. unfold RequestTarget_RequestCreateAndSend. by rewrite Hcreate. }
    rewrite Hsame, DMF_ModuleDereference_Reference. by repeat split.
Qed.

Lemma synchronous_send_leaves_nothing_behind_witness :
  let s := state_of 0 [] [] [] in
  let r := DMF_RequestTarget_SendSynchronously STATUS_SUCCESS example_arguments
             (example_answers 20%positive true STATUS_SUCCESS) s in
  NT_SUCCESS (ret_ntStatus r.1) = true ∧
  Deleted (Request_read r.2 20%positive) = true ∧
  ∀ m o, Memories r.2 !! m = Some o → ParentObject o ≠ 20%positive.
Proof.
  intros s r. split; [reflexivity|].
  apply (synchronous_send_leaves_nothing_behind STATUS_SUCCESS example_arguments
           (example_answers 20%positive true STATUS_SUCCESS) s); reflexivity.
Defined.

(** Put the tests of a status that a branch has decided into the goal. *)
Ltac decided :=
  cbn [fst snd ret_ntStatus ret_BytesWritten ret_DmfRequestIdCancel ret_requestSendResult];
  repeat match goal with
  | H : negb _ = true |- _ => apply negb_true_iff in H
  | H : negb _ = false |- _ => apply negb_false_iff in H
  | H : _ || _ = false |- _ => apply orb_false_iff in H as [? ?]
  end;
  repeat match goal with
  | H : NT_SUCCESS ?x = _ |- context [NT_SUCCESS ?x] => rewrite H
  end.

(** The byte count of [DMF_RequestTarget_SendSynchronously]. [*BytesWritten]
    is written when the pointer is not NULL, the Module could be referenced
    and the request could be created, and not otherwise. What is written is
    what [WdfRequestGetInformation] returned when the Method returns success,
    and zero when it returns a failure, whether the failure is one of the
    preparation or the status of the request. *)
Theorem synchronous_send_byte_count (reference : NTSTATUS) (a : SendArguments)
    (e : SendAnswers) (s : State) :
  let r := (DMF_RequestTarget_SendSynchronously reference a e s).1 in
  ret_BytesWritten r
    = (if BytesWritten a && NT_SUCCESS reference && NT_SUCCESS (WdfRequestCreate_answer e).1
       then Some (if NT_SUCCESS (ret_ntStatus r)
                  then WdfRequestGetInformation_answer e else 0%N)
       else None) ∧
  (NT_SUCCESS (ret_ntStatus r) = true →
   NT_SUCCESS reference = true ∧ NT_SUCCESS (WdfRequestCreate_answer e).1 = true ∧
   ret_ntStatus r = WdfRequestGetStatus_answer e).
Proof.
  simpl. unfold DMF_RequestTarget_SendSynchronously.
  destruct (NT_SUCCESS reference) eqn:Href; cbn [negb].
  2: { simpl. rewrite Href, andb_false_r. split; [done | congruence]. }
  destruct (RequestTarget_RequestCreateAndSend (synchronous_arguments a) e
              (DMF_ModuleReference s)) as [r s1] eqn:H.
  assert (Hr : r = (RequestTarget_RequestCreateAndSend (synchronous_arguments a) e
                      (DMF_ModuleReference s)).1) by (by rewrite H).
  cbn [fst snd]. rewrite Hr. clear H Hr r s1. rewrite andb_true_r.
  unfold RequestTarget_RequestCreateAndSend, RequestCreateAndSend_arm,
    RequestCreateAndSend_send, RequestCreateAndSend_Exit.
  cbn [IsSynchronousRequest DmfRequestIdCancel BytesWritten synchronous_arguments
       negb orb].
  destruct (BytesWritten a); cbn [andb]; walk; simpl in *; decided;
    first [ done | congruence | split; [done | congruence] ].
Qed.

(** ** An asynchronous send and its cancel cookie *)

Lemma RequestCreateAndSend_send_sent a e request id s v :
  ret_DmfRequestIdCancel (RequestCreateAndSend_send a e request id s).1 = Some v →
  RequestCreateAndSend_send a e request id s
    = ({| ret_ntStatus := WdfRequestAllocateTimer_answer e;
          ret_BytesWritten := if BytesWritten a then Some 0%N else None;
          ret_DmfRequestIdCancel := Some id; ret_requestSendResult := true |},
       log (Call_WdfRequestSend request false) s) ∧
  v = id ∧
  NT_SUCCESS (WdfRequestAllocateTimer_answer e) = true ∧
  IsSynchronousRequest a = false.
Proof.
  unfold RequestCreateAndSend_send, RequestCreateAndSend_Exit.
  walk; simpl in *; decided; try congruence.
  all: intros [= <-]; by rewrite H.
Qed.

Lemma RequestCreateAndSend_arm_sent a e request s v :
  ret_DmfRequestIdCancel (RequestCreateAndSend_arm a e request s).1 = Some v →
  (RequestCreateAndSend_arm a e request s).2 = sent_with_cookie a e request s ∧
  v = InterlockedIncrement64 (g_ContinuousRequestTargetUniqueId s) ∧
  NT_SUCCESS (ret_ntStatus (RequestCreateAndSend_arm a e request s).1) = true.
Proof.
  unfold RequestCreateAndSend_arm.
  destruct (IsSynchronousRequest a) eqn:Ha.
  { intros (_ & _ & _ & Hs)%RequestCreateAndSend_send_sent. congruence. }
  destruct (NT_SUCCESS (DMF_BufferPool_Get_answer e).1); cbn [negb]; [|done].
  destruct (DmfRequestIdCancel a) eqn:Hc.
  - rewrite UniqueRequestIdCancel_just_set.
    unfold RequestTarget_PendingCollectionListAdd.
    destruct (NT_SUCCESS (WdfCollectionAdd_answer e)) eqn:Hadd; rewrite ?Hadd; cbn [negb];
      [|done].
    intros (-> & -> & Ht & _)%RequestCreateAndSend_send_sent. done.
  - intros H. exfalso. revert H.
    unfold RequestCreateAndSend_send, RequestCreateAndSend_Exit. rewrite Hc.
    by repeat case_match.
Qed.

Lemma prepared_refl request s : prepared request s s.
Proof. by repeat split. Qed.

(** A create-and-send that hands out a cancel cookie has gone through every
    stage: the state it returns is [sent_with_cookie] of the state it
    formatted the request in, the cookie is the id it drew, and it returns
    success. *)
Lemma RequestCreateAndSend_sent a e s v :
  ret_DmfRequestIdCancel (RequestTarget_RequestCreateAndSend a e s).1 = Some v →
  ∃ s1,
    prepared (WdfRequestCreate_answer e).2 s s1 ∧
    (RequestTarget_RequestCreateAndSend a e s).2
      = sent_with_cookie a e (WdfRequestCreate_answer e).2 s1 ∧
    v = InterlockedIncrement64 (g_ContinuousRequestTargetUniqueId s) ∧
    NT_SUCCESS (ret_ntStatus (RequestTarget_RequestCreateAndSend a e s).1) = true.
Proof.
  unfold RequestTarget_RequestCreateAndSend.
  walk; try (unfold RequestCreateAndSend_Exit; simpl; done).
  all: format_cases.
  all: intros (-> & -> & Hst)%RequestCreateAndSend_arm_sent.
  all: eexists; split; [|split; [reflexivity | split; [|exact Hst]]]; [|reflexivity].
  all: repeat split; try reflexivity;
         intros q Hq; by apply Request_read_WdfRequestCreate_ne.
Qed.

Lemma sent_with_cookie_context a e request s q :
  UniqueRequestContextGet (sent_with_cookie a e request s) q
    = if decide (request = q)
      then with_UniqueRequestIdCancel
             (InterlockedIncrement64 (g_ContinuousRequestTargetUniqueId s))
             (UniqueRequestContextGet s q)
      else UniqueRequestContextGet s q.
Proof.
  unfold sent_with_cookie.
  change (UniqueRequestContextGet (log ?c ?x) ?r) with (UniqueRequestContextGet x r).
  change (UniqueRequestContextGet (WdfCollectionAdd ?c ?i ?x) ?r)
    with (UniqueRequestContextGet x r).
  rewrite UniqueRequestContextGet_Set.
  change (UniqueRequestContextGet (log ?c ?x) ?r) with (UniqueRequestContextGet x r).
  change (UniqueRequestContextGet (set_UniqueId ?c ?x) ?r) with (UniqueRequestContextGet x r).
  unfold WdfRequestSetCompletionRoutine, UniqueRequestContextGet.
  rewrite !Request_read_update.
  change (Request_read (DMF_BufferPool_Get ?c ?i ?x) ?r) with (Request_read x r).
  case_decide; [subst q; by rewrite decide_True | done].
Qed.

(** The scan for a cancel cookie reaches the last item when no item before it
    carries the cookie, unless that item is the last one again. *)
Lemma SearchAndReference_scan_last s id items request :
  (∀ q, q ∈ items → q ≠ request →
        UniqueRequestIdCancel (UniqueRequestContextGet s q) ≠ id) →
  UniqueRequestIdCancel (UniqueRequestContextGet s request) = id →
  SearchAndReference_scan s id (items ++ [request]) = Some request.
Proof.
  intros Hothers Hreq. induction items as [|r0 items IH]; simpl.
  - by rewrite decide_True.
  - case_decide as Hid.
    + destruct (decide (r0 = request)) as [->|Hne]; [done|].
      exfalso. eapply Hothers; [by left | done | done].
    + apply IH. intros q Hq. apply Hothers. by right.
Qed.

(** From the send to the cancel. When [DMF_RequestTarget_SendEx] hands out a
    cancel cookie, the cookie is the id it drew from the counter, the Method
    returns success, the request it created is the last item of
    [PendingAsynchronousRequests] and carries the cookie; and if no other
    pending request carries that cookie, [DMF_RequestTarget_Cancel] with the
    cookie asks the target to cancel exactly that request and returns the
    target's answer. *)
Theorem cancel_reaches_the_request_just_sent (reference : NTSTATUS) (passive : bool)
    (a : SendArguments) (e : SendAnswers) (s : State)
    (c : RequestTarget_DmfRequestCancel) (items : list WDFREQUEST) :
  let r := DMF_RequestTarget_SendEx reference passive a e s in
  let request := (WdfRequestCreate_answer e).2 in
  ret_DmfRequestIdCancel r.1 = Some c →
  PendingAsynchronousRequests (moduleContext s) = Some items →
  (∀ q, q ∈ items → q ≠ request →
        UniqueRequestIdCancel (UniqueRequestContextGet s q) ≠ c) →
  c = InterlockedIncrement64 (g_ContinuousRequestTargetUniqueId s) ∧
  NT_SUCCESS (ret_ntStatus r.1) = true ∧
  PendingAsynchronousRequests (moduleContext r.2) = Some (items ++ [request]) ∧
  UniqueRequestIdCancel (UniqueRequestContextGet r.2 request) = c ∧
  ∀ reference' targetAnswer,
    NT_SUCCESS reference' = true →
    (DMF_RequestTarget_Cancel reference' c targetAnswer r.2).1 = targetAnswer ∧
    Trace (DMF_RequestTarget_Cancel reference' c targetAnswer r.2).2
      = Call_WdfRequestCancelSentRequest request :: Trace r.2.
Proof.
  simpl. unfold DMF_RequestTarget_SendEx.
  destruct (NT_SUCCESS reference) eqn:Href; cbn [negb]; [|done].
  destruct (RequestTarget_RequestCreateAndSend (asynchronous_arguments passive a) e
              (DMF_ModuleReference s)) as [r s'] eqn:H.
  assert (Hr : r = (RequestTarget_RequestCreateAndSend (asynchronous_arguments passive a) e
                      (DMF_ModuleReference s)).1) by (by rewrite H).
  assert (Hs' : s' = (RequestTarget_RequestCreateAndSend (asynchronous_arguments passive a) e
                        (DMF_ModuleReference s)).2) by (by rewrite H).
  clear H. intros Hcookie Hitems Hothers.
  assert (Hc : ret_DmfRequestIdCancel r = Some c) by (by destruct (NT_SUCCESS (ret_ntStatus r))).
  rewrite Hr in Hc.
  apply RequestCreateAndSend_sent in Hc as (s1 & Hprep & Hstate & -> & Hst).
  rewrite <- Hr in Hst. rewrite <- Hs' in Hstate. clear Hr Hs'. rewrite Hst. cbn [negb fst snd].
  destruct Hprep as (Hm & _ & _ & _ & Hg & _ & Hread). simpl in Hm, Hg.
  assert (Hctx : ∀ q, q ≠ (WdfRequestCreate_answer e).2 →
            UniqueRequestContextGet s' q = UniqueRequestContextGet s q).
  { intros q Hq. rewrite Hstate, sent_with_cookie_context, decide_False by done.
    unfold UniqueRequestContextGet. by rewrite Hread. }
  assert (Hown : UniqueRequestIdCancel
                   (UniqueRequestContextGet s' (WdfRequestCreate_answer e).2)
                 = InterlockedIncrement64 (g_ContinuousRequestTargetUniqueId s)).
  { rewrite Hstate, sent_with_cookie_context, decide_True by done. simpl. by rewrite Hg. }
  assert (Hpending : PendingAsynchronousRequests (moduleContext s')
                     = Some (items ++ [(WdfRequestCreate_answer e).2])).
  { rewrite Hstate. unfold sent_with_cookie. simpl. by rewrite Hm, Hitems. }
  do 4 (split; [done|]).
  intros reference' targetAnswer Href'. unfold DMF_RequestTarget_Cancel.
  rewrite Href'. cbn [negb].
  rewrite SearchAndReference_ModuleReference.
  unfold Collection_items. cbn [Collection_get]. rewrite Hpending.
  cbn [default from_option]. unfold id.
  rewrite SearchAndReference_scan_last; [done| |done].
  intros q Hq Hne. rewrite Hctx by done. by apply Hothers.
Qed.

Lemma cancel_reaches_the_request_just_sent_witness :
  let s := state_of 0 [] [] [] in
  let r := DMF_RequestTarget_SendEx STATUS_SUCCESS false example_arguments
             (example_answers 20%positive true STATUS_SUCCESS) s in
  ret_DmfRequestIdCancel r.1 = Some 1 ∧
  (DMF_RequestTarget_Cancel STATUS_SUCCESS 1 true r.2).1 = true ∧
  Trace (DMF_RequestTarget_Cancel STATUS_SUCCESS 1 true r.2).2
    = Call_WdfRequestCancelSentRequest 20%positive :: Trace r.2.
Proof.
  intros s r. split; [reflexivity|].
  pose proof (cancel_reaches_the_request_just_sent STATUS_SUCCESS false example_arguments
                (example_answers 20%positive true STATUS_SUCCESS) s 1 [] eq_refl eq_refl
                (λ q Hq _, False_ind _ (proj1 (elem_of_nil q) Hq)))
    as (_ & _ & _ & _ & H).
  exact (H STATUS_SUCCESS true eq_refl).
Defined.

(** ** A failed asynchronous send and the pending collection *)

Lemma SearchAndRemove_scan_last request items k :
  request ∉ items →
  SearchAndRemove_scan request (items ++ [request]) k = Some (k + length items)%nat.
Proof.
  revert k. induction items as [|r0 items IH]; intros k Hnot; simpl.
  - rewrite decide_True by done. f_equal. lia.
  - apply not_elem_of_cons in Hnot as [Hne Hnot].
    rewrite decide_False by done. rewrite IH by done. f_equal. lia.
Qed.

Lemma delete_last (items : list WDFREQUEST) request :
  delete (length items) (items ++ [request]) = items.
Proof. induction items as [|r0 items IH]; simpl; [done | by rewrite IH]. Qed.

(** A request that was added to the end of the pending collection and is
    searched and removed leaves the collection as it was before. *)
Lemma SearchAndRemove_added request items x :
  PendingAsynchronousRequests (moduleContext x) = Some (items ++ [request]) →
  request ∉ items →
  moduleContext
    (RequestTarget_PendingCollectionListSearchAndRemove (Some request)
       Collection_PendingAsynchronousRequests x).2
  = Collection_set Collection_PendingAsynchronousRequests (Some items) (moduleContext x).
Proof.
  intros Hx Hnot. unfold RequestTarget_PendingCollectionListSearchAndRemove, Collection_items.
  cbn [Collection_get]. rewrite Hx. cbn [default from_option]. unfold id.
  rewrite SearchAndRemove_scan_last by done. cbn [snd].
  unfold WdfCollectionRemoveItem, Collection_update. simpl. rewrite Hx. simpl.
  by rewrite delete_last.
Qed.

Lemma RequestCreateAndSend_arm_failed a e request items s :
  IsSynchronousRequest a = false →
  PendingAsynchronousRequests (moduleContext s) = Some items →
  request ∉ items →
  NT_SUCCESS (WdfRequestAllocateTimer_answer e) = true →
  NT_SUCCESS (ret_ntStatus (RequestCreateAndSend_arm a e request s).1) = false →
  ∃ s1, (RequestCreateAndSend_arm a e request s).2 = WdfObjectDelete_Request request s1 ∧
        moduleContext s1 = moduleContext s ∧
        ret_DmfRequestIdCancel (RequestCreateAndSend_arm a e request s).1 = None.
Proof.
  intros Ha Hitems Hnot Htimer.
  unfold RequestCreateAndSend_arm, RequestCreateAndSend_send,
    RequestTarget_PendingCollectionListAdd, RequestCreateAndSend_Exit.
  rewrite Ha, Htimer. cbn [negb].
  pose proof (SearchAndRemove_added request items) as Hremove.
  set (SearchAndRemove := RequestTarget_PendingCollectionListSearchAndRemove) in *.
  walk; simpl in *; decided; try congruence; intros _.
  all: eexists; split; [reflexivity|]; split; [|reflexivity].
  all: try reflexivity.
  all: rewrite Hremove; [|by simpl; rewrite Hitems|done].
  all: simpl; rewrite <- Hitems; by destruct (moduleContext s).
Qed.

Lemma RequestCreateAndSend_failed a e items s :
  IsSynchronousRequest a = false →
  PendingAsynchronousRequests (moduleContext s) = Some items →
  (WdfRequestCreate_answer e).2 ∉ items →
  NT_SUCCESS (WdfRequestAllocateTimer_answer e) = true →
  NT_SUCCESS (WdfRequestCreate_answer e).1 = true →
  NT_SUCCESS (ret_ntStatus (RequestTarget_RequestCreateAndSend a e s).1) = false →
  ∃ s1, (RequestTarget_RequestCreateAndSend a e s).2
          = WdfObjectDelete_Request (WdfRequestCreate_answer e).2 s1 ∧
        moduleContext s1 = moduleContext s ∧
        ret_DmfRequestIdCancel (RequestTarget_RequestCreateAndSend a e s).1 = None.
Proof.
  intros Ha Hitems Hnot Htimer Hcreate.
  unfold RequestTarget_RequestCreateAndSend. rewrite Hcreate. cbn [negb].
  walk; format_cases.
  all: try (unfold RequestCreateAndSend_Exit; rewrite Ha; cbn [negb andb fst snd ret_ntStatus];
            intros ->; cbn [negb]; eexists; split; [reflexivity|]; by split).
  all: intros Hfail;
       lazymatch type of Hfail with
       | context [RequestCreateAndSend_arm _ _ _ ?x] =>
           destruct (RequestCreateAndSend_arm_failed a e (WdfRequestCreate_answer e).2 items x
                       Ha Hitems Hnot Htimer Hfail) as (s1 & -> & Hm & ->)
       end;
       by exists s1.
Qed.

(** A failed [DMF_RequestTarget_SendEx] is not left pending. When the request
    has its timer allocated and the Method still returns a failure (the
    target refuses the request, or a stage before the send fails), the
    request the Method created is not in [PendingAsynchronousRequests] on
    return: both collections are as they were, although the request was added
    to the pending one before the send when a cancel cookie was asked for. No
    cookie is written, the reference on the Module is given back, and the
    request is deleted. *)
Theorem failed_send_is_not_left_pending (reference : NTSTATUS) (passive : bool)
    (a : SendArguments) (e : SendAnswers) (s : State) (items : list WDFREQUEST) :
  let r := DMF_RequestTarget_SendEx reference passive a e s in
  let request := (WdfRequestCreate_answer e).2 in
  PendingAsynchronousRequests (moduleContext s) = Some items →
  request ∉ items →
  NT_SUCCESS (WdfRequestAllocateTimer_answer e) = true →
  NT_SUCCESS (ret_ntStatus r.1) = false →
  moduleContext r.2 = moduleContext s ∧
  ret_DmfRequestIdCancel r.1 = None ∧
  ModuleReferences r.2 = ModuleReferences s ∧
  (NT_SUCCESS reference = true → NT_SUCCESS (WdfRequestCreate_answer e).1 = true →
   Deleted (Request_read r.2 request) = true).
Proof.
  simpl. intros Hitems Hnot Htimer.
  unfold DMF_RequestTarget_SendEx.
  destruct (NT_SUCCESS reference) eqn:Href; cbn [negb]; [|by repeat split].
  destruct (RequestTarget_RequestCreateAndSend (asynchronous_arguments passive a) e
              (DMF_ModuleReference s)) as [r s'] eqn:H.
  assert (Hr : r = (RequestTarget_RequestCreateAndSend (asynchronous_arguments passive a) e
                      (DMF_ModuleReference s)).1) by (by rewrite H).
  assert (Hs' : s' = (RequestTarget_RequestCreateAndSend (asynchronous_arguments passive a) e
                        (DMF_ModuleReference s)).2) by (by rewrite H).
  clear H.
  destruct (NT_SUCCESS (ret_ntStatus r)) eqn:Hst; cbn [negb fst snd]; [congruence|].
  intros _.
  assert (Hrefs : ModuleReferences (DMF_ModuleDereference s') = ModuleReferences s).
  { rewrite Hs'. simpl. rewrite RequestCreateAndSend_ModuleReferences. simpl. lia. }
  destruct (NT_SUCCESS (WdfRequestCreate_answer e).1) eqn:Hcreate.
  - rewrite Hr in Hst.
    destruct (RequestCreateAndSend_failed (asynchronous_arguments passive a) e items
                (DMF_ModuleReference s) eq_refl Hitems Hnot Htimer Hcreate Hst)
      as (s1 & Hstate & Hm & Hcookie).
    rewrite <- Hs' in Hstate. rewrite <- Hr in Hcookie.
    repeat split; [|done|done|].
    + rewrite Hstate. simpl. exact Hm.
    + intros _ _. rewrite Hstate.
      change (Request_read (DMF_ModuleDereference ?x) ?y) with (Request_read x y).
      apply Deleted_WdfObjectDelete_Request.
  - assert (r = {| ret_ntStatus := (WdfRequestCreate_answer e).1; ret_BytesWritten := None;
                   ret_DmfRequestIdCancel := None; ret_requestSendResult := false |}
            ∧ s' = DMF_ModuleReference s) as [-> ->].
    { rewrite Hr, Hs'. unfold RequestTarget_RequestCreateAndSend. by rewrite Hcreate. }
    repeat split; [done | congruence].
Qed.

Lemma failed_send_is_not_left_pending_witness :
  let s := state_of 0 [] [] [] in
  let r := DMF_RequestTarget_SendEx STATUS_SUCCESS false example_arguments
             (example_answers 20%positive false STATUS_UNSUCCESSFUL) s in
  ret_ntStatus r.1 = STATUS_UNSUCCESSFUL ∧
  moduleContext r.2 = moduleContext s ∧
  ret_DmfRequestIdCancel r.1 = None ∧
  ModuleReferences r.2 = ModuleReferences s.
Proof.
  intros s r. split; [reflexivity|].
  pose proof (failed_send_is_not_left_pending STATUS_SUCCESS false example_arguments
                (example_answers 20%positive false STATUS_UNSUCCESSFUL) s []
                eq_refl (proj1 (elem_of_nil _)) eq_refl eq_refl)
    as (H1 & H2 & H3 & _).
  split; [exact H1 | split; [exact H2 | exact H3]].
Defined.

Lemma Format_formatted e Request t s :
  not_formatted e t = false →
  RequestTarget_FormatRequestForRequestType e Request t s
    = (WdfIoTargetFormatRequest_answer e, log (Call_FormatRequest Request t) s).
Proof.
  unfold not_formatted, RequestTarget_FormatRequestForRequestType.
  destruct t; try done. by intros ->.
Qed.

(** A failure of [WdfRequestAllocateTimer] strands the request. When
    [DMF_RequestTarget_SendEx] is asked for a cancel cookie it adds the
    request to [PendingAsynchronousRequests] before it allocates the timer of
    the request; when that allocation fails the Method returns its status
    without having sent, writes no cookie and deletes the request, but does
    not take the request out of the collection again: the deleted request is
    the last item of [PendingAsynchronousRequests] on return. *)
Theorem timer_failure_leaves_request_pending (reference : NTSTATUS) (passive : bool)
    (a : SendArguments) (e : SendAnswers) (s : State) (items : list WDFREQUEST) :
  let r := DMF_RequestTarget_SendEx reference passive a e s in
  let request := (WdfRequestCreate_answer e).2 in
  NT_SUCCESS reference = true →
  DmfRequestIdCancel a = true →
  reaches_timer a e = true →
  NT_SUCCESS (WdfRequestAllocateTimer_answer e) = false →
  PendingAsynchronousRequests (moduleContext s) = Some items →
  ret_ntStatus r.1 = WdfRequestAllocateTimer_answer e ∧
  ret_DmfRequestIdCancel r.1 = None ∧
  ret_requestSendResult r.1 = false ∧
  PendingAsynchronousRequests (moduleContext r.2) = Some (items ++ [request]) ∧
  Deleted (Request_read r.2 request) = true ∧
  ModuleReferences r.2 = ModuleReferences s.
Proof.
  simpl. intros Href Hcancel Hreach Htimer Hitems.
  unfold reaches_timer in Hreach.
  repeat (apply andb_true_iff in Hreach as [Hreach ?]).
  match goal with H : negb (not_formatted _ _) = true |- _ => apply negb_true_iff in H end.
  unfold DMF_RequestTarget_SendEx, RequestTarget_RequestCreateAndSend,
    RequestCreateAndSend_arm, RequestCreateAndSend_send,
    RequestTarget_PendingCollectionListAdd, RequestCreateAndSend_Exit.
  cbn [IsSynchronousRequest DmfRequestIdCancel RequestLength ResponseLength RequestType
       BytesWritten RequestBuffer ResponseBuffer CompletionOption
       EvtRequestTargetSingleAsynchronousRequest_ SingleAsynchronousRequestClientContext
       asynchronous_arguments].
  rewrite Href, Hreach, Hcancel. cbn [negb andb].
  destruct (bool_decide (0 < RequestLength a)%N) eqn:Hrequest;
    destruct (bool_decide (0 < ResponseLength a)%N) eqn:Hresponse;
    cbn [implb] in *;
    repeat match goal with
    | H : NT_SUCCESS ?x = true |- context [NT_SUCCESS ?x] => rewrite H; cbn [negb andb]
    end;
    rewrite Format_formatted by done; cbn [fst snd negb];
    repeat match goal with
    | H : NT_SUCCESS ?x = _ |- context [NT_SUCCESS ?x] =>
        rewrite H; cbn [negb andb fst snd ret_ntStatus]
    end.
  all: cbn [fst snd ret_ntStatus ret_DmfRequestIdCancel ret_requestSendResult].
  all: lazymatch goal with
       | |- context [UniqueRequestContextSet ?r ?f ?x] =>
           assert (Hm : moduleContext (UniqueRequestContextSet r f x) = moduleContext s)
             by reflexivity;
           assert (Hn : ModuleReferences (UniqueRequestContextSet r f x)
                        = ModuleReferences s + 1) by reflexivity;
           generalize dependent (UniqueRequestContextSet r f x)
       end.
  all: intros x Hm Hn; repeat split.
  all: try (cbn; by rewrite Hm, Hitems).
  all: try (change (Request_read (DMF_ModuleDereference ?x) ?y) with (Request_read x y);
            apply Deleted_WdfObjectDelete_Request).
  all: cbn; lia.
Qed.

Lemma timer_failure_leaves_request_pending_witness :
  let s := state_of 0 [] [] [] in
  let e := example_answers 20%positive true STATUS_SUCCESS in
  let e' :=
    {| DMF_USER_MODE := DMF_USER_MODE e;
       WdfRequestCreate_answer := WdfRequestCreate_answer e;
       WdfRequestReuse_answer := WdfRequestReuse_answer e;
       WdfMemoryCreatePreallocated_Request_answer :=
         WdfMemoryCreatePreallocated_Request_answer e;
       WdfMemoryCreatePreallocated_Response_answer :=
         WdfMemoryCreatePreallocated_Response_answer e;
       WdfIoTargetFormatRequest_answer := WdfIoTargetFormatRequest_answer e;
       DMF_BufferPool_Get_answer := DMF_BufferPool_Get_answer e;
       WdfCollectionAdd_answer := WdfCollectionAdd_answer e;
       WdfRequestAllocateTimer_answer := STATUS_UNSUCCESSFUL;
       WdfRequestSend_answer := WdfRequestSend_answer e;
       WdfRequestGetStatus_answer := WdfRequestGetStatus_answer e;
       WdfRequestGetInformation_answer := WdfRequestGetInformation_answer e |} in
  let r := DMF_RequestTarget_SendEx STATUS_SUCCESS false example_arguments e' s in
  ret_ntStatus r.1 = STATUS_UNSUCCESSFUL ∧
  PendingAsynchronousRequests (moduleContext r.2) = Some [20%positive] ∧
  Deleted (Request_read r.2 20%positive) = true.
Proof.
  intros s e e' r.
  pose proof (timer_failure_leaves_request_pending STATUS_SUCCESS false example_arguments
                e' s [] eq_refl eq_refl eq_refl eq_refl eq_refl)
    as (H1 & _ & _ & H2 & H3 & _).
  split; [exact H1 | split; [exact H2 | exact H3]].
Defined.

(** ** A send without a cancel cookie *)

(** [DMF_RequestTarget_Send], which asks for no cancel cookie, never puts its
    request into [PendingAsynchronousRequests] and draws no id: whatever the
    framework and the target answer, the Method returns with the Module
    context, both collections included, and the counter of unique ids as they
    were. A request sent by this Method is therefore one that
    [DMF_RequestTarget_Cancel] cannot find and that
    [DMF_RequestTarget_Close] does not wait for. *)
Theorem send_without_cookie_is_never_pending (reference : NTSTATUS) (passive : bool)
    (a : SendArguments) (e : SendAnswers) (s : State) :
  let r := DMF_RequestTarget_Send reference passive a e s in
  moduleContext r.2 = moduleContext s ∧
  g_ContinuousRequestTargetUniqueId r.2 = g_ContinuousRequestTargetUniqueId s ∧
  issued (Trace r.2) = issued (Trace s) ∧
  ret_DmfRequestIdCancel r.1 = None ∧
  ret_BytesWritten r.1 = None.
Proof.
  simpl. unfold DMF_RequestTarget_Send, DMF_RequestTarget_SendEx.
  destruct (NT_SUCCESS reference); cbn [negb]; [|done].
  destruct (RequestTarget_RequestCreateAndSend _ e (DMF_ModuleReference s)) as [r s'] eqn:H.
  assert (Hgoal :
    moduleContext s' = moduleContext s ∧
    g_ContinuousRequestTargetUniqueId s' = g_ContinuousRequestTargetUniqueId s ∧
    issued (Trace s') = issued (Trace s) ∧
    ret_DmfRequestIdCancel r = None ∧ ret_BytesWritten r = None).
  { replace s' with (RequestTarget_RequestCreateAndSend
                       (asynchronous_arguments passive (without_DmfRequestIdCancel a)) e
                       (DMF_ModuleReference s)).2 by (by rewrite H).
    replace r with (RequestTarget_RequestCreateAndSend
                      (asynchronous_arguments passive (without_DmfRequestIdCancel a)) e
                      (DMF_ModuleReference s)).1 by (by rewrite H).
    clear H.
    unfold RequestTarget_RequestCreateAndSend, RequestCreateAndSend_arm,
      RequestCreateAndSend_send, RequestCreateAndSend_Exit.
    cbn [IsSynchronousRequest DmfRequestIdCancel BytesWritten asynchronous_arguments
         without_DmfRequestIdCancel negb andb orb].
    walk; format_cases; by repeat split. }
  destruct (NT_SUCCESS (ret_ntStatus r)); exact Hgoal.
Qed.

(** ** A request type the build does not format *)

Lemma Format_not_formatted e Request t s :
  not_formatted e t = true →
  RequestTarget_FormatRequestForRequestType e Request t s = (STATUS_INVALID_PARAMETER, s).
Proof.
  unfold not_formatted, RequestTarget_FormatRequestForRequestType.
  destruct t; try done. by intros ->.
Qed.

Lemma NT_SUCCESS_STATUS_INVALID_PARAMETER : NT_SUCCESS STATUS_INVALID_PARAMETER = false.
Proof. reflexivity. Qed.

Lemma RequestCreateAndSend_not_formatted a e s :
  not_formatted e (RequestType a) = true →
  let r := RequestTarget_RequestCreateAndSend a e s in
  NT_SUCCESS (ret_ntStatus r.1) = false ∧
  (reaches_format a e = true → ret_ntStatus r.1 = STATUS_INVALID_PARAMETER) ∧
  Trace r.2 = Trace s ∧ moduleContext r.2 = moduleContext s ∧
  BufferPoolLent r.2 = BufferPoolLent s ∧
  g_ContinuousRequestTargetUniqueId r.2 = g_ContinuousRequestTargetUniqueId s ∧
  ret_DmfRequestIdCancel r.1 = None.
Proof.
  intros Hnot. cbv zeta. unfold RequestTarget_RequestCreateAndSend, reaches_format.
  unfold RequestCreateAndSend_Exit.
  walk;
    repeat lazymatch goal with
    | H : RequestTarget_FormatRequestForRequestType _ _ _ _ = (_, _) |- _ =>
        rewrite Format_not_formatted in H by done; injection H as <- <-
    end;
    try (rewrite NT_SUCCESS_STATUS_INVALID_PARAMETER in *; discriminate);
    decided; cbn [andb implb]; repeat split; try done; congruence.
Qed.

(** A send of a request type that [RequestTarget_FormatRequestForRequestType]
    has no case for (an invalid type, or an internal device control in a
    User-mode build) is refused before anything reaches the target. The three
    Methods that create their request return a failure, which is
    STATUS_INVALID_PARAMETER when the Module could be referenced and the
    request and its memory objects could be created, and they make no call to
    the target or the counter, lend no context buffer and leave the Module
    context as it was. *)
Theorem unformatted_request_type_is_refused (reference : NTSTATUS) (passive : bool)
    (a : SendArguments) (e : SendAnswers) (s : State) :
  not_formatted e (RequestType a) = true →
  let refused (r : SendReturn * State) :=
    NT_SUCCESS (ret_ntStatus r.1) = false ∧
    (NT_SUCCESS reference = true → reaches_format a e = true →
     ret_ntStatus r.1 = STATUS_INVALID_PARAMETER) ∧
    Trace r.2 = Trace s ∧ moduleContext r.2 = moduleContext s ∧
    BufferPoolLent r.2 = BufferPoolLent s ∧ ModuleReferences r.2 = ModuleReferences s ∧
    g_ContinuousRequestTargetUniqueId r.2 = g_ContinuousRequestTargetUniqueId s ∧
    ret_DmfRequestIdCancel r.1 = None in
  refused (DMF_RequestTarget_SendEx reference passive a e s) ∧
  refused (DMF_RequestTarget_Send reference passive a e s) ∧
  refused (DMF_RequestTarget_SendSynchronously reference a e s).
Proof.
  intros Hnot. simpl.
  assert (Hroutine : ∀ a',
    RequestType a' = RequestType a → reaches_format a' e = reaches_format a e →
    let r := RequestTarget_RequestCreateAndSend a' e (DMF_ModuleReference s) in
    NT_SUCCESS (ret_ntStatus r.1) = false ∧
    (reaches_format a e = true → ret_ntStatus r.1 = STATUS_INVALID_PARAMETER) ∧
    Trace (DMF_ModuleDereference r.2) = Trace s ∧
    moduleContext (DMF_ModuleDereference r.2) = moduleContext s ∧
    BufferPoolLent (DMF_ModuleDereference r.2) = BufferPoolLent s ∧
    ModuleReferences (DMF_ModuleDereference r.2) = ModuleReferences s ∧
    g_ContinuousRequestTargetUniqueId (DMF_ModuleDereference r.2)
      = g_ContinuousRequestTargetUniqueId s ∧
    ret_DmfRequestIdCancel r.1 = None).
  { intros a' Ht Hreach.
    destruct (RequestCreateAndSend_not_formatted a' e (DMF_ModuleReference s))
      as (H1 & H2 & H3 & H4 & H5 & H6 & H7); [by rewrite Ht|].
    rewrite Hreach in H2. simpl. repeat split; try done.
    rewrite RequestCreateAndSend_ModuleReferences. simpl. lia. }
  assert (HEx : ∀ a',
    RequestType a' = RequestType a → reaches_format a' e = reaches_format a e →
    let r := DMF_RequestTarget_SendEx reference passive a' e s in
    NT_SUCCESS (ret_ntStatus r.1) = false ∧
    (NT_SUCCESS reference = true → reaches_format a e = true →
     ret_ntStatus r.1 = STATUS_INVALID_PARAMETER) ∧
    Trace r.2 = Trace s ∧ moduleContext r.2 = moduleContext s ∧
    BufferPoolLent r.2 = BufferPoolLent s ∧ ModuleReferences r.2 = ModuleReferences s ∧
    g_ContinuousRequestTargetUniqueId r.2 = g_ContinuousRequestTargetUniqueId s ∧
    ret_DmfRequestIdCancel r.1 = None).
  { intros a' Ht Hreach. simpl. unfold DMF_RequestTarget_SendEx.
    destruct (NT_SUCCESS reference) eqn:Href; cbn [negb]; [|by repeat split].
    destruct (Hroutine (asynchronous_arguments passive a') Ht Hreach)
      as (H1 & H2 & H3).
    destruct (RequestTarget_RequestCreateAndSend _ e (DMF_ModuleReference s)) as [r s'].
    simpl in H1, H2, H3. rewrite H1. simpl. by repeat split; try apply H3; auto. }
  split; [by apply HEx | split; [by apply HEx|]].
  unfold DMF_RequestTarget_SendSynchronously.
  destruct (NT_SUCCESS reference) eqn:Href; cbn [negb]; [|by repeat split].
  destruct (Hroutine (synchronous_arguments a) eq_refl eq_refl) as (H1 & H2 & H3).
  destruct (RequestTarget_RequestCreateAndSend _ e (DMF_ModuleReference s)) as [r s'].
  simpl in H1, H2, H3. simpl. by repeat split; try apply H3; auto.
Qed.

Lemma unformatted_request_type_is_refused_witness :
  let a := {| IsSynchronousRequest := false;
              RequestBuffer := Some 100%positive; RequestLength := 16%N;
              ResponseBuffer := None; ResponseLength := 0%N;
              RequestType := ContinuousRequestTarget_RequestType_Invalid;
              RequestIoctl := 0%N; RequestTimeoutMilliseconds := 0%N;
              CompletionOption := ContinuousRequestTarget_CompletionOptions_Default;
              BytesWritten := false;
              EvtRequestTargetSingleAsynchronousRequest_ := None;
              SingleAsynchronousRequestClientContext := None;
              DmfRequestIdCancel := true |} in
  let s := state_of 0 [] [] [] in
  let r := DMF_RequestTarget_SendEx STATUS_SUCCESS false a
             (example_answers 20%positive true STATUS_SUCCESS) s in
  ret_ntStatus r.1 = STATUS_INVALID_PARAMETER ∧ Trace r.2 = Trace s.
Proof.
  intros a s r.
  pose proof (proj1 (unformatted_request_type_is_refused STATUS_SUCCESS false a
                (example_answers 20%positive true STATUS_SUCCESS) s eq_refl))
    as (_ & H1 & H2 & _).
  split; [exact (H1 eq_refl eq_refl) | exact H2].
Defined.

(** ** Reuse-create *)

Lemma ReuseListSearch_scan_last s id items request b :
  (∀ q, q ∈ items → UniqueRequestIdReuse (UniqueRequestContextGet s q) ≠ id) →
  UniqueRequestIdReuse (UniqueRequestContextGet s request) = id →
  RequestInUse (UniqueRequestContextGet s request) = b →
  ReuseListSearch_scan s id (items ++ [request]) = Some (request, b).
Proof.
  intros Hothers Hreq Hb. induction items as [|r0 items IH]; simpl.
  - rewrite decide_True by done. by rewrite Hb.
  - rewrite decide_False by (apply Hothers; by left).
    apply IH. intros q Hq. apply Hothers. by right.
Qed.

Lemma SearchAndRemove_added_reuse request items x :
  PendingReuseRequests (moduleContext x) = Some (items ++ [request]) →
  request ∉ items →
  RequestTarget_PendingCollectionListSearchAndRemove (Some request)
    Collection_PendingReuseRequests x
  = (true, set_moduleContext (Collection_set Collection_PendingReuseRequests (Some items)) x).
Proof.
  intros Hx Hnot. unfold RequestTarget_PendingCollectionListSearchAndRemove, Collection_items.
  cbn [Collection_get]. rewrite Hx. cbn [default from_option]. unfold id.
  rewrite SearchAndRemove_scan_last by done.
  unfold WdfCollectionRemoveItem, Collection_update. f_equal.
  destruct x as [g rq m b q n [t p u] tr]. simpl in *. subst u.
  unfold set_moduleContext. simpl. by rewrite delete_last.
Qed.

(** The state a successful reuse-create leaves the Module in. *)
Lemma ReuseCreate_success reference create add s :
  NT_SUCCESS (DMF_RequestTarget_ReuseCreate reference create add s).1.1 = true →
  let nextRequestId := InterlockedIncrement64 (g_ContinuousRequestTargetUniqueId s) in
  DMF_RequestTarget_ReuseCreate reference create add s
  = ((add, nextRequestId),
     DMF_ModuleDereference
       (WdfObjectReference create.2
          (WdfCollectionAdd Collection_PendingReuseRequests create.2
             (UniqueRequestContextSet create.2 (with_UniqueRequestIdReuse nextRequestId)
                (log (Call_InterlockedIncrement64 nextRequestId)
                   (set_UniqueId nextRequestId
                      (WdfRequestCreate create.2 (DMF_ModuleReference s)))))))).
Proof.
  unfold DMF_RequestTarget_ReuseCreate, RequestTarget_PendingCollectionListAdd.
  destruct (NT_SUCCESS reference) eqn:Href; cbn [negb]; [|simpl; congruence].
  destruct (NT_SUCCESS create.1) eqn:Hcreate; cbn [negb]; [|simpl; congruence].
  destruct (NT_SUCCESS add) eqn:Hadd; rewrite ?Hadd; cbn [negb]; [|simpl; congruence].
  intros _. cbv zeta. f_equal. f_equal.
  unfold WdfObjectReference, UniqueRequestContextGet.
  rewrite Request_read_update, decide_True by done.
  change (Request_read (WdfCollectionAdd ?c ?r ?y) ?q) with (Request_read y q).
  unfold UniqueRequestContextSet. by rewrite Request_read_update, decide_True.
Qed.

(** What a reuse-create that fails leaves behind: nothing but, at most, a
    deleted request and an id that was drawn. The cookie is NULL, the Module
    context with both collections, the pool and the references on the Module
    are as they were, every request other than the one the framework may have
    created is as it was, and that one is deleted when the failure is that of
    [WdfCollectionAdd]. *)
Theorem failed_reuse_create_leaves_no_slot (reference : NTSTATUS)
    (create : NTSTATUS * WDFREQUEST) (add : NTSTATUS) (s : State) :
  let r := DMF_RequestTarget_ReuseCreate reference create add s in
  NT_SUCCESS r.1.1 = false →
  r.1.2 = 0 ∧
  r.1.1 = (if negb (NT_SUCCESS reference) then reference
           else if negb (NT_SUCCESS create.1) then create.1 else add) ∧
  moduleContext r.2 = moduleContext s ∧
  BufferPoolLent r.2 = BufferPoolLent s ∧
  ModuleReferences r.2 = ModuleReferences s ∧
  (∀ q, q ≠ create.2 → Request_read r.2 q = Request_read s q) ∧
  (NT_SUCCESS reference = true → NT_SUCCESS create.1 = true →
   Deleted (Request_read r.2 create.2) = true).
Proof.
  simpl. unfold DMF_RequestTarget_ReuseCreate, RequestTarget_PendingCollectionListAdd.
  destruct (NT_SUCCESS reference) eqn:Href; cbn [negb]; [|by repeat split].
  destruct (NT_SUCCESS create.1) eqn:Hcreate; cbn [negb].
  2: { intros _. repeat split; try done. simpl. lia. }
  destruct (NT_SUCCESS add) eqn:Hadd; rewrite ?Hadd; cbn [negb fst snd]; [congruence|].
  intros _. repeat split; try done.
  - simpl. lia.
  - intros q Hq. rewrite Request_read_WdfObjectDelete_Request_ne by done.
    change (Request_read (DMF_ModuleDereference ?x) ?y) with (Request_read x y).
    unfold UniqueRequestContextSet. rewrite Request_read_update, decide_False by done.
    change (Request_read (log ?c ?x) ?y) with (Request_read x y).
    change (Request_read (set_UniqueId ?c ?x) ?y) with (Request_read x y).
    by rewrite Request_read_WdfRequestCreate_ne.
  - intros _ _. apply Deleted_WdfObjectDelete_Request.
Qed.

Lemma failed_reuse_create_leaves_no_slot_witness :
  let s := state_of 0 [] [] [] in
  let r := DMF_RequestTarget_ReuseCreate STATUS_SUCCESS (STATUS_SUCCESS, 10%positive)
             STATUS_UNSUCCESSFUL s in
  r.1 = (STATUS_UNSUCCESSFUL, 0) ∧
  moduleContext r.2 = moduleContext s ∧
  Deleted (Request_read r.2 10%positive) = true.
Proof.
  intros s r.
  pose proof (failed_reuse_create_leaves_no_slot STATUS_SUCCESS (STATUS_SUCCESS, 10%positive)
                STATUS_UNSUCCESSFUL s eq_refl) as (_ & _ & H1 & _ & _ & _ & H2).
  split; [reflexivity | split; [exact H1 | exact (H2 eq_refl eq_refl)]].
Defined.

(** From reuse-create to reuse-delete. After a successful
    [DMF_RequestTarget_ReuseCreate] the cookie it returned names the new
    request as a slot that is not in use, so that a reuse-send of the cookie
    will find it; and [DMF_RequestTarget_ReuseDelete] of the cookie returns
    TRUE, deletes the request and leaves both collections as they were before
    the create. The cookie must not be carried by a request already in
    [PendingReuseRequests], which holds as long as the counter has not
    wrapped. *)
Theorem reuse_delete_undoes_reuse_create (reference : NTSTATUS)
    (create : NTSTATUS * WDFREQUEST) (add : NTSTATUS) (s : State)
    (items : list WDFREQUEST) :
  let r := DMF_RequestTarget_ReuseCreate reference create add s in
  let request := create.2 in
  NT_SUCCESS r.1.1 = true →
  PendingReuseRequests (moduleContext s) = Some items →
  request ∉ items →
  (∀ q, q ∈ items → UniqueRequestIdReuse (UniqueRequestContextGet s q) ≠ r.1.2) →
  reuse_slot r.2 r.1.2 = Some (request, false) ∧
  PendingReuseRequests (moduleContext r.2) = Some (items ++ [request]) ∧
  (DMF_RequestTarget_ReuseDelete r.1.2 r.2).1 = true ∧
  moduleContext (DMF_RequestTarget_ReuseDelete r.1.2 r.2).2 = moduleContext s ∧
  Deleted (Request_read (DMF_RequestTarget_ReuseDelete r.1.2 r.2).2 request) = true.
Proof.
  simpl. intros Hok Hitems Hnot.
  rewrite (ReuseCreate_success _ _ _ _ Hok). cbn [fst snd].
  set (c := InterlockedIncrement64 (g_ContinuousRequestTargetUniqueId s)).
  intros Hothers.
  set (s1 := log (Call_InterlockedIncrement64 c)
               (set_UniqueId c (WdfRequestCreate create.2 (DMF_ModuleReference s)))).
  set (s2 := DMF_ModuleDereference
               (WdfObjectReference create.2
                  (WdfCollectionAdd Collection_PendingReuseRequests create.2
                     (UniqueRequestContextSet create.2 (with_UniqueRequestIdReuse c) s1)))).
  assert (Hctx : ∀ q, UniqueRequestContextGet s2 q
                      = if decide (create.2 = q)
                        then with_UniqueRequestIdReuse c UNIQUE_REQUEST_zero
                        else UniqueRequestContextGet s q).
  { intros q. unfold s2, s1, WdfObjectReference.
    change (UniqueRequestContextGet (DMF_ModuleDereference ?x) ?y)
      with (UniqueRequestContextGet x y).
    unfold UniqueRequestContextGet at 1. rewrite Request_read_update.
    change (Request_read (WdfCollectionAdd ?k ?r ?y) ?z) with (Request_read y z).
    unfold UniqueRequestContextSet. rewrite !Request_read_update.
    change (Request_read (log ?k ?x) ?y) with (Request_read x y).
    change (Request_read (set_UniqueId ?k ?x) ?y) with (Request_read x y).
    case_decide as Hq.
    - subst q. rewrite decide_True by done.
      unfold Request_read, WdfRequestCreate. simpl. by rewrite lookup_insert_eq.
    - rewrite Request_read_WdfRequestCreate_ne by done. done. }
  assert (Hpending : PendingReuseRequests (moduleContext s2) = Some (items ++ [create.2])).
  { unfold s2, s1. simpl. by rewrite Hitems. }
  assert (Hslot : reuse_slot s2 c = Some (create.2, false)).
  { unfold reuse_slot, Collection_items. cbn [Collection_get]. rewrite Hpending.
    cbn [default from_option]. unfold id.
    apply ReuseListSearch_scan_last.
    - intros q Hq. rewrite Hctx, decide_False; [by apply Hothers|].
      intros Heq. apply Hnot. by rewrite Heq.
    - by rewrite Hctx, decide_True.
    - by rewrite Hctx, decide_True. }
  split; [done|]. split; [done|].
  unfold DMF_RequestTarget_ReuseDelete.
  rewrite (ReuseListSearch_idle _ _ _ Hslot).
  rewrite (SearchAndRemove_added_reuse create.2 items); [|done|done].
  cbn [fst snd]. split; [done|]. split.
  - unfold s2, s1. simpl. rewrite <- Hitems. by destruct (moduleContext s).
  - unfold WdfObjectDereference. rewrite Request_read_update, decide_True by done.
    simpl. rewrite Deleted_WdfObjectDelete_Request. done.
Qed.

Lemma reuse_delete_undoes_reuse_create_witness :
  let s := state_of 0 [] [] [] in
  let r := DMF_RequestTarget_ReuseCreate STATUS_SUCCESS (STATUS_SUCCESS, 10%positive)
             STATUS_SUCCESS s in
  r.1 = (STATUS_SUCCESS, 1) ∧
  (DMF_RequestTarget_ReuseDelete 1 r.2).1 = true ∧
  moduleContext (DMF_RequestTarget_ReuseDelete 1 r.2).2 = moduleContext s.
Proof.
  intros s r. split; [reflexivity|].
  pose proof (reuse_delete_undoes_reuse_create STATUS_SUCCESS (STATUS_SUCCESS, 10%positive)
                STATUS_SUCCESS s [] eq_refl eq_refl (proj1 (elem_of_nil _))
                (λ q Hq, False_ind _ (proj1 (elem_of_nil q) Hq)))
    as (_ & _ & H1 & H2 & _).
  split; [exact H1 | exact H2].
Defined.

(** ** From the send to the completion *)

Lemma SearchAndRemove_added_pending request items x :
  PendingAsynchronousRequests (moduleContext x) = Some (items ++ [request]) →
  request ∉ items →
  RequestTarget_PendingCollectionListSearchAndRemove (Some request)
    Collection_PendingAsynchronousRequests x
  = (true,
     set_moduleContext (Collection_set Collection_PendingAsynchronousRequests (Some items)) x).
Proof.
  intros Hx Hnot. unfold RequestTarget_PendingCollectionListSearchAndRemove, Collection_items.
  cbn [Collection_get]. rewrite Hx. cbn [default from_option]. unfold id.
  rewrite SearchAndRemove_scan_last by done.
  unfold WdfCollectionRemoveItem, Collection_update. f_equal.
  destruct x as [g rq m b q n [t p u] tr]. simpl in *. subst p.
  unfold set_moduleContext. simpl. by rewrite delete_last.
Qed.

(** The processing of a completed one-shot request whose context buffer is
    lent and which is the last item of the pending collection, with a Client
    callback that calls no Method. *)
Lemma Root_undoes_send client e Request p Context items context lent x :
  (∀ arguments y, client arguments y = y) →
  PendingAsynchronousRequests (moduleContext x) = Some (items ++ [Request]) →
  Request ∉ items →
  BufferPoolLent x = <[Context := context]> lent →
  lent !! Context = None →
  let x' := RequestTarget_ProcessAsynchronousRequestRoot client e Request p Context
              false x in
  moduleContext x'
    = Collection_set Collection_PendingAsynchronousRequests (Some items) (moduleContext x) ∧
  BufferPoolLent x' = lent ∧
  ModuleReferences x' = ModuleReferences x - 1 ∧
  QueuedWorkitems x' = QueuedWorkitems x ∧
  Deleted (Request_read x' Request) = true ∧
  issued (Trace x') = issued (Trace x).
Proof.
  intros Hclient Hpending Hnot Hlent Hfree. cbv zeta.
  unfold RequestTarget_ProcessAsynchronousRequestRoot.
  rewrite (SearchAndRemove_added_pending Request items) by done. cbn [snd negb].
  match goal with
  | |- context [match ?o with Some _ => _ | None => _ end] => destruct o
  end; rewrite ?Hclient.
  all: repeat split; try reflexivity.
  all: try (simpl; rewrite Hlent; by apply delete_insert_id).
  all: change (Request_read (DMF_ModuleDereference ?y) ?z) with (Request_read y z);
       apply Deleted_WdfObjectDelete_Request.
Qed.

Lemma sent_with_cookie_Completion a e request s :
  Completion (Request_read (sent_with_cookie a e request s) request)
    = Some (RequestCreateAndSend_completionRoutineSingle (CompletionOption a),
            (DMF_BufferPool_Get_answer e).2).
Proof.
  unfold sent_with_cookie.
  change (Request_read (log ?c ?x) ?r) with (Request_read x r).
  change (Request_read (WdfCollectionAdd ?c ?i ?x) ?r) with (Request_read x r).
  unfold UniqueRequestContextSet. rewrite Request_read_update, decide_True by done.
  change (Request_read (log ?c ?x) ?r) with (Request_read x r).
  change (Request_read (set_UniqueId ?c ?x) ?r) with (Request_read x r).
  unfold WdfRequestSetCompletionRoutine. by rewrite Request_read_update, decide_True.
Qed.

(** The life of a one-shot request. [DMF_RequestTarget_SendEx] hands out a
    cancel cookie; the framework then calls the completion routine of the
    request and, in a Module that completes at passive level, the queued
    workitem runs; the Client callback calls no Method. After that the Module
    is back to the bookkeeping it had before the send: both collections, the
    pool of contexts, the workitem queue and the references on the Module are
    as they were, the request is deleted, and no further id was drawn. *)
Theorem completion_undoes_send (reference : NTSTATUS) (passive : bool)
    (a : SendArguments) (e : SendAnswers) (s : State)
    (c : RequestTarget_DmfRequestCancel) (items : list WDFREQUEST)
    (p : WDF_REQUEST_COMPLETION_PARAMS) (completion : CompletionAnswers) :
  let r := DMF_RequestTarget_SendEx reference passive a e s in
  let request := (WdfRequestCreate_answer e).2 in
  ret_DmfRequestIdCancel r.1 = Some c →
  PendingAsynchronousRequests (moduleContext s) = Some items →
  request ∉ items →
  BufferPoolLent s !! (DMF_BufferPool_Get_answer e).2 = None →
  QueuedWorkitems s = [] →
  let s' := run [Op_Completed request p completion [];
                 Op_QueuedWorkitem completion []] r.2 in
  moduleContext s' = moduleContext s ∧
  BufferPoolLent s' = BufferPoolLent s ∧
  QueuedWorkitems s' = [] ∧
  ModuleReferences s' = ModuleReferences s ∧
  Deleted (Request_read s' request) = true ∧
  issued (Trace s') = issued (Trace r.2).
Proof.
  cbv zeta. unfold DMF_RequestTarget_SendEx.
  destruct (NT_SUCCESS reference) eqn:Href; cbn [negb]; [|done].
  destruct (RequestTarget_RequestCreateAndSend (asynchronous_arguments passive a) e
              (DMF_ModuleReference s)) as [r s1] eqn:H.
  assert (Hr : r = (RequestTarget_RequestCreateAndSend (asynchronous_arguments passive a) e
                      (DMF_ModuleReference s)).1) by (by rewrite H).
  assert (Hs1 : s1 = (RequestTarget_RequestCreateAndSend (asynchronous_arguments passive a) e
                        (DMF_ModuleReference s)).2) by (by rewrite H).
  clear H. intros Hcookie Hitems Hnot Hfree Hqueue.
  assert (Hc : ret_DmfRequestIdCancel r = Some c) by (by destruct (NT_SUCCESS (ret_ntStatus r))).
  rewrite Hr in Hc.
  apply RequestCreateAndSend_sent in Hc as (s0 & Hprep & Hstate & _ & Hst).
  rewrite <- Hr in Hst. rewrite <- Hs1 in Hstate. clear Hr Hs1. rewrite Hst. cbn [negb fst snd].
  destruct Hprep as (Hm & Hb & Hq & Hn & _ & _ & _). simpl in Hm, Hb, Hq, Hn.
  set (context :=
         {| SingleAsynchronousRequestType := RequestType a;
            EvtRequestTargetSingleAsynchronousRequest :=
              EvtRequestTargetSingleAsynchronousRequest_ a;
            SingleAsynchronousCallbackClientContext :=
              SingleAsynchronousRequestClientContext a |}).
  assert (Hpending : PendingAsynchronousRequests (moduleContext s1)
                     = Some (items ++ [(WdfRequestCreate_answer e).2])).
  { rewrite Hstate. unfold sent_with_cookie. simpl. by rewrite Hm, Hitems. }
  assert (Hlent : BufferPoolLent s1
                  = <[(DMF_BufferPool_Get_answer e).2 := context]> (BufferPoolLent s)).
  { rewrite Hstate. unfold sent_with_cookie. simpl. by rewrite Hb. }
  assert (Hrefs : ModuleReferences s1 = ModuleReferences s + 1).
  { rewrite Hstate. unfold sent_with_cookie. simpl. by rewrite Hn. }
  assert (Hqueue1 : QueuedWorkitems s1 = []).
  { rewrite Hstate. unfold sent_with_cookie. simpl. by rewrite Hq. }
  assert (Hcontext : moduleContext s
                     = Collection_set Collection_PendingAsynchronousRequests (Some items)
                         (moduleContext s1)).
  { rewrite Hstate. unfold sent_with_cookie. simpl. rewrite Hm, <- Hitems.
    by destruct (moduleContext s). }
  assert (Hroutine : Completion (Request_read s1 (WdfRequestCreate_answer e).2)
                     = Some (if passive then RequestTarget_CompletionRoutinePassive
                             else RequestTarget_CompletionRoutine,
                             (DMF_BufferPool_Get_answer e).2)).
  { rewrite Hstate, sent_with_cookie_Completion. by destruct passive. }
  clear Hstate.
  cbn [run]. rewrite step_Completed, Hroutine.
  destruct passive; cbn [run_CompletionRoutine].
  - rewrite step_QueuedWorkitem.
    unfold DMF_QueuedWorkItem_Enqueue.
    cbn [QueuedWorkitems set_QueuedWorkitems]. rewrite Hqueue1. cbn [app].
    rewrite queued_workitem_dispatch. cbn [wi_Request wi_CompletionParams
      wi_SingleAsynchronousRequestContext wi_ReuseRequest].
    lazymatch goal with
    | |- context [RequestTarget_ProcessAsynchronousRequestRoot ?client _ _ _ _ _ ?x] =>
        destruct (Root_undoes_send client completion (WdfRequestCreate_answer e).2 p
                    (DMF_BufferPool_Get_answer e).2 items context (BufferPoolLent s) x)
          as (H1 & H2 & H3 & H4 & H5 & H6); [done..|]
    end.
    cbv zeta in H1, H2, H3, H4, H5, H6.
    repeat split; [by rewrite H1, Hcontext | done | done | |done | done].
    rewrite H3. simpl. lia.
  - unfold RequestTarget_ProcessAsynchronousRequestSingle.
    lazymatch goal with
    | |- context [RequestTarget_ProcessAsynchronousRequestRoot ?client _ _ _ _ _ ?x] =>
        destruct (Root_undoes_send client completion (WdfRequestCreate_answer e).2 p
                    (DMF_BufferPool_Get_answer e).2 items context (BufferPoolLent s) x)
          as (H1 & H2 & H3 & H4 & H5 & H6); [done..|]
    end.
    cbv zeta in H1, H2, H3, H4, H5, H6.
    rewrite step_QueuedWorkitem. rewrite H4, Hqueue1.
    repeat split; [by rewrite H1, Hcontext | done | by rewrite H4 | | done | done].
    rewrite H3. lia.
Qed.

Lemma completion_undoes_send_witness :
  let s := state_of 0 [] [] [] in
  let r := DMF_RequestTarget_SendEx STATUS_SUCCESS true example_arguments
             (example_answers 20%positive true STATUS_SUCCESS) s in
  let s' := run [Op_Completed 20%positive
                   (Completion_WdfRequestGetCompletionParams example_completion)
                   example_completion [];
                 Op_QueuedWorkitem example_completion []] r.2 in
  ret_DmfRequestIdCancel r.1 = Some 1 ∧
  Collection_items Collection_PendingAsynchronousRequests r.2 = [20%positive] ∧
  moduleContext s' = moduleContext s ∧
  BufferPoolLent s' = BufferPoolLent s ∧
  ModuleReferences s' = ModuleReferences s.
Proof.
  intros s r s'. split; [reflexivity|]. split; [reflexivity|].
  pose proof (completion_undoes_send STATUS_SUCCESS true example_arguments
                (example_answers 20%positive true STATUS_SUCCESS) s 1 []
                (Completion_WdfRequestGetCompletionParams example_completion)
                example_completion eq_refl eq_refl (proj1 (elem_of_nil _)) eq_refl eq_refl)
    as (H1 & H2 & _ & H3 & _).
  split; [exact H1 | split; [exact H2 | exact H3]].
Defined.

(** ** Cancel and the rest of the state *)

Lemma update_ReferenceCount_pred_S o :
  update_ReferenceCount Nat.pred (update_ReferenceCount S o) = o.
Proof. by destruct o. Qed.

(** [DMF_RequestTarget_Cancel] changes nothing but the trace of calls. The
    reference it takes on the request it found and the one it takes on the
    Module are both released before it returns: every request, with its
    context, reference count and completion routine, reads as before, and so
    do the collections, the memory objects, the pool, the workitem queue and
    the counter of unique ids; the only call it makes is the
    [WdfRequestCancelSentRequest] of the request it found. *)
Theorem cancel_changes_nothing_but_the_trace (reference : NTSTATUS)
    (DmfRequestIdCancel_ : RequestTarget_DmfRequestCancel) (targetAnswer : bool)
    (s : State) :
  let r := DMF_RequestTarget_Cancel reference DmfRequestIdCancel_ targetAnswer s in
  (∀ q, Request_read r.2 q = Request_read s q) ∧
  moduleContext r.2 = moduleContext s ∧
  Memories r.2 = Memories s ∧
  BufferPoolLent r.2 = BufferPoolLent s ∧
  QueuedWorkitems r.2 = QueuedWorkitems s ∧
  ModuleReferences r.2 = ModuleReferences s ∧
  g_ContinuousRequestTargetUniqueId r.2 = g_ContinuousRequestTargetUniqueId s ∧
  (Trace r.2 = Trace s ∨
   ∃ requestToCancel,
     requestToCancel ∈ Collection_items Collection_PendingAsynchronousRequests s ∧
     Trace r.2 = Call_WdfRequestCancelSentRequest requestToCancel :: Trace s).
Proof.
  cbv zeta. unfold DMF_RequestTarget_Cancel.
  destruct (NT_SUCCESS reference); cbn [negb]; [|by repeat split; auto].
  rewrite SearchAndReference_ModuleReference.
  destruct (SearchAndReference_scan s DmfRequestIdCancel_ _) as [requestToCancel|] eqn:Hscan;
    cbn [fst snd].
  - repeat split; try reflexivity.
    + intros q. unfold WdfObjectDereference, WdfObjectReference.
      change (Request_read (DMF_ModuleDereference ?x) ?y) with (Request_read x y).
      rewrite Request_read_update.
      change (Request_read (log ?c ?x) ?y) with (Request_read x y).
      rewrite !Request_read_update.
      change (Request_read (DMF_ModuleReference ?x) ?y) with (Request_read x y).
      rewrite (decide_True (P := requestToCancel = requestToCancel)) by done.
      case_decide as Hq; [|done]. subst q.
      apply update_ReferenceCount_pred_S.
    + simpl. lia.
    + right. exists requestToCancel. split; [|done].
      apply SearchAndReference_scan_Some in Hscan as (i & Hi & _).
      by eapply list_elem_of_lookup_2.
  - rewrite DMF_ModuleDereference_Reference. repeat split; auto.
Qed.

Lemma synchronous_send_byte_count_witness :
  let a := {| IsSynchronousRequest := true;
              RequestBuffer := Some 100%positive; RequestLength := 16%N;
              ResponseBuffer := Some 200%positive; ResponseLength := 32%N;
              RequestType := ContinuousRequestTarget_RequestType_Ioctl;
              RequestIoctl := 1%N; RequestTimeoutMilliseconds := 0%N;
              CompletionOption := ContinuousRequestTarget_CompletionOptions_Default;
              BytesWritten := true;
              EvtRequestTargetSingleAsynchronousRequest_ := None;
              SingleAsynchronousRequestClientContext := None;
              DmfRequestIdCancel := false |} in
  let e := example_answers 20%positive true STATUS_SUCCESS in
  let r := (DMF_RequestTarget_SendSynchronously STATUS_SUCCESS a e (state_of 0 [] [] [])).1 in
  ret_BytesWritten r = Some 20%N ∧ ret_ntStatus r = STATUS_SUCCESS.
Proof.
  intros a e r. split; [reflexivity|].
  exact (proj2 (proj2 (proj2 (synchronous_send_byte_count STATUS_SUCCESS a e
                                (state_of 0 [] [] [])) eq_refl))).
Defined.

(** * From the send to the completion *)

(** Read a request through the updates that leave the request store alone. *)
Ltac read_request :=
  repeat first
    [ progress change (Request_read (log ?c ?x) ?r) with (Request_read x r)
    | progress change (Request_read (set_UniqueId ?v ?x) ?r) with (Request_read x r)
    | progress change (Request_read (set_Memories ?f ?x) ?r) with (Request_read x r)
    | progress change (Request_read (set_BufferPoolLent ?f ?x) ?r) with (Request_read x r)
    | progress change (Request_read (set_QueuedWorkitems ?f ?x) ?r) with (Request_read x r)
    | progress change (Request_read (set_ModuleReferences ?f ?x) ?r) with (Request_read x r)
    | progress change (Request_read (set_moduleContext ?f ?x) ?r) with (Request_read x r)
    | progress unfold UniqueRequestContextGet, UniqueRequestContextSet,
        WdfRequestSetCompletionRoutine, WdfObjectDelete_Request, WdfCollectionAdd,
        WdfCollectionRemoveItem, Collection_update, DMF_BufferPool_Get, DMF_BufferPool_Put,
        DMF_ModuleDereference, DMF_ModuleReference, DMF_QueuedWorkItem_Enqueue,
        WdfMemoryCreatePreallocated, WdfObjectDelete_Memory
    | rewrite Request_read_update
    | rewrite decide_True by done ].

Lemma SearchAndRemove_QueuedWorkitems Request Collection s :
  QueuedWorkitems (RequestTarget_PendingCollectionListSearchAndRemove Request Collection s).2
    = QueuedWorkitems s.
Proof.
  unfold RequestTarget_PendingCollectionListSearchAndRemove. by repeat case_match.
Qed.

Lemma Request_read_SearchAndRemove Request Collection s r :
  Request_read (RequestTarget_PendingCollectionListSearchAndRemove Request Collection s).2 r
    = Request_read s r.
Proof. unfold Request_read. by rewrite SearchAndRemove_Requests. Qed.

(** The processing of a completed request, with a Client callback that calls
    no Method: what it does to the request, to the workitem queue and to the
    reuse collection. *)
Lemma Root_request client e Request p Context_ ReuseRequest s :
  (∀ arguments y, client arguments y = y) →
  let s' := RequestTarget_ProcessAsynchronousRequestRoot client e Request p Context_
              ReuseRequest s in
  Deleted (Request_read s' Request)
    = (if ReuseRequest then Deleted (Request_read s Request) else true) ∧
  QueuedWorkitems s' = QueuedWorkitems s ∧
  keeps Request s s' ∧
  (ReuseRequest = true → RequestInUse (UniqueRequestContextGet s' Request) = false).
Proof.
  intros Hclient. cbv zeta. unfold RequestTarget_ProcessAsynchronousRequestRoot.
  set (s0 := (RequestTarget_PendingCollectionListSearchAndRemove (Some Request)
                Collection_PendingAsynchronousRequests s).2).
  assert (Hread : ∀ r, Request_read s0 r = Request_read s r)
    by (intros r; apply Request_read_SearchAndRemove).
  assert (Hqueue : QueuedWorkitems s0 = QueuedWorkitems s)
    by apply SearchAndRemove_QueuedWorkitems.
  assert (Hreuse : PendingReuseRequests (moduleContext s0)
                   = PendingReuseRequests (moduleContext s))
    by apply SearchAndRemove_pending_reuse.
  clearbody s0.
  destruct (EvtRequestTargetSingleAsynchronousRequest
              (SingleAsynchronousRequestContext_read s0 Context_)); rewrite ?Hclient.
  all: destruct ReuseRequest; cbn [negb].
  all: split; [read_request; by rewrite ?Hread|].
  all: split; [done|].
  all: split; [|first [ intros _; read_request; done | done ]].
  all: unfold keeps; split; [done|].
  all: split; [intros r | intros r Hr]; read_request; rewrite ?Hread; try done.
  all: case_decide; [subst; first [done | congruence] | done].
Qed.

(** An asynchronous send that the target took has only been logged since
    [WdfRequestAllocateTimer]. *)
Lemma RequestCreateAndSend_send_taken a e request id s :
  IsSynchronousRequest a = false →
  ret_requestSendResult (RequestCreateAndSend_send a e request id s).1 = true →
  (RequestCreateAndSend_send a e request id s).2 = log (Call_WdfRequestSend request false) s.
Proof.
  intros Ha. unfold RequestCreateAndSend_send, RequestCreateAndSend_Exit. rewrite Ha.
  walk; simpl in *; decided; try done; try congruence.
  all: intros Htaken; rewrite Htaken in *; done.
Qed.

Lemma RequestCreateAndSend_arm_taken a e request s :
  IsSynchronousRequest a = false →
  ret_requestSendResult (RequestCreateAndSend_arm a e request s).1 = true →
  let s' := (RequestCreateAndSend_arm a e request s).2 in
  Completion (Request_read s' request)
    = Some (RequestCreateAndSend_completionRoutineSingle (CompletionOption a),
            (DMF_BufferPool_Get_answer e).2) ∧
  Deleted (Request_read s' request) = Deleted (Request_read s request) ∧
  QueuedWorkitems s' = QueuedWorkitems s ∧
  PendingReuseRequests (moduleContext s') = PendingReuseRequests (moduleContext s).
Proof.
  intros Ha. cbv zeta. unfold RequestCreateAndSend_arm. rewrite Ha.
  destruct (NT_SUCCESS (DMF_BufferPool_Get_answer e).1); cbn [negb];
    [|unfold RequestCreateAndSend_Exit; by simpl].
  unfold RequestTarget_PendingCollectionListAdd.
  destruct (DmfRequestIdCancel a);
    [destruct (NT_SUCCESS (WdfCollectionAdd_answer e)) eqn:Hadd; cbn [negb fst snd];
       rewrite ?Hadd; cbn [negb]; [|unfold RequestCreateAndSend_Exit; by simpl]|].
  all: intros Htaken; rewrite (RequestCreateAndSend_send_taken _ _ _ _ _ Ha Htaken).
  all: repeat split; read_request; done.
Qed.

(** An asynchronous create-and-send that the target took returns with its
    completion routine set on the request it created, the request not
    deleted, and the workitem queue and the reuse collection as they were. *)
Lemma RequestCreateAndSend_taken a e s :
  IsSynchronousRequest a = false →
  ret_requestSendResult (RequestTarget_RequestCreateAndSend a e s).1 = true →
  let s' := (RequestTarget_RequestCreateAndSend a e s).2 in
  let request := (WdfRequestCreate_answer e).2 in
  Completion (Request_read s' request)
    = Some (RequestCreateAndSend_completionRoutineSingle (CompletionOption a),
            (DMF_BufferPool_Get_answer e).2) ∧
  Deleted (Request_read s' request) = false ∧
  QueuedWorkitems s' = QueuedWorkitems s ∧
  PendingReuseRequests (moduleContext s') = PendingReuseRequests (moduleContext s).
Proof.
  intros Ha. cbv zeta. unfold RequestTarget_RequestCreateAndSend.
  walk; try (unfold RequestCreateAndSend_Exit; simpl; done).
  all: format_cases.
  all: intros Htaken;
       destruct (RequestCreateAndSend_arm_taken _ _ _ _ Ha Htaken) as (-> & -> & -> & ->).
  all: repeat split; read_request; try done.
  all: unfold Request_read, WdfRequestCreate; simpl; by rewrite lookup_insert_eq.
Qed.

Lemma RequestSendReuse_send_taken a e request m1 m2 id s :
  IsSynchronousRequest a = false →
  ret_requestSendResult (RequestSendReuse_send a e request m1 m2 id s).1 = true →
  (RequestSendReuse_send a e request m1 m2 id s).2 = log (Call_WdfRequestSend request false) s.
Proof.
  intros Ha. unfold RequestSendReuse_send, RequestSendReuse_Exit. rewrite Ha.
  walk; simpl in *; decided; try done; try congruence.
  all: intros Htaken; rewrite Htaken in *; done.
Qed.

Lemma RequestSendReuse_arm_taken a e request m1 m2 ntStatus s :
  IsSynchronousRequest a = false →
  ret_requestSendResult (RequestSendReuse_arm a e request m1 m2 ntStatus s).1 = true →
  let s' := (RequestSendReuse_arm a e request m1 m2 ntStatus s).2 in
  (∃ routine,
     RequestSendReuse_completionRoutineSingle (CompletionOption a) = Some routine ∧
     Completion (Request_read s' request)
       = Some (routine, (DMF_BufferPool_Get_answer e).2)) ∧
  Deleted (Request_read s' request) = Deleted (Request_read s request) ∧
  RequestInUse (UniqueRequestContextGet s' request)
    = RequestInUse (UniqueRequestContextGet s request) ∧
  QueuedWorkitems s' = QueuedWorkitems s.
Proof.
  intros Ha. cbv zeta. unfold RequestSendReuse_arm. rewrite Ha.
  destruct (RequestSendReuse_completionRoutineSingle (CompletionOption a)) as [routine|];
    [|unfold RequestSendReuse_Exit; by simpl].
  destruct (NT_SUCCESS (DMF_BufferPool_Get_answer e).1); cbn [negb];
    [|unfold RequestSendReuse_Exit; by simpl].
  unfold RequestTarget_PendingCollectionListAdd.
  destruct (DmfRequestIdCancel a);
    [destruct (NT_SUCCESS (WdfCollectionAdd_answer e)) eqn:Hadd; cbn [negb fst snd];
       rewrite ?Hadd; cbn [negb]; [|unfold RequestSendReuse_Exit; by simpl]|].
  all: intros Htaken; rewrite (RequestSendReuse_send_taken _ _ _ _ _ _ _ Ha Htaken).
  all: split; [exists routine; split; [done|]; read_request; done|].
  all: repeat split; read_request; done.
Qed.

Lemma RequestSendReuse_attach_taken a e request ntStatus s :
  IsSynchronousRequest a = false →
  ret_requestSendResult (RequestSendReuse_attach a e request ntStatus s).1 = true →
  let s' := (RequestSendReuse_attach a e request ntStatus s).2 in
  (∃ routine,
     RequestSendReuse_completionRoutineSingle (CompletionOption a) = Some routine ∧
     Completion (Request_read s' request)
       = Some (routine, (DMF_BufferPool_Get_answer e).2)) ∧
  Deleted (Request_read s' request) = Deleted (Request_read s request) ∧
  RequestInUse (UniqueRequestContextGet s' request)
    = RequestInUse (UniqueRequestContextGet s request) ∧
  QueuedWorkitems s' = QueuedWorkitems s.
Proof.
  intros Ha. cbv zeta. unfold RequestSendReuse_attach.
  walk; try (unfold RequestSendReuse_Exit; simpl; done).
  all: format_cases.
  all: intros Htaken;
       destruct (RequestSendReuse_arm_taken _ _ _ _ _ _ _ Ha Htaken)
         as (Hroutine & -> & -> & ->).
  all: done.
Qed.

(** An asynchronous reuse-send that the target took returns with a
    completion routine of the reuse Methods set on the request of the slot,
    the request flagged in use and no more deleted than it was, and the
    workitem queue, the reuse collection and the other slots as they were. *)
Lemma RequestSendReuse_taken a id e s request :
  IsSynchronousRequest a = false →
  reuse_slot s id = Some (request, false) →
  ret_requestSendResult (RequestTarget_RequestSendReuse a id e s).1 = true →
  let s' := (RequestTarget_RequestSendReuse a id e s).2 in
  (∃ routine,
     RequestSendReuse_completionRoutineSingle (CompletionOption a) = Some routine ∧
     Completion (Request_read s' request)
       = Some (routine, (DMF_BufferPool_Get_answer e).2)) ∧
  Deleted (Request_read s' request) = Deleted (Request_read s request) ∧
  RequestInUse (UniqueRequestContextGet s' request) = true ∧
  QueuedWorkitems s' = QueuedWorkitems s ∧
  keeps request s s'.
Proof.
  intros Ha Hslot Htaken. cbv zeta.
  pose proof (proj1 (RequestSendReuse_keeps a id e s request Hslot)) as Hkeeps.
  revert Htaken Hkeeps. unfold RequestTarget_RequestSendReuse.
  rewrite (ReuseListSearch_idle _ _ _ Hslot).
  destruct (NT_SUCCESS (WdfRequestReuse_answer e)); cbn [negb];
    [|unfold RequestSendReuse_Exit; by simpl].
  intros Htaken Hkeeps.
  destruct (RequestSendReuse_attach_taken _ _ _ _ _ Ha Htaken) as (Hroutine & -> & -> & ->).
  split; [done|]. split; [by read_request|]. split; [by read_request|].
  split; [done | exact Hkeeps].
Qed.

(** The framework calls the completion routine set on a request, and the
    worker then runs the queued workitem, the queue holding nothing else and
    the Client callback calling no Method. *)
Lemma completed_request routine Context_ request p completion x :
  Completion (Request_read x request) = Some (routine, Context_) →
  QueuedWorkitems x = [] →
  let x' := run [Op_Completed request p completion []; Op_QueuedWorkitem completion []] x in
  Deleted (Request_read x' request)
    = (if is_reuse_routine routine then Deleted (Request_read x request) else true) ∧
  QueuedWorkitems x' = [] ∧
  keeps request x x' ∧
  (is_reuse_routine routine = true →
   RequestInUse (UniqueRequestContextGet x' request) = false).
Proof.
  intros Hroutine Hqueue. cbv zeta. cbn [run step]. rewrite Hroutine.
  destruct routine; cbn [run_CompletionRoutine is_reuse_routine].
  1,2: unfold RequestTarget_ProcessAsynchronousRequestSingle,
         RequestTarget_ProcessAsynchronousRequestSingleReuse;
       match goal with
       | |- context [RequestTarget_ProcessAsynchronousRequestRoot ?client ?e ?R ?q ?C ?b ?y] =>
           destruct (Root_request client e R q C b y) as (HD & HQ & HK & HU);
             [intros; reflexivity|];
           set (x1 := RequestTarget_ProcessAsynchronousRequestRoot client e R q C b y) in *
       end;
       rewrite HQ, Hqueue;
       (split; [exact HD|]); (split; [by rewrite HQ|]); (split; [exact HK | exact HU]).
  all: unfold DMF_QueuedWorkItem_Enqueue; cbn [QueuedWorkitems set_QueuedWorkitems];
       rewrite Hqueue; cbn [app];
       unfold RequestTarget_QueuedWorkitemCallbackSingle; cbn [wi_ReuseRequest negb
         wi_Request wi_CompletionParams wi_SingleAsynchronousRequestContext];
       unfold RequestTarget_ProcessAsynchronousRequestSingle,
         RequestTarget_ProcessAsynchronousRequestSingleReuse.
  all: match goal with
       | |- context [RequestTarget_ProcessAsynchronousRequestRoot ?client ?e ?R ?q ?C ?b ?y] =>
           destruct (Root_request client e R q C b y) as (HD & HQ & HK & HU);
             [intros; reflexivity|];
           set (x1 := RequestTarget_ProcessAsynchronousRequestRoot client e R q C b y) in *
       end.
  all: split; [exact HD|]. all: split; [exact HQ|]. all: split; [|exact HU].
  all: eapply keeps_trans; [|exact HK]; by apply keeps_same_Requests.
Qed.

Lemma reuse_slot_keeps id request b b' s s' :
  reuse_slot s id = Some (request, b) →
  keeps request s s' →
  RequestInUse (UniqueRequestContextGet s' request) = b' →
  reuse_slot s' id = Some (request, b').
Proof.
  intros Hslot (HP & Hid & Hother) Hflag.
  unfold reuse_slot, Collection_items in *. simpl. rewrite HP.
  by eapply ReuseListSearch_scan_flag.
Qed.

(** C6. Completion never takes a request out of [PendingReuseRequests], and
    it deletes a request exactly when the request is not a reusable one. The
    completion is the one the framework runs: the completion routine that the
    send set on the request, followed by the queued workitem, the queue
    holding nothing else and the Client callback calling no Method.
    (1) A request that [DMF_RequestTarget_SendEx] or [DMF_RequestTarget_Send]
    created and the target took is not deleted when the Method returns and is
    deleted once its completion has run; [PendingReuseRequests] is as before
    the send. (2) The request of an idle slot that
    [DMF_RequestTarget_ReuseSend] sent and the target took is in use when the
    Method returns; once its completion has run it is no more deleted than
    before the send, [PendingReuseRequests] is as it was, and the cookie
    names the request as an idle slot again. (3) Over any run of steps none
    of which, callbacks included, calls [DMF_RequestTarget_ReuseDelete], the
    items of [PendingReuseRequests] stay where they are, new ones going to
    the end: only reuse-delete removes a slot. *)
Theorem only_reuse_delete_removes_slot :
  (∀ reference passive a e s p completion,
     let destroyed (r : SendReturn * State) :=
       let request := (WdfRequestCreate_answer e).2 in
       ret_requestSendResult r.1 = true →
       QueuedWorkitems s = [] →
       let s' := run [Op_Completed request p completion [];
                      Op_QueuedWorkitem completion []] r.2 in
       Deleted (Request_read r.2 request) = false ∧
       Deleted (Request_read s' request) = true ∧
       PendingReuseRequests (moduleContext s') = PendingReuseRequests (moduleContext s) in
     destroyed (DMF_RequestTarget_SendEx reference passive a e s) ∧
     destroyed (DMF_RequestTarget_Send reference passive a e s)) ∧
  (∀ reference passive id a e s request p completion,
     let r := DMF_RequestTarget_ReuseSend reference passive id a e s in
     reuse_slot s id = Some (request, false) →
     ret_requestSendResult r.1 = true →
     QueuedWorkitems s = [] →
     let s' := run [Op_Completed request p completion [];
                    Op_QueuedWorkitem completion []] r.2 in
     reuse_slot r.2 id = Some (request, true) ∧
     Deleted (Request_read s' request) = Deleted (Request_read s request) ∧
     PendingReuseRequests (moduleContext s') = PendingReuseRequests (moduleContext s) ∧
     reuse_slot s' id = Some (request, false)) ∧
  (∀ ops s,
     any_calls_ReuseDelete ops = false →
     ∃ added,
       PendingReuseRequests (moduleContext (run ops s))
         = (λ l, l ++ added) <$> PendingReuseRequests (moduleContext s)).
Proof.
  assert (Hone : ∀ reference passive a e s p completion,
            let r := DMF_RequestTarget_SendEx reference passive a e s in
            let request := (WdfRequestCreate_answer e).2 in
            ret_requestSendResult r.1 = true →
            QueuedWorkitems s = [] →
            let s' := run [Op_Completed request p completion [];
                           Op_QueuedWorkitem completion []] r.2 in
            Deleted (Request_read r.2 request) = false ∧
            Deleted (Request_read s' request) = true ∧
            PendingReuseRequests (moduleContext s')
              = PendingReuseRequests (moduleContext s)).
  { intros reference passive a e s p completion. cbv zeta.
    unfold DMF_RequestTarget_SendEx.
    destruct (NT_SUCCESS reference); cbn [negb]; [|by simpl].
    pose proof (RequestCreateAndSend_taken (asynchronous_arguments passive a) e
                  (DMF_ModuleReference s) eq_refl) as Htaken.
    destruct (RequestTarget_RequestCreateAndSend (asynchronous_arguments passive a) e
                (DMF_ModuleReference s)) as [r x].
    cbn [fst snd] in Htaken.
    assert (Hsame : ∀ y, (if negb (NT_SUCCESS (ret_ntStatus r))
                          then (r, DMF_ModuleDereference y) else (r, y)).1 = r)
      by (intros y; by destruct (negb _)).
    intros Hsent Hqueue. rewrite Hsame in Hsent.
    destruct (Htaken Hsent) as (HC & HD & HQ & HP).
    assert (Hx : ∀ x',
              (x' = x ∨ x' = DMF_ModuleDereference x) →
              Deleted (Request_read x' (WdfRequestCreate_answer e).2) = false ∧
              Deleted
                (Request_read
                   (run [Op_Completed (WdfRequestCreate_answer e).2 p completion [];
                         Op_QueuedWorkitem completion []] x')
                   (WdfRequestCreate_answer e).2) = true ∧
              PendingReuseRequests
                (moduleContext
                   (run [Op_Completed (WdfRequestCreate_answer e).2 p completion [];
                         Op_QueuedWorkitem completion []] x'))
                = PendingReuseRequests (moduleContext s)).
    { intros x' Hx'.
      assert (HC' : Completion (Request_read x' (WdfRequestCreate_answer e).2)
                    = Some (RequestCreateAndSend_completionRoutineSingle
                              (CompletionOption (asynchronous_arguments passive a)),
                            (DMF_BufferPool_Get_answer e).2))
        by (by destruct Hx' as [-> | ->]).
      assert (HD' : Deleted (Request_read x' (WdfRequestCreate_answer e).2) = false)
        by (by destruct Hx' as [-> | ->]).
      assert (HQ' : QueuedWorkitems x' = [])
        by (destruct Hx' as [-> | ->]; by rewrite <- Hqueue).
      assert (HP' : PendingReuseRequests (moduleContext x')
                    = PendingReuseRequests (moduleContext s))
        by (by destruct Hx' as [-> | ->]).
      destruct (completed_request _ _ _ p completion x' HC' HQ')
        as (HD1 & _ & (HP1 & _) & _).
      split; [done|]. split.
      - rewrite HD1. by destruct passive.
      - by rewrite HP1. }
    destruct (negb (NT_SUCCESS (ret_ntStatus r))); cbn [fst snd]; apply Hx; auto. }
  split; [|split].
  - intros reference passive a e s p completion. cbv zeta. split.
    + apply Hone.
    + apply (Hone reference passive (without_DmfRequestIdCancel a)).
  - intros reference passive id a e s request p completion. cbv zeta.
    intros Hslot. unfold DMF_RequestTarget_ReuseSend.
    destruct (NT_SUCCESS reference); cbn [negb]; [|by simpl].
    pose proof (reuse_slot_ModuleReference s id) as Hslot'. rewrite Hslot in Hslot'.
    pose proof (RequestSendReuse_taken (asynchronous_arguments passive a) id e
                  (DMF_ModuleReference s) request eq_refl Hslot') as Htaken.
    destruct (RequestTarget_RequestSendReuse (asynchronous_arguments passive a) id e
                (DMF_ModuleReference s)) as [r x].
    cbn [fst snd] in Htaken.
    assert (Hsame : ∀ y, (if negb (NT_SUCCESS (ret_ntStatus r))
                          then (r, DMF_ModuleDereference y) else (r, y)).1 = r)
      by (intros y; by destruct (negb _)).
    intros Hsent Hqueue. rewrite Hsame in Hsent.
    destruct (Htaken Hsent) as ((routine & Hroutine & HC) & HD & HU & HQ & HK).
    assert (Hreuse : is_reuse_routine routine = true).
    { revert Hroutine. simpl. destruct passive; by intros [= <-]. }
    assert (Hx : ∀ x',
              (x' = x ∨ x' = DMF_ModuleDereference x) →
              let s' := run [Op_Completed request p completion [];
                             Op_QueuedWorkitem completion []] x' in
              reuse_slot x' id = Some (request, true) ∧
              Deleted (Request_read s' request) = Deleted (Request_read s request) ∧
              PendingReuseRequests (moduleContext s')
                = PendingReuseRequests (moduleContext s) ∧
              reuse_slot s' id = Some (request, false)).
    { intros x' Hx'.
      assert (HC' : Completion (Request_read x' request)
                    = Some (routine, (DMF_BufferPool_Get_answer e).2))
        by (by destruct Hx' as [-> | ->]).
      assert (HD' : Deleted (Request_read x' request) = Deleted (Request_read s request))
        by (by destruct Hx' as [-> | ->]).
      assert (HU' : RequestInUse (UniqueRequestContextGet x' request) = true)
        by (by destruct Hx' as [-> | ->]).
      assert (HQ' : QueuedWorkitems x' = [])
        by (destruct Hx' as [-> | ->]; by rewrite <- Hqueue).
      assert (HK' : keeps request s x').
      { eapply keeps_trans; [by apply (keeps_same_Requests request s (DMF_ModuleReference s))|].
        eapply keeps_trans; [exact HK|].
        destruct Hx' as [-> | ->]; [apply keeps_refl | by apply keeps_same_Requests]. }
      destruct (completed_request _ _ _ p completion x' HC' HQ')
        as (HD1 & _ & HK1 & HU1).
      rewrite Hreuse in HD1. cbv zeta.
      split; [by eapply reuse_slot_keeps|].
      split; [by rewrite HD1|].
      split; [destruct HK1 as [-> _]; by destruct HK' as [-> _]|].
      eapply reuse_slot_keeps; [exact Hslot | by eapply keeps_trans | by apply HU1]. }
    destruct (negb (NT_SUCCESS (ret_ntStatus r))); cbn [fst snd]; apply Hx; auto.
  - intros ops s Hops. apply (Rel_run reuse_grows reuse_grows_respected). by right.
Qed.

(** The same at concrete inputs: a one-shot request sent with a cancel cookie
    and completed, and the reusable request of the cookie 7 sent and
    completed. *)
Lemma only_reuse_delete_removes_slot_witness :
  let completed request :=
    run [Op_Completed request
           (Completion_WdfRequestGetCompletionParams example_completion)
           example_completion [];
         Op_QueuedWorkitem example_completion []] in
  (let s := state_of 0 [] [] [] in
   let r := DMF_RequestTarget_SendEx STATUS_SUCCESS false example_arguments
              (example_answers 20%positive true STATUS_SUCCESS) s in
   Deleted (Request_read r.2 20%positive) = false ∧
   Deleted (Request_read (completed 20%positive r.2) 20%positive) = true) ∧
  (let s := state_of 7 [(5%positive, {| UniqueRequestIdCancel := 0;
                                        UniqueRequestIdReuse := 7;
                                        RequestInUse := false |})] [] [5%positive] in
   let r := DMF_RequestTarget_ReuseSend STATUS_SUCCESS false 7 example_arguments
              (example_answers 5%positive true STATUS_SUCCESS) s in
   reuse_slot r.2 7 = Some (5%positive, true) ∧
   Deleted (Request_read (completed 5%positive r.2) 5%positive) = false ∧
   PendingReuseRequests (moduleContext (completed 5%positive r.2)) = Some [5%positive] ∧
   reuse_slot (completed 5%positive r.2) 7 = Some (5%positive, false)).
Proof.
  intros completed. split.
  - intros s r.
    destruct (proj1 (proj1 only_reuse_delete_removes_slot STATUS_SUCCESS false
                       example_arguments (example_answers 20%positive true STATUS_SUCCESS)
                       s (Completion_WdfRequestGetCompletionParams example_completion)
                       example_completion) eq_refl eq_refl) as (H1 & H2 & _).
    split; [exact H1 | exact H2].
  - intros s r.
    destruct (proj1 (proj2 only_reuse_delete_removes_slot) STATUS_SUCCESS false 7
                example_arguments (example_answers 5%positive true STATUS_SUCCESS) s
                5%positive (Completion_WdfRequestGetCompletionParams example_completion)
                example_completion eq_refl eq_refl eq_refl) as (H1 & H2 & H3 & H4).
    split; [exact H1|]. split; [exact H2|]. split; [exact H3 | exact H4].
Defined.

(** * Properties of Dmf_ScheduledTask.c *)

(** ** The persistent count *)

(** [DMF_ScheduledTask_TimesRunSet] and [DMF_ScheduledTask_TimesRunGet]. A
    set that returns success is read back by every get that succeeds, a set
    that fails leaves the state as it was, and a get that fails, because the
    key cannot be opened, the value cannot be read or the value does not
    exist, yields zero. A get never changes anything: it only returns. *)
Theorem times_run_is_read_back (e_set e_get : RegistryAnswers) (TimesRun : ULONG)
    (s : ScheduledTask_State) :
  let w := DMF_ScheduledTask_TimesRunSet e_set TimesRun s in
  (NT_SUCCESS w.1 = registry_works e_set) ∧
  (if NT_SUCCESS w.1
   then DMF_ScheduledTask_TimesRunGet e_get w.2
        = if registry_works e_get then (WdfRegistryValue_answer e_get, TimesRun)
          else ((DMF_ScheduledTask_TimesRunGet e_get w.2).1, 0%N)
   else w.2 = s) ∧
  NT_SUCCESS (DMF_ScheduledTask_TimesRunGet e_get w.2).1
    = registry_works e_get && bool_decide (is_Some (Registry_TimesRun w.2)) ∧
  (NT_SUCCESS (DMF_ScheduledTask_TimesRunGet e_get s).1 = false →
   (DMF_ScheduledTask_TimesRunGet e_get s).2 = 0%N) ∧
  ScheduledTask_moduleContext w.2 = ScheduledTask_moduleContext s ∧
  ScheduledTask_Trace w.2 = ScheduledTask_Trace s.
Proof.
  cbv zeta.
  unfold DMF_ScheduledTask_TimesRunSet, DMF_ScheduledTask_TimesRunGet, registry_works,
    WdfRegistryAssignULong, WdfRegistryQueryValue.
  destruct (NT_SUCCESS (WdfDriverOpenParametersRegistryKey_answer e_set)) eqn:H1;
    destruct (NT_SUCCESS (WdfRegistryValue_answer e_set)) eqn:H2;
    destruct (NT_SUCCESS (WdfDriverOpenParametersRegistryKey_answer e_get)) eqn:H3;
    destruct (NT_SUCCESS (WdfRegistryValue_answer e_get)) eqn:H4;
    destruct (Registry_TimesRun s) eqn:H5;
    cbn [negb andb fst snd Registry_TimesRun set_Registry_TimesRun
         ScheduledTask_moduleContext ScheduledTask_Trace];
    rewrite ?H1, ?H2, ?H3, ?H4, ?H5; cbn [negb andb fst snd];
    rewrite ?H1, ?H2, ?H3, ?H4, ?H5;
    repeat split; try done.
Qed.

Lemma times_run_is_read_back_witness :
  let e := {| WdfDriverOpenParametersRegistryKey_answer := STATUS_SUCCESS;
              WdfRegistryValue_answer := STATUS_SUCCESS |} in
  let s := ScheduledTask_allocated None in
  DMF_ScheduledTask_TimesRunGet e s = (STATUS_OBJECT_NAME_NOT_FOUND, 0%N) ∧
  (DMF_ScheduledTask_TimesRunGet e s).2 = 0%N ∧
  DMF_ScheduledTask_TimesRunGet e (DMF_ScheduledTask_TimesRunSet e 3%N s).2
    = (STATUS_SUCCESS, 3%N).
Proof.
  intros e s. split; [reflexivity|]. split.
  - exact (proj1 (proj2 (proj2 (proj2 (times_run_is_read_back e e 3%N s)))) eq_refl).
  - exact (proj1 (proj2 (times_run_is_read_back e e 3%N s))).
Defined.

(** ** The work is done once *)

Lemma ClientWorkDo_completed moduleConfig e ClientContext PreviousState s :
  WorkIsCompleted (ScheduledTask_moduleContext s) = true →
  ScheduledTask_ClientWorkDo moduleConfig e ClientContext PreviousState s
    = (ScheduledTask_WorkResult_Success, s).
Proof.
  intros Hdone. unfold ScheduledTask_ClientWorkDo. rewrite Hdone.
  by repeat case_match.
Qed.

Lemma DeferredHandlerOnDemand_completed moduleConfig iterations s s' :
  flag_kept moduleConfig →
  WorkIsCompleted (ScheduledTask_moduleContext s) = true →
  ScheduledTask_DeferredHandlerOnDemand moduleConfig iterations s = Some s' →
  WorkIsCompleted (ScheduledTask_moduleContext s') = true.
Proof.
  intros Hkept. revert s. induction iterations as [|[reference e] iterations IH];
    intros s Hdone; simpl; [done|].
  set (s1 := if NT_SUCCESS reference then _ else s).
  assert (H1 : WorkIsCompleted (ScheduledTask_moduleContext s1) = true).
  { unfold s1. destruct (NT_SUCCESS reference); [|done].
    destruct (OnDemandCallbackContext (ScheduledTask_moduleContext s)).
    - unfold call_EvtScheduledTaskCallback. by apply Hkept.
    - by rewrite ClientWorkDo_completed. }
  clearbody s1. case_bool_decide.
  - apply IH. done.
  - intros [= <-]. done.
Qed.

Lemma ScheduledTask_step_completed moduleConfig op s s' :
  flag_kept moduleConfig →
  WorkIsCompleted (ScheduledTask_moduleContext s) = true →
  ScheduledTask_step moduleConfig op s = Some s' →
  WorkIsCompleted (ScheduledTask_moduleContext s') = true.
Proof.
  intros Hkept Hdone.
  destruct op; simpl; try (intros [= <-]).
  - unfold DMF_ScheduledTask_Open. by repeat case_match.
  - unfold DMF_ScheduledTask_ModulePrepareHardware, ScheduledTask_execute.
    repeat case_match; simplify_eq; try done.
    all: rewrite ClientWorkDo_completed in * by done; by simplify_eq.
  - unfold DMF_ScheduledTask_ModuleReleaseHardware. by case_match.
  - unfold DMF_ScheduledTask_ModuleD0Entry, ScheduledTask_execute.
    repeat case_match; simplify_eq; try done.
    all: rewrite ClientWorkDo_completed in * by done; by simplify_eq.
  - unfold DMF_ScheduledTask_ModuleD0Exit. by case_match.
  - unfold ScheduledTask_TimerHandler. by rewrite ClientWorkDo_completed.
  - by apply DeferredHandlerOnDemand_completed.
  - unfold DMF_ScheduledTask_ExecuteNow, call_EvtScheduledTaskCallback. by apply Hkept.
  - unfold DMF_ScheduledTask_ExecuteNowDeferred, ScheduledTask_enqueue.
    by repeat case_match.
  - unfold DMF_ScheduledTask_ExecuteNowDeferredEx, ScheduledTask_enqueue.
    by repeat case_match.
  - unfold DMF_ScheduledTask_TimesRunSet, WdfRegistryAssignULong. by repeat case_match.
Qed.

(** The work is done once. (1) Where the completion is not kept in the
    registry, a [ScheduledTask_ClientWorkDo] that returns success leaves
    [WorkIsCompleted] set, whether it called the Client or found the work
    done. (2) No step of the Module clears the flag, Open included, as long
    as the Client callback does not: once it is set it is set after every run
    of steps, and from then on [ScheduledTask_ClientWorkDo] returns success
    without calling the Client and without changing anything, so that the
    timer handler makes no call at all. *)
Theorem work_is_done_once (moduleConfig : DMF_CONFIG_ScheduledTask) :
  flag_kept moduleConfig →
  (∀ e ClientContext PreviousState s,
     PersistenceType moduleConfig ≠ ScheduledTask_Persistence_PersistentAcrossReboots →
     (ScheduledTask_ClientWorkDo moduleConfig e ClientContext PreviousState s).1
       = ScheduledTask_WorkResult_Success →
     WorkIsCompleted
       (ScheduledTask_moduleContext
          (ScheduledTask_ClientWorkDo moduleConfig e ClientContext PreviousState s).2)
       = true) ∧
  (∀ ops s s',
     WorkIsCompleted (ScheduledTask_moduleContext s) = true →
     ScheduledTask_run moduleConfig ops s = Some s' →
     WorkIsCompleted (ScheduledTask_moduleContext s') = true ∧
     (∀ e ClientContext PreviousState,
        ScheduledTask_ClientWorkDo moduleConfig e ClientContext PreviousState s'
          = (ScheduledTask_WorkResult_Success, s')) ∧
     (∀ e, ScheduledTask_Trace (ScheduledTask_TimerHandler moduleConfig e s')
             = ScheduledTask_Trace s')).
Proof.
  intros Hkept. split.
  - intros e c p s Hp. unfold ScheduledTask_ClientWorkDo.
    destruct (PersistenceType moduleConfig) eqn:Hpt; [|done|].
    all: destruct (WorkIsCompleted (ScheduledTask_moduleContext s)) eqn:Hdone; [done|].
    all: destruct (call_EvtScheduledTaskCallback moduleConfig c p s) as [w x].
    all: destruct w; cbn [fst snd]; try done.
  - intros ops. induction ops as [|op ops IH]; intros s s' Hdone; simpl.
    + intros [= <-]. split; [done|]. split.
      * intros e c p. by apply ClientWorkDo_completed.
      * intros e. unfold ScheduledTask_TimerHandler. by rewrite ClientWorkDo_completed.
    + destruct (ScheduledTask_step moduleConfig op s) as [s1|] eqn:Hstep; [|done].
      apply IH. by eapply ScheduledTask_step_completed.
Qed.

Lemma work_is_done_once_witness :
  let moduleConfig :=
    example_task ScheduledTask_Persistence_NotPersistentAcrossReboots
      ScheduledTask_ExecutionMode_Immediate ScheduledTask_ExecuteWhen_D0Entry
      ScheduledTask_WorkResult_Success in
  let s1 := (ScheduledTask_ClientWorkDo moduleConfig example_work_answers None
               WdfPowerDeviceInvalid (ScheduledTask_allocated None)).2 in
  ∃ s2,
    ScheduledTask_run moduleConfig
      [Op_ModuleD0Exit; Op_Open (STATUS_SUCCESS, 1%positive) (STATUS_SUCCESS, 2%positive);
       Op_ModuleD0Entry example_work_answers 1%N; Op_TimerHandler example_work_answers] s1
      = Some s2 ∧
    ScheduledTask_ClientWorkDo moduleConfig example_work_answers None WdfPowerDeviceInvalid s2
      = (ScheduledTask_WorkResult_Success, s2).
Proof.
  intros moduleConfig s1.
  assert (Hkept : flag_kept moduleConfig) by (intros c p s H; exact H).
  assert (H1 : WorkIsCompleted (ScheduledTask_moduleContext s1) = true).
  { apply (proj1 (work_is_done_once moduleConfig Hkept)); [discriminate | reflexivity]. }
  eexists. split; [reflexivity|].
  refine (proj1 (proj2 (proj2 (work_is_done_once moduleConfig Hkept)
                          [Op_ModuleD0Exit;
                           Op_Open (STATUS_SUCCESS, 1%positive) (STATUS_SUCCESS, 2%positive);
                           Op_ModuleD0Entry example_work_answers 1%N;
                           Op_TimerHandler example_work_answers] s1 _ H1 _))
            example_work_answers None WdfPowerDeviceInvalid).
  reflexivity.
Defined.

Lemma TimesRunGet_unreadable e s :
  registry_works e = false → (DMF_ScheduledTask_TimesRunGet e s).2 = 0%N.
Proof.
  unfold registry_works, DMF_ScheduledTask_TimesRunGet, WdfRegistryQueryValue.
  destruct (NT_SUCCESS (WdfDriverOpenParametersRegistryKey_answer e)); [|done].
  destruct (NT_SUCCESS (WdfRegistryValue_answer e)); [done|]. done.
Qed.

(** Work whose completion is kept in the registry. (1) When the Client
    callback is called and returns success, and the registry can be written,
    the value "TimesRun" is 1 when [ScheduledTask_ClientWorkDo] returns.
    (2) In any Module context, a freshly allocated one after a reboot
    included, a "TimesRun" of 1 or more that can be read makes
    [ScheduledTask_ClientWorkDo] return success without calling the Client
    and without changing anything. (3) When the registry cannot be read and
    the flag of the context is not set, the Client is called, whatever the
    registry holds. *)
Theorem persistent_work_is_remembered (moduleConfig : DMF_CONFIG_ScheduledTask) :
  PersistenceType moduleConfig = ScheduledTask_Persistence_PersistentAcrossReboots →
  (∀ e ClientContext PreviousState s,
     WorkIsCompleted (ScheduledTask_moduleContext s) = false →
     (DMF_ScheduledTask_TimesRunGet (TimesRunGet_answers e) s).2 = 0%N →
     (call_EvtScheduledTaskCallback moduleConfig ClientContext PreviousState s).1
       = ScheduledTask_WorkResult_Success →
     registry_works (TimesRunSet_answers e) = true →
     Registry_TimesRun
       (ScheduledTask_ClientWorkDo moduleConfig e ClientContext PreviousState s).2
       = Some 1%N) ∧
  (∀ e ClientContext PreviousState s TimesRun,
     Registry_TimesRun s = Some TimesRun → (1 ≤ TimesRun)%N →
     registry_works (TimesRunGet_answers e) = true →
     ScheduledTask_ClientWorkDo moduleConfig e ClientContext PreviousState s
       = (ScheduledTask_WorkResult_Success, s)) ∧
  (∀ e ClientContext PreviousState s,
     registry_works (TimesRunGet_answers e) = false →
     WorkIsCompleted (ScheduledTask_moduleContext s) = false →
     (ScheduledTask_ClientWorkDo moduleConfig e ClientContext PreviousState s).1
       = (call_EvtScheduledTaskCallback moduleConfig ClientContext PreviousState s).1).
Proof.
  intros Hp. split; [|split].
  - intros e c p s Hflag Hread Hresult Hwrite.
    unfold ScheduledTask_ClientWorkDo. rewrite Hp, Hread, Hflag.
    rewrite bool_decide_false by (intros H; by apply N.le_0_r in H).
    destruct (call_EvtScheduledTaskCallback moduleConfig c p s) as [w x].
    simpl in Hresult. subst w. cbn [snd].
    unfold registry_works in Hwrite. apply andb_true_iff in Hwrite as [H1 H2].
    unfold DMF_ScheduledTask_TimesRunSet, WdfRegistryAssignULong. by rewrite H1, H2.
  - intros e c p s v Hv Hle Hread.
    unfold registry_works in Hread. apply andb_true_iff in Hread as [H1 H2].
    unfold ScheduledTask_ClientWorkDo, DMF_ScheduledTask_TimesRunGet, WdfRegistryQueryValue.
    rewrite Hp, H1, H2, Hv. cbn [negb fst snd]. by rewrite bool_decide_true.
  - intros e c p s Hread Hflag.
    unfold ScheduledTask_ClientWorkDo.
    rewrite Hp, Hflag, TimesRunGet_unreadable by done.
    rewrite bool_decide_false by (intros H; by apply N.le_0_r in H).
    destruct (call_EvtScheduledTaskCallback moduleConfig c p s) as [w x].
    by destruct w.
Qed.

Lemma persistent_work_is_remembered_witness :
  let moduleConfig :=
    example_task ScheduledTask_Persistence_PersistentAcrossReboots
      ScheduledTask_ExecutionMode_Immediate ScheduledTask_ExecuteWhen_D0Entry
      ScheduledTask_WorkResult_Success in
  let s1 := (ScheduledTask_ClientWorkDo moduleConfig example_work_answers None
               WdfPowerDeviceInvalid (ScheduledTask_allocated None)).2 in
  let rebooted := ScheduledTask_allocated (Registry_TimesRun s1) in
  Registry_TimesRun s1 = Some 1%N ∧
  ScheduledTask_ClientWorkDo moduleConfig example_work_answers None WdfPowerDeviceInvalid
    rebooted = (ScheduledTask_WorkResult_Success, rebooted).
Proof.
  intros moduleConfig s1 rebooted.
  pose proof (persistent_work_is_remembered moduleConfig eq_refl) as (H1 & H2 & _).
  split.
  - exact (H1 example_work_answers None WdfPowerDeviceInvalid (ScheduledTask_allocated None)
             eq_refl eq_refl eq_refl eq_refl).
  - apply (H2 example_work_answers None WdfPowerDeviceInvalid rebooted 1%N);
      [reflexivity | done | reflexivity].
Defined.

(** ** Retries and the release of the hardware *)

(** The timer handler on a state in which retries are disabled, with a
    Client that calls no Method and work that is not yet done. *)
Lemma TimerHandler_retries_disabled moduleConfig e s :
  quiet moduleConfig →
  PersistenceType moduleConfig ≠ ScheduledTask_Persistence_PersistentAcrossReboots →
  WorkIsCompleted (ScheduledTask_moduleContext s) = false →
  DisableRetries (ScheduledTask_moduleContext s) = true →
  let after := ScheduledTask_TimerHandler moduleConfig e s in
  ScheduledTask_Trace after
    = Call_EvtScheduledTaskCallback (CallbackContext moduleConfig) WdfPowerDeviceInvalid
        :: ScheduledTask_Trace s ∧
  TimerIsStarted (ScheduledTask_moduleContext after) = false ∧
  DisableRetries (ScheduledTask_moduleContext after) = true.
Proof.
  intros Hquiet Hp Hflag Hdisabled. cbv zeta.
  unfold ScheduledTask_TimerHandler, ScheduledTask_ClientWorkDo, ScheduledTask_TimerRestart,
    call_EvtScheduledTaskCallback.
  cbn [ScheduledTask_moduleContext ScheduledTask_update WorkIsCompleted with_TimerIsStarted].
  rewrite Hflag.
  match goal with
  | |- context [EvtScheduledTaskCallback moduleConfig ?c ?p ?x] =>
      pose proof (Hquiet c p x) as Hx;
      destruct (EvtScheduledTaskCallback moduleConfig c p x) as [w y]
  end.
  simpl in Hx. subst y.
  destruct (PersistenceType moduleConfig); try done; destruct w; cbn; rewrite ?Hdisabled;
    by repeat split.
Qed.

(** Releasing the hardware stops the retries. With a Client that calls no
    Method and work that is not yet done: after
    [DMF_ScheduledTask_ModuleReleaseHardware] (when the work is tied to
    PrepareHardware) or [DMF_ScheduledTask_ModuleD0Exit] (when it is tied to
    D0Entry), a timer handler that still runs calls the Client once and starts
    no timer, whatever the Client returns and whatever the Rundown child
    Module answers; without the release, and with a reference granted, the
    same handler restarts the timer with the period of the result when the
    Client asks to try again. *)
Theorem release_stops_the_retries (moduleConfig : DMF_CONFIG_ScheduledTask)
    (e : ClientWorkDoAnswers) (s : ScheduledTask_State) :
  quiet moduleConfig →
  PersistenceType moduleConfig ≠ ScheduledTask_Persistence_PersistentAcrossReboots →
  WorkIsCompleted (ScheduledTask_moduleContext s) = false →
  let called :=
    Call_EvtScheduledTaskCallback (CallbackContext moduleConfig) WdfPowerDeviceInvalid in
  (∀ released,
     (ExecuteWhen moduleConfig = ScheduledTask_ExecuteWhen_PrepareHardware ∧
      released = (DMF_ScheduledTask_ModuleReleaseHardware moduleConfig s).2) ∨
     (ExecuteWhen moduleConfig = ScheduledTask_ExecuteWhen_D0Entry ∧
      released = (DMF_ScheduledTask_ModuleD0Exit moduleConfig s).2) →
     ScheduledTask_Trace (ScheduledTask_TimerHandler moduleConfig e released)
       = [called; Call_WdfTimerStop false] ++ ScheduledTask_Trace s ∧
     TimerIsStarted
       (ScheduledTask_moduleContext (ScheduledTask_TimerHandler moduleConfig e released))
       = false) ∧
  (DisableRetries (ScheduledTask_moduleContext s) = false →
   NT_SUCCESS (DMF_Rundown_Reference_answer e) = true →
   let workResult :=
     (EvtScheduledTaskCallback moduleConfig (CallbackContext moduleConfig)
        WdfPowerDeviceInvalid
        (ScheduledTask_log called (ScheduledTask_update (with_TimerIsStarted false) s))).1 in
   ScheduledTask_Trace (ScheduledTask_TimerHandler moduleConfig e s)
     = match workResult with
       | ScheduledTask_WorkResult_SuccessButTryAgain =>
           [Call_WdfTimerStart (TimerPeriodMsOnSuccess moduleConfig)]
       | ScheduledTask_WorkResult_FailButTryAgain =>
           [Call_WdfTimerStart (TimerPeriodMsOnFail moduleConfig)]
       | _ => []
       end ++ called :: ScheduledTask_Trace s).
Proof.
  intros Hquiet Hp Hflag. cbv zeta. split.
  - intros released Hreleased.
    assert (Hstate : released
                     = ScheduledTask_update (with_DisableRetries true)
                         (ScheduledTask_log (Call_WdfTimerStop false) s)).
    { destruct Hreleased as [[Hw ->] | [Hw ->]];
        unfold DMF_ScheduledTask_ModuleReleaseHardware, DMF_ScheduledTask_ModuleD0Exit;
        by rewrite Hw. }
    subst released.
    destruct (TimerHandler_retries_disabled moduleConfig e
                (ScheduledTask_update (with_DisableRetries true)
                   (ScheduledTask_log (Call_WdfTimerStop false) s)))
      as (H1 & H2 & _); try done.
  - intros Hretry Href.
    unfold ScheduledTask_TimerHandler, ScheduledTask_ClientWorkDo, ScheduledTask_TimerRestart,
      call_EvtScheduledTaskCallback.
    cbn [ScheduledTask_moduleContext ScheduledTask_update WorkIsCompleted
         with_TimerIsStarted].
    rewrite Hflag.
    match goal with
    | |- context [EvtScheduledTaskCallback moduleConfig ?c ?p ?x] =>
        pose proof (Hquiet c p x) as Hx;
        destruct (EvtScheduledTaskCallback moduleConfig c p x) as [w y]
    end.
    simpl in Hx. subst y.
    destruct (PersistenceType moduleConfig); try done; destruct w; cbn;
      rewrite ?Hretry, ?Href; done.
Qed.

Lemma release_stops_the_retries_witness :
  let moduleConfig :=
    example_task ScheduledTask_Persistence_NotPersistentAcrossReboots
      ScheduledTask_ExecutionMode_Deferred ScheduledTask_ExecuteWhen_PrepareHardware
      ScheduledTask_WorkResult_FailButTryAgain in
  let s := ScheduledTask_allocated None in
  let called := Call_EvtScheduledTaskCallback (Some 7%positive) WdfPowerDeviceInvalid in
  ScheduledTask_Trace
    (ScheduledTask_TimerHandler moduleConfig example_work_answers
       (DMF_ScheduledTask_ModuleReleaseHardware moduleConfig s).2)
    = [called; Call_WdfTimerStop false] ∧
  ScheduledTask_Trace (ScheduledTask_TimerHandler moduleConfig example_work_answers s)
    = [Call_WdfTimerStart 250%N; called].
Proof.
  intros moduleConfig s called.
  pose proof (release_stops_the_retries moduleConfig example_work_answers s
                (λ _ _ _, eq_refl) ltac:(discriminate) eq_refl) as [H1 H2].
  split.
  - exact (proj1 (H1 _ (or_introl (conj eq_refl eq_refl)))).
  - exact (H2 eq_refl eq_refl).
Defined.

(** A timer that the release of the hardware stopped is not started again.
    With deferred work tied to PrepareHardware, the first
    [DMF_ScheduledTask_ModulePrepareHardware] starts the timer and sets
    [TimerIsStarted]; [DMF_ScheduledTask_ModuleReleaseHardware] stops the
    timer but leaves [TimerIsStarted] set; the next
    [DMF_ScheduledTask_ModulePrepareHardware] therefore starts no timer. The
    three callbacks return success and the Client is not called. The same
    holds of D0Entry, D0Exit, D0Entry for work tied to D0Entry. *)
Theorem prepare_after_release_starts_no_timer (moduleConfig : DMF_CONFIG_ScheduledTask)
    (e1 e2 : ClientWorkDoAnswers) (p1 p2 : WDF_POWER_DEVICE_STATE)
    (s : ScheduledTask_State) :
  ExecutionMode moduleConfig = ScheduledTask_ExecutionMode_Deferred →
  TimerIsStarted (ScheduledTask_moduleContext s) = false →
  let stopped_for_good (s3 : ScheduledTask_State) :=
    ScheduledTask_Trace s3
      = [Call_WdfTimerStop false; Call_WdfTimerStart (TimeMsBeforeInitialCall moduleConfig)]
        ++ ScheduledTask_Trace s ∧
    TimerIsStarted (ScheduledTask_moduleContext s3) = true ∧
    DisableRetries (ScheduledTask_moduleContext s3) = false in
  (ExecuteWhen moduleConfig = ScheduledTask_ExecuteWhen_PrepareHardware →
   let r1 := DMF_ScheduledTask_ModulePrepareHardware moduleConfig e1 s in
   let r2 := DMF_ScheduledTask_ModuleReleaseHardware moduleConfig r1.2 in
   let r3 := DMF_ScheduledTask_ModulePrepareHardware moduleConfig e2 r2.2 in
   r1.1 = STATUS_SUCCESS ∧ r2.1 = STATUS_SUCCESS ∧ r3.1 = STATUS_SUCCESS ∧
   stopped_for_good r3.2) ∧
  (ExecuteWhen moduleConfig = ScheduledTask_ExecuteWhen_D0Entry →
   let r1 := DMF_ScheduledTask_ModuleD0Entry moduleConfig e1 p1 s in
   let r2 := DMF_ScheduledTask_ModuleD0Exit moduleConfig r1.2 in
   let r3 := DMF_ScheduledTask_ModuleD0Entry moduleConfig e2 p2 r2.2 in
   r1.1 = STATUS_SUCCESS ∧ r2.1 = STATUS_SUCCESS ∧ r3.1 = STATUS_SUCCESS ∧
   stopped_for_good r3.2).
Proof.
  intros Hmode Hstarted. cbv zeta.
  split; intros Hwhen;
    unfold DMF_ScheduledTask_ModulePrepareHardware, DMF_ScheduledTask_ModuleReleaseHardware,
      DMF_ScheduledTask_ModuleD0Entry, DMF_ScheduledTask_ModuleD0Exit, ScheduledTask_execute;
    rewrite Hwhen, Hmode; cbn; rewrite Hstarted; cbn; by repeat split.
Qed.

Lemma prepare_after_release_starts_no_timer_witness :
  let moduleConfig :=
    example_task ScheduledTask_Persistence_NotPersistentAcrossReboots
      ScheduledTask_ExecutionMode_Deferred ScheduledTask_ExecuteWhen_PrepareHardware
      ScheduledTask_WorkResult_Success in
  let s := ScheduledTask_allocated None in
  let r1 := DMF_ScheduledTask_ModulePrepareHardware moduleConfig example_work_answers s in
  let r2 := DMF_ScheduledTask_ModuleReleaseHardware moduleConfig r1.2 in
  let r3 := DMF_ScheduledTask_ModulePrepareHardware moduleConfig example_work_answers r2.2 in
  ScheduledTask_Trace r3.2 = [Call_WdfTimerStop false; Call_WdfTimerStart 0%N] ∧
  TimerIsStarted (ScheduledTask_moduleContext r3.2) = true.
Proof.
  intros moduleConfig s r1 r2 r3.
  pose proof (proj1 (prepare_after_release_starts_no_timer moduleConfig example_work_answers
                       example_work_answers 0%N 0%N s eq_refl eq_refl) eq_refl)
    as (_ & _ & _ & H1 & H2 & _).
  split; [exact H1 | exact H2].
Defined.

(** ** The power-up callbacks *)

(** Immediate work decides the power-up. With a Client that calls no Method,
    immediate work that is not yet done and whose completion is not kept in
    the registry, and a Rundown child Module that grants its reference: the
    callback the work is tied to calls the Client once and returns success
    when the Client returns success or success-but-try-again, and
    STATUS_UNSUCCESSFUL otherwise. A Client that fails and asks to be tried
    again thus fails the power-up although the timer of the retry has been
    started, retries disabled by an earlier release being enabled again by the
    callback. The other of the two callbacks returns success and does
    nothing. *)
Theorem immediate_work_decides_the_power_up (moduleConfig : DMF_CONFIG_ScheduledTask)
    (e : ClientWorkDoAnswers) (PreviousState : WDF_POWER_DEVICE_STATE)
    (s : ScheduledTask_State) :
  quiet moduleConfig →
  ExecutionMode moduleConfig = ScheduledTask_ExecutionMode_Immediate →
  PersistenceType moduleConfig ≠ ScheduledTask_Persistence_PersistentAcrossReboots →
  WorkIsCompleted (ScheduledTask_moduleContext s) = false →
  NT_SUCCESS (DMF_Rundown_Reference_answer e) = true →
  let acted (PreviousState : WDF_POWER_DEVICE_STATE) (r : NTSTATUS * ScheduledTask_State) :=
    let called :=
      Call_EvtScheduledTaskCallback (CallbackContext moduleConfig) PreviousState in
    let workResult :=
      (EvtScheduledTaskCallback moduleConfig (CallbackContext moduleConfig) PreviousState
         (ScheduledTask_log called (ScheduledTask_update (with_DisableRetries false) s))).1 in
    r.1 = match workResult with
          | ScheduledTask_WorkResult_Success
          | ScheduledTask_WorkResult_SuccessButTryAgain => STATUS_SUCCESS
          | _ => STATUS_UNSUCCESSFUL
          end ∧
    ScheduledTask_Trace r.2
      = match workResult with
        | ScheduledTask_WorkResult_SuccessButTryAgain =>
            [Call_WdfTimerStart (TimerPeriodMsOnSuccess moduleConfig)]
        | ScheduledTask_WorkResult_FailButTryAgain =>
            [Call_WdfTimerStart (TimerPeriodMsOnFail moduleConfig)]
        | _ => []
        end ++ called :: ScheduledTask_Trace s ∧
    WorkIsCompleted (ScheduledTask_moduleContext r.2)
      = bool_decide (workResult = ScheduledTask_WorkResult_Success) ∧
    TimerIsStarted (ScheduledTask_moduleContext r.2)
      = match workResult with
        | ScheduledTask_WorkResult_SuccessButTryAgain
        | ScheduledTask_WorkResult_FailButTryAgain => true
        | _ => TimerIsStarted (ScheduledTask_moduleContext s)
        end in
  (ExecuteWhen moduleConfig = ScheduledTask_ExecuteWhen_PrepareHardware →
   acted WdfPowerDeviceInvalid (DMF_ScheduledTask_ModulePrepareHardware moduleConfig e s) ∧
   DMF_ScheduledTask_ModuleD0Entry moduleConfig e PreviousState s = (STATUS_SUCCESS, s)) ∧
  (ExecuteWhen moduleConfig = ScheduledTask_ExecuteWhen_D0Entry →
   acted PreviousState (DMF_ScheduledTask_ModuleD0Entry moduleConfig e PreviousState s) ∧
   DMF_ScheduledTask_ModulePrepareHardware moduleConfig e s = (STATUS_SUCCESS, s)).
Proof.
  intros Hquiet Hmode Hpersistence Hdone Hreference. cbv zeta.
  unfold DMF_ScheduledTask_ModulePrepareHardware, DMF_ScheduledTask_ModuleD0Entry,
    ScheduledTask_execute, ScheduledTask_ClientWorkDo, call_EvtScheduledTaskCallback,
    ScheduledTask_TimerRestart.
  rewrite Hmode, Hreference.
  split; intros ->; (split; [|done]).
  all: cbn [ScheduledTask_update ScheduledTask_moduleContext WorkIsCompleted
            with_DisableRetries].
  all: rewrite Hdone.
  all: match goal with
       | |- context [EvtScheduledTaskCallback ?m ?c ?q ?x] =>
           pose proof (Hquiet c q x) as Hsame;
           destruct (EvtScheduledTaskCallback m c q x) as [w y]
       end.
  all: simpl in Hsame; subst y.
  all: destruct (PersistenceType _); [| done |].
  all: by destruct w.
Qed.

(** The same at a concrete input: a Client that fails and asks to be tried
    again, in a Module whose retries an earlier release disabled. *)
Lemma immediate_work_decides_the_power_up_witness :
  let moduleConfig :=
    example_task ScheduledTask_Persistence_NotPersistentAcrossReboots
      ScheduledTask_ExecutionMode_Immediate ScheduledTask_ExecuteWhen_D0Entry
      ScheduledTask_WorkResult_FailButTryAgain in
  let s := ScheduledTask_update (with_DisableRetries true) (ScheduledTask_allocated None) in
  let r := DMF_ScheduledTask_ModuleD0Entry moduleConfig example_work_answers 5%N s in
  r.1 = STATUS_UNSUCCESSFUL ∧
  ScheduledTask_Trace r.2
    = [Call_WdfTimerStart 250%N; Call_EvtScheduledTaskCallback (Some 7%positive) 5%N].
Proof.
  intros moduleConfig s r.
  assert (Hquiet : quiet moduleConfig) by (intros ? ? ?; reflexivity).
  assert (Hpersistence : PersistenceType moduleConfig
                         ≠ ScheduledTask_Persistence_PersistentAcrossReboots) by done.
  destruct (proj2 (immediate_work_decides_the_power_up moduleConfig example_work_answers
                     5%N s Hquiet eq_refl Hpersistence eq_refl eq_refl) eq_refl)
    as [(H1 & H2 & _) _].
  split; [exact H1 | exact H2].
Defined.

(** ** Deferred calls on demand *)

Lemma LONG_wrap_id x : - 2 ^ 31 ≤ x < 2 ^ 31 → LONG_wrap x = x.
Proof.
  intros Hx. unfold LONG_wrap.
  rewrite Z.mod_small by lia. lia.
Qed.

Lemma enqueue_idle reference context s :
  NumberOfPendingCalls (ScheduledTask_moduleContext s) = 0 →
  ScheduledTask_enqueue reference context s
  = if NT_SUCCESS reference
    then (STATUS_SUCCESS,
          ScheduledTask_log Call_WdfWorkItemEnqueue
            (ScheduledTask_update (with_OnDemandCallbackContext context)
               (ScheduledTask_update (with_NumberOfPendingCalls 1) s)))
    else (STATUS_UNSUCCESSFUL, s).
Proof.
  intros Hn. unfold ScheduledTask_enqueue. rewrite Hn.
  change (InterlockedIncrement 0) with 1. rewrite decide_True by done.
  destruct (NT_SUCCESS reference); [done|]. f_equal.
  destruct s as [[t w ts d o n r] g tr]. simpl in *. subst n. reflexivity.
Qed.

Lemma enqueue_pending reference context s :
  0 < NumberOfPendingCalls (ScheduledTask_moduleContext s) < 2 ^ 31 - 1 →
  ScheduledTask_enqueue reference context s
  = (STATUS_SUCCESS,
     ScheduledTask_update
       (with_NumberOfPendingCalls
          (NumberOfPendingCalls (ScheduledTask_moduleContext s) + 1)) s).
Proof.
  intros Hn. unfold ScheduledTask_enqueue, InterlockedIncrement.
  rewrite LONG_wrap_id by lia. rewrite decide_False by lia. done.
Qed.

(** Deferred calls share one workitem. From a Module with no deferred call
    pending, a first [DMF_ScheduledTask_ExecuteNowDeferred] that the Rundown
    child Module refuses returns STATUS_UNSUCCESSFUL and leaves the state as
    it was. One that is granted enqueues the workitem and stores its context;
    every further call made before the workitem runs returns STATUS_SUCCESS
    without asking the Rundown child Module (its answer is not read),
    enqueues nothing and only counts: after the calls the count is their
    number, the workitem was enqueued once and the stored context is that of
    the first call, the contexts of the others being dropped. *)
Theorem deferred_calls_share_one_workitem (reference : NTSTATUS) (context : option PVOID)
    (further : list (NTSTATUS * option PVOID)) (s : ScheduledTask_State) :
  NumberOfPendingCalls (ScheduledTask_moduleContext s) = 0 →
  Z.of_nat (length further) + 1 < 2 ^ 31 →
  (NT_SUCCESS reference = false →
   DMF_ScheduledTask_ExecuteNowDeferred reference context s = (STATUS_UNSUCCESSFUL, s)) ∧
  (NT_SUCCESS reference = true →
   let first := DMF_ScheduledTask_ExecuteNowDeferred reference context s in
   let s' := foldl (λ x call, (DMF_ScheduledTask_ExecuteNowDeferred call.1 call.2 x).2)
               first.2 further in
   first.1 = STATUS_SUCCESS ∧
   NumberOfPendingCalls (ScheduledTask_moduleContext s') = 1 + Z.of_nat (length further) ∧
   OnDemandCallbackContext (ScheduledTask_moduleContext s') = context ∧
   ScheduledTask_Trace s' = Call_WdfWorkItemEnqueue :: ScheduledTask_Trace s ∧
   WorkIsCompleted (ScheduledTask_moduleContext s')
     = WorkIsCompleted (ScheduledTask_moduleContext s)).
Proof.
  intros Hn Hbound. unfold DMF_ScheduledTask_ExecuteNowDeferred.
  rewrite enqueue_idle by done. split; intros ->; [done|]. cbv zeta. cbn [fst snd].
  split; [done|].
  set (s1 := ScheduledTask_log _ _).
  assert (H1 : NumberOfPendingCalls (ScheduledTask_moduleContext s1) = 1) by done.
  assert (H2 : OnDemandCallbackContext (ScheduledTask_moduleContext s1) = context) by done.
  assert (H3 : ScheduledTask_Trace s1 = Call_WdfWorkItemEnqueue :: ScheduledTask_Trace s)
    by done.
  assert (H4 : WorkIsCompleted (ScheduledTask_moduleContext s1)
               = WorkIsCompleted (ScheduledTask_moduleContext s)) by done.
  clearbody s1. rewrite <- H2, <- H3, <- H4.
  assert (Hgen : ∀ k x,
    NumberOfPendingCalls (ScheduledTask_moduleContext x) = Z.of_nat k →
    (0 < k)%nat → Z.of_nat k + Z.of_nat (length further) < 2 ^ 31 →
    let x' := foldl (λ x call, (ScheduledTask_enqueue call.1 call.2 x).2) x further in
    NumberOfPendingCalls (ScheduledTask_moduleContext x')
      = Z.of_nat k + Z.of_nat (length further) ∧
    OnDemandCallbackContext (ScheduledTask_moduleContext x')
      = OnDemandCallbackContext (ScheduledTask_moduleContext x) ∧
    ScheduledTask_Trace x' = ScheduledTask_Trace x ∧
    WorkIsCompleted (ScheduledTask_moduleContext x')
      = WorkIsCompleted (ScheduledTask_moduleContext x)).
  { clear. induction further as [|[ref c] further IH]; intros k x Hk Hpos Hb; simpl.
    - repeat split. lia.
    - rewrite enqueue_pending by (simpl in Hb; lia). cbn [snd].
      destruct (IH (S k) (ScheduledTask_update
                            (with_NumberOfPendingCalls
                               (NumberOfPendingCalls (ScheduledTask_moduleContext x) + 1)) x))
        as (G1 & G2 & G3 & G4).
      + simpl. lia.
      + lia.
      + simpl in Hb. lia.
      + cbv zeta in G1, G2, G3, G4. rewrite G1, G2, G3, G4. repeat split.
        simpl length. lia. }
  destruct (Hgen 1%nat s1) as (G1 & G2 & G3 & G4); [done | lia | lia |].
  cbv zeta in G1, G2, G3, G4. by rewrite G1, G2, G3, G4.
Qed.

Lemma deferred_calls_share_one_workitem_witness :
  let s := ScheduledTask_allocated None in
  let first := DMF_ScheduledTask_ExecuteNowDeferred STATUS_SUCCESS (Some 3%positive) s in
  let s' := foldl (λ x call, (DMF_ScheduledTask_ExecuteNowDeferred call.1 call.2 x).2)
              first.2 [(STATUS_UNSUCCESSFUL, Some 4%positive); (STATUS_SUCCESS, None)] in
  DMF_ScheduledTask_ExecuteNowDeferred STATUS_UNSUCCESSFUL (Some 3%positive) s
    = (STATUS_UNSUCCESSFUL, s) ∧
  NumberOfPendingCalls (ScheduledTask_moduleContext s') = 3 ∧
  OnDemandCallbackContext (ScheduledTask_moduleContext s') = Some 3%positive ∧
  ScheduledTask_Trace s' = [Call_WdfWorkItemEnqueue].
Proof.
  intros s first s'.
  assert (Hbound : Z.of_nat 2 + 1 < 2 ^ 31) by (vm_compute; reflexivity).
  split.
  - exact (proj1 (deferred_calls_share_one_workitem STATUS_UNSUCCESSFUL (Some 3%positive)
                    [(STATUS_UNSUCCESSFUL, Some 4%positive); (STATUS_SUCCESS, None)] s
                    eq_refl Hbound) eq_refl).
  - pose proof (proj2 (deferred_calls_share_one_workitem STATUS_SUCCESS (Some 3%positive)
                         [(STATUS_UNSUCCESSFUL, Some 4%positive); (STATUS_SUCCESS, None)] s
                         eq_refl Hbound) eq_refl) as (_ & H1 & H2 & H3 & _).
    split; [exact H1 | split; [exact H2 | exact H3]].
Defined.

Lemma ClientWorkDo_pending_calls moduleConfig e ClientContext PreviousState s :
  pending_calls_kept moduleConfig →
  NumberOfPendingCalls
    (ScheduledTask_moduleContext
       (ScheduledTask_ClientWorkDo moduleConfig e ClientContext PreviousState s).2)
    = NumberOfPendingCalls (ScheduledTask_moduleContext s) ∧
  OnDemandCallbackContext
    (ScheduledTask_moduleContext
       (ScheduledTask_ClientWorkDo moduleConfig e ClientContext PreviousState s).2)
    = OnDemandCallbackContext (ScheduledTask_moduleContext s).
Proof.
  intros Hkept.
  unfold ScheduledTask_ClientWorkDo, call_EvtScheduledTaskCallback,
    ScheduledTask_TimerRestart, DMF_ScheduledTask_TimesRunSet, WdfRegistryAssignULong.
  match goal with
  | |- context [EvtScheduledTaskCallback moduleConfig ?c ?p ?x] =>
      destruct (Hkept c p x) as [H1 H2];
      destruct (EvtScheduledTaskCallback moduleConfig c p x) as [w y]
  end.
  simpl in H1, H2.
  repeat case_match; simplify_eq; cbn; by rewrite ?H1, ?H2.
Qed.

(** One turn of the loop of the workitem handler, up to the decrement. *)
Lemma DeferredHandlerOnDemand_turn moduleConfig reference e s :
  pending_calls_kept moduleConfig →
  ∃ s1,
    NumberOfPendingCalls (ScheduledTask_moduleContext s1)
      = NumberOfPendingCalls (ScheduledTask_moduleContext s) ∧
    OnDemandCallbackContext (ScheduledTask_moduleContext s1)
      = OnDemandCallbackContext (ScheduledTask_moduleContext s) ∧
    ∀ iterations,
      ScheduledTask_DeferredHandlerOnDemand moduleConfig ((reference, e) :: iterations) s
      = let pendingCalls :=
          InterlockedDecrement (NumberOfPendingCalls (ScheduledTask_moduleContext s)) in
        let s2 := ScheduledTask_update (with_NumberOfPendingCalls pendingCalls) s1 in
        if bool_decide (0 < pendingCalls)
        then ScheduledTask_DeferredHandlerOnDemand moduleConfig iterations s2
        else Some s2.
Proof.
  intros Hkept.
  set (s1 :=
         if NT_SUCCESS reference then
           match OnDemandCallbackContext (ScheduledTask_moduleContext s) with
           | Some onDemandCallbackContext =>
               (call_EvtScheduledTaskCallback moduleConfig (Some onDemandCallbackContext)
                  WdfPowerDeviceInvalid s).2
           | None =>
               (ScheduledTask_ClientWorkDo moduleConfig e (CallbackContext moduleConfig)
                  WdfPowerDeviceInvalid s).2
           end
         else s).
  assert (H : NumberOfPendingCalls (ScheduledTask_moduleContext s1)
              = NumberOfPendingCalls (ScheduledTask_moduleContext s) ∧
              OnDemandCallbackContext (ScheduledTask_moduleContext s1)
              = OnDemandCallbackContext (ScheduledTask_moduleContext s)).
  { unfold s1. destruct (NT_SUCCESS reference); [|done].
    destruct (OnDemandCallbackContext (ScheduledTask_moduleContext s)) eqn:Hctx.
    - unfold call_EvtScheduledTaskCallback.
      match goal with
      | |- context [EvtScheduledTaskCallback moduleConfig ?c ?q ?x] =>
          destruct (Hkept c q x) as [K1 K2]
      end.
      rewrite K1, K2. simpl. by rewrite Hctx.
    - rewrite <- Hctx. by apply ClientWorkDo_pending_calls. }
  exists s1. destruct H as [H1 H2]. split; [done|]. split; [done|].
  intros iterations. cbn [ScheduledTask_DeferredHandlerOnDemand]. fold s1.
  by rewrite H1.
Qed.

(** The workitem handler serves every pending call. With a Client callback
    that makes no deferred call itself, and [n] deferred calls pending, the
    loop of the handler takes exactly [n] turns, one for each pending call,
    whether or not the Rundown child Module grants the reference of a turn:
    the handler does not return before (it returns no state when given fewer
    than [n] turns), it returns after the [n]-th turn, and it leaves the
    count of pending calls at zero and the stored context as it was. *)
Theorem handler_serves_every_pending_call (moduleConfig : DMF_CONFIG_ScheduledTask)
    (iterations : list (NTSTATUS * ClientWorkDoAnswers)) (s : ScheduledTask_State)
    (n : nat) :
  pending_calls_kept moduleConfig →
  NumberOfPendingCalls (ScheduledTask_moduleContext s) = Z.of_nat n →
  (0 < n)%nat →
  Z.of_nat n < 2 ^ 31 →
  ((length iterations < n)%nat →
   ScheduledTask_DeferredHandlerOnDemand moduleConfig iterations s = None) ∧
  ((n ≤ length iterations)%nat →
   ∃ s',
     ScheduledTask_DeferredHandlerOnDemand moduleConfig iterations s = Some s' ∧
     ScheduledTask_DeferredHandlerOnDemand moduleConfig (take n iterations) s = Some s' ∧
     NumberOfPendingCalls (ScheduledTask_moduleContext s') = 0 ∧
     OnDemandCallbackContext (ScheduledTask_moduleContext s')
       = OnDemandCallbackContext (ScheduledTask_moduleContext s)).
Proof.
  intros Hkept. revert s n.
  induction iterations as [|[reference e] iterations IH]; intros s n Hn Hpos Hbound.
  { split; [done | simpl; lia]. }
  destruct (DeferredHandlerOnDemand_turn moduleConfig reference e s Hkept)
    as (s1 & H1 & H2 & Hturn).
  assert (Hdec : InterlockedDecrement (NumberOfPendingCalls (ScheduledTask_moduleContext s))
                 = Z.of_nat n - 1).
  { unfold InterlockedDecrement. rewrite Hn. apply LONG_wrap_id. lia. }
  destruct n as [|[|m]]; [lia| |].
  - (* the last pending call *)
    split; [simpl; lia|]. intros _.
    change (take 1 ((reference, e) :: iterations)) with [(reference, e)].
    rewrite !Hturn. cbv zeta. rewrite Hdec, !bool_decide_false by lia.
    eexists. split; [done|]. split; [done|]. split; [simpl; lia | exact H2].
  - change (take (S (S m)) ((reference, e) :: iterations))
      with ((reference, e) :: take (S m) iterations).
    rewrite !Hturn. cbv zeta. rewrite Hdec, !bool_decide_true by lia.
    set (s2 := ScheduledTask_update (with_NumberOfPendingCalls (Z.of_nat (S (S m)) - 1)) s1).
    destruct (IH s2 (S m)) as [IH1 IH2]; [simpl; lia | lia | lia |].
    split.
    + intros Hlen. apply IH1. simpl in Hlen. lia.
    + intros Hlen. destruct IH2 as (s' & G1 & G2 & G3 & G4); [simpl in Hlen; lia|].
      exists s'. split; [done|]. split; [done|]. split; [done|].
      rewrite G4. simpl. exact H2.
Qed.

(** The same at a concrete input: two pending calls and a handler given three
    turns; the second turn is the last. *)
Lemma handler_serves_every_pending_call_witness :
  let moduleConfig :=
    example_task ScheduledTask_Persistence_NotPersistentAcrossReboots
      ScheduledTask_ExecutionMode_Deferred ScheduledTask_ExecuteWhen_D0Entry
      ScheduledTask_WorkResult_Success in
  let iterations :=
    [(STATUS_SUCCESS, example_work_answers);
     (STATUS_UNSUCCESSFUL, example_work_answers);
     (STATUS_SUCCESS, example_work_answers)] in
  let s :=
    ScheduledTask_update (with_NumberOfPendingCalls 2) (ScheduledTask_allocated None) in
  ∃ s',
    ScheduledTask_DeferredHandlerOnDemand moduleConfig iterations s = Some s' ∧
    NumberOfPendingCalls (ScheduledTask_moduleContext s') = 0.
Proof.
  intros moduleConfig iterations s.
  assert (Hkept : pending_calls_kept moduleConfig) by (intros ? ? ?; split; reflexivity).
  destruct (handler_serves_every_pending_call moduleConfig iterations s 2 Hkept)
    as [_ H]; [reflexivity | lia | vm_compute; reflexivity |].
  destruct H as (s' & H1 & _ & H3 & _); [simpl; lia|].
  exists s'. by split.
Defined.

(** A legacy deferred call ignores that the work is done. With a Client
    callback that calls no Method, no deferred call pending and a Rundown
    child Module that grants the reference of the call: after a
    [DMF_ScheduledTask_ExecuteNowDeferred] with a context that is not NULL,
    the workitem handler calls the Client with that context when the Rundown
    child Module grants the reference of its turn, whether the work is already
    completed or not, and makes no call when the reference is refused; either
    way, and whatever the Client returns, neither the completion flag, nor the
    timer, nor the registry value changes, and no call is left pending. After
    a [DMF_ScheduledTask_ExecuteNowDeferredEx] on completed work the handler
    does not call the Client at all. *)
Theorem legacy_deferred_call_ignores_completion (moduleConfig : DMF_CONFIG_ScheduledTask)
    (reference turn : NTSTATUS) (e : ClientWorkDoAnswers)
    (rest : list (NTSTATUS * ClientWorkDoAnswers)) (context : PVOID)
    (s : ScheduledTask_State) :
  quiet moduleConfig →
  NumberOfPendingCalls (ScheduledTask_moduleContext s) = 0 →
  NT_SUCCESS reference = true →
  (∃ s',
     ScheduledTask_DeferredHandlerOnDemand moduleConfig ((turn, e) :: rest)
       (DMF_ScheduledTask_ExecuteNowDeferred reference (Some context) s).2 = Some s' ∧
     ScheduledTask_Trace s'
       = (if NT_SUCCESS turn
          then [Call_EvtScheduledTaskCallback (Some context) WdfPowerDeviceInvalid]
          else [])
         ++ Call_WdfWorkItemEnqueue :: ScheduledTask_Trace s ∧
     WorkIsCompleted (ScheduledTask_moduleContext s')
       = WorkIsCompleted (ScheduledTask_moduleContext s) ∧
     TimerIsStarted (ScheduledTask_moduleContext s')
       = TimerIsStarted (ScheduledTask_moduleContext s) ∧
     Registry_TimesRun s' = Registry_TimesRun s ∧
     NumberOfPendingCalls (ScheduledTask_moduleContext s') = 0) ∧
  (WorkIsCompleted (ScheduledTask_moduleContext s) = true →
   ∃ s',
     ScheduledTask_DeferredHandlerOnDemand moduleConfig ((turn, e) :: rest)
       (DMF_ScheduledTask_ExecuteNowDeferredEx reference s).2 = Some s' ∧
     ScheduledTask_Trace s' = Call_WdfWorkItemEnqueue :: ScheduledTask_Trace s ∧
     NumberOfPendingCalls (ScheduledTask_moduleContext s') = 0).
Proof.
  intros Hquiet Hn Hreference.
  unfold DMF_ScheduledTask_ExecuteNowDeferred, DMF_ScheduledTask_ExecuteNowDeferredEx.
  rewrite !enqueue_idle by done. rewrite Hreference.
  cbn [snd ScheduledTask_DeferredHandlerOnDemand].
  destruct (NT_SUCCESS turn).
  - split.
    + cbn [ScheduledTask_log ScheduledTask_update ScheduledTask_moduleContext
           OnDemandCallbackContext with_OnDemandCallbackContext with_NumberOfPendingCalls].
      unfold call_EvtScheduledTaskCallback. rewrite Hquiet.
      cbn. eexists. split; [reflexivity|]. by cbn.
    + intros Hdone.
      cbn [ScheduledTask_log ScheduledTask_update ScheduledTask_moduleContext
           OnDemandCallbackContext with_OnDemandCallbackContext with_NumberOfPendingCalls].
      rewrite ClientWorkDo_completed by done.
      cbn. eexists. split; [reflexivity|]. by cbn.
  - split; [|intros _]; cbn; eexists; (split; [reflexivity|]); by cbn.
Qed.

(** The same at a concrete input: work already completed, and a Client that
    returns success; the handler is granted its reference. *)
Lemma legacy_deferred_call_ignores_completion_witness :
  let moduleConfig :=
    example_task ScheduledTask_Persistence_NotPersistentAcrossReboots
      ScheduledTask_ExecutionMode_Deferred ScheduledTask_ExecuteWhen_D0Entry
      ScheduledTask_WorkResult_Success in
  let s := ScheduledTask_update (with_WorkIsCompleted true) (ScheduledTask_allocated None) in
  ∃ s',
    ScheduledTask_DeferredHandlerOnDemand moduleConfig [(STATUS_SUCCESS, example_work_answers)]
      (DMF_ScheduledTask_ExecuteNowDeferred STATUS_SUCCESS (Some 9%positive) s).2 = Some s' ∧
    ScheduledTask_Trace s'
      = [Call_EvtScheduledTaskCallback (Some 9%positive) WdfPowerDeviceInvalid;
         Call_WdfWorkItemEnqueue].
Proof.
  intros moduleConfig s.
  assert (Hquiet : quiet moduleConfig) by (intros ? ? ?; reflexivity).
  destruct (legacy_deferred_call_ignores_completion moduleConfig STATUS_SUCCESS
              STATUS_SUCCESS example_work_answers [] 9%positive s Hquiet)
    as [(s' & H1 & H2 & _) _]; [reflexivity | reflexivity |].
  exists s'. by split.
Defined.
